(** * dbt-gemini-agent-starter: the heuristic core of the dbt tools

    A shallow embedding of
      - [tools/dbt_translate.py]   (pattern catalogue, file search,
                                    translation routing, dialect scan),
      - [tools/dbt_compile.py]     (compile wrapper),
      - [sub_agents/dbt_model_analyzer.py] (schema classification),
    followed by the properties of the specification that concern them.

    Conventions.
      - Python [str] is [string]; text is taken to be ASCII, so that
        [str.lower] only moves the letters A-Z.
      - Python dictionaries returned to the caller are association lists
        in insertion order, with values in [pyval].
      - The file system is a tree of directories and files; paths follow
        the POSIX flavour of [pathlib] (no symbolic links).  What the
        tree does not tell is asked of the [World]: the [OSError] of an
        existence check, the outcome of a glob pattern with wildcards of
        its own, the exceptions of [mkdir], of a write, of a process and
        of [json.loads].
      - A computation runs in [M]: it reads the [World], appends to a log
        of observable events and either returns or raises. *)

From Stdlib Require Import String Ascii List Bool Arith ZArith Lia DecimalString.
From Stdlib Require Import Permutation Sorted OrderedTypeEx.
Import ListNotations.
Local Open Scope string_scope.
Local Open Scope list_scope.

Set Implicit Arguments.

(* ================================================================== *)
(** ** Python string primitives *)
(* ================================================================== *)

Module Py.

(** [chr(10)], the newline of the f-strings. *)
Definition nl : string := String (ascii_of_nat 10) "".

Definition is_upper (c : ascii) : bool :=
  let n := nat_of_ascii c in ((65 <=? n) && (n <=? 90))%nat.

Definition lower_char (c : ascii) : ascii :=
  if is_upper c then ascii_of_nat (nat_of_ascii c + 32) else c.

(** [s.lower()] *)
Fixpoint lower (s : string) : string :=
  match s with
  | EmptyString => EmptyString
  | String c t => String (lower_char c) (lower t)
  end.

(** [needle in hay] *)
Fixpoint contains (needle hay : string) : bool :=
  prefix needle hay ||
  match hay with
  | EmptyString => false
  | String _ t => contains needle t
  end.

(** [s.endswith(suffix)] *)
Fixpoint endswith (suffix s : string) : bool :=
  (s =? suffix) ||
  match s with
  | EmptyString => false
  | String _ t => endswith suffix t
  end.

(** [s.removesuffix(suffix)] *)
Fixpoint removesuffix (suffix s : string) : string :=
  if s =? suffix then EmptyString
  else match s with
       | EmptyString => EmptyString
       | String c t => String c (removesuffix suffix t)
       end.

(** [s.replace(old, new)] for a non-empty [old]: occurrences are taken
    left to right and do not overlap; [skip] counts the characters of
    the occurrence just replaced that are still to be dropped. *)
Fixpoint replace_from (old new : string) (skip : nat) (s : string) : string :=
  match s with
  | EmptyString => EmptyString
  | String c t =>
      match skip with
      | S k => replace_from old new k t
      | O =>
          if prefix old s
          then new ++ replace_from old new (String.length old - 1) t
          else String c (replace_from old new 0 t)
      end
  end.

Definition replace (old new s : string) : string := replace_from old new 0 s.

(** [s.split(sep)] for a one-character separator. *)
Fixpoint split (sep : ascii) (s : string) : list string :=
  match s with
  | EmptyString => [EmptyString]
  | String c t =>
      if Ascii.eqb c sep then EmptyString :: split sep t
      else match split sep t with
           | [] => [String c EmptyString]
           | h :: r => String c h :: r
           end
  end.

(** [c.isspace()] on ASCII. *)
Definition is_space (c : ascii) : bool :=
  let n := nat_of_ascii c in
  (((9 <=? n) && (n <=? 13)) || ((28 <=? n) && (n <=? 32)))%nat.

Fixpoint lstrip (s : string) : string :=
  match s with
  | EmptyString => EmptyString
  | String c t => if is_space c then lstrip t else s
  end.

Fixpoint rstrip (s : string) : string :=
  match s with
  | EmptyString => EmptyString
  | String c t =>
      match rstrip t with
      | EmptyString => if is_space c then EmptyString else String c EmptyString
      | r => String c r
      end
  end.

(** [s.strip()] *)
Definition strip (s : string) : string := rstrip (lstrip s).

(** [sep.join(items)] *)
Definition join (sep : string) (items : list string) : string :=
  String.concat sep items.

(** [str(n)] for a non-negative integer. *)
Definition str_of_nat (n : nat) : string :=
  NilEmpty.string_of_uint (Nat.to_uint n).

(** [xs[-1]] on a list known to be non-empty ([split] never returns
    the empty list); [d] is never reached there. *)
Definition last_item (xs : list string) (d : string) : string := List.last xs d.

(** [sorted(set(xs))]: the distinct items in code-point order. *)
Fixpoint insert_uniq (x : string) (l : list string) : list string :=
  match l with
  | [] => [x]
  | y :: r =>
      match String.compare x y with
      | Lt => x :: l
      | Eq => l
      | Gt => y :: insert_uniq x r
      end
  end.

Definition sorted_set (xs : list string) : list string :=
  fold_right insert_uniq [] xs.

(** [list(set(xs))]: the distinct items; CPython's order follows the
    hash table, here the order of first occurrence is taken. *)
Fixpoint list_set (xs : list string) : list string :=
  match xs with
  | [] => []
  | x :: r => x :: filter (fun y => negb (String.eqb x y)) (list_set r)
  end.

End Py.

(* ================================================================== *)
(** ** A matcher for the fragment of [re] the catalogue is written in *)
(* ================================================================== *)

(** The rules of the catalogue are sequences of single-character items
    (a literal, an escape, a bracketed set), each optionally followed by
    [*] or [+].  The tools are stated for any engine (field [re_search]
    of the world); this matcher is the engine of the worked examples. *)
Module Re.

Inductive item : Type :=
| Lit (c : ascii)                       (* a literal, case-insensitive *)
| OneOf (negated : bool) (cs : list ascii) (* [...] and [^...] *)
| Digit                                 (* \d *)
| Space                                 (* \s *)
| Word                                  (* \w *)
| Boundary.                             (* \b *)

Inductive quant : Type := Once | Star | Plus.

Definition is_digit (c : ascii) : bool :=
  let n := nat_of_ascii c in ((48 <=? n) && (n <=? 57))%nat.

Definition is_word (c : ascii) : bool :=
  let n := nat_of_ascii c in
  (((48 <=? n) && (n <=? 57)) || ((65 <=? n) && (n <=? 90))
   || ((97 <=? n) && (n <=? 122)) || (n =? 95))%nat.

Definition same_letter (a b : ascii) : bool :=
  Ascii.eqb (Py.lower_char a) (Py.lower_char b).

(** Does the item accept the character? ([Boundary] takes none.) *)
Definition accepts (i : item) (c : ascii) : bool :=
  match i with
  | Lit a => same_letter a c
  | OneOf neg cs => xorb neg (existsb (same_letter c) cs)
  | Digit => is_digit c
  | Space => Py.is_space c
  | Word => is_word c
  | Boundary => false
  end.

(** The members of a bracketed set up to the closing bracket, and the
    text after it. *)
Fixpoint set_members (s : string) : list ascii * string :=
  match s with
  | EmptyString => ([], EmptyString)
  | String c t =>
      if Ascii.eqb c "]" then ([], t)
      else let (cs, rest) := set_members t in (c :: cs, rest)
  end.

Definition escape (c : ascii) : item :=
  if Ascii.eqb c "b" then Boundary
  else if Ascii.eqb c "d" then Digit
  else if Ascii.eqb c "s" then Space
  else if Ascii.eqb c "w" then Word
  else Lit c.

(** The next item of a pattern and the text after it. *)
Definition next_item (s : string) : option (item * string) :=
  match s with
  | EmptyString => None
  | String c t =>
      if Ascii.eqb c "\" then
        match t with
        | String e t' => Some (escape e, t')
        | EmptyString => None
        end
      else if Ascii.eqb c "[" then
        match t with
        | String n t' =>
            if Ascii.eqb n "^"
            then let (cs, rest) := set_members t' in Some (OneOf true cs, rest)
            else let (cs, rest) := set_members t in Some (OneOf false cs, rest)
        | EmptyString => None
        end
      else Some (Lit c, t)
  end.

Definition next_quant (s : string) : quant * string :=
  match s with
  | String c t =>
      if Ascii.eqb c "*" then (Star, t)
      else if Ascii.eqb c "+" then (Plus, t)
      else (Once, s)
  | EmptyString => (Once, s)
  end.

(** [re.compile(pattern)]; the fuel bounds the number of items. *)
Fixpoint parse (fuel : nat) (s : string) : list (item * quant) :=
  match fuel with
  | O => []
  | S fuel' =>
      match next_item s with
      | None => []
      | Some (i, rest) =>
          let (q, rest') := next_quant rest in
          (i, q) :: parse fuel' rest'
      end
  end.

Definition compile (pattern : string) : list (item * quant) :=
  parse (String.length pattern) pattern.

Definition at_boundary (prev : option ascii) (s : string) : bool :=
  xorb (match prev with Some c => is_word c | None => false end)
       (match s with String c _ => is_word c | EmptyString => false end).

(** Does the compiled pattern match at the start of [s], the character
    before being [prev]? *)
Fixpoint matches_here (r : list (item * quant)) : option ascii -> string -> bool :=
  match r with
  | [] => fun _ _ => true
  | (Boundary, _) :: r' =>
      fun prev s => if at_boundary prev s then matches_here r' prev s else false
  | (i, q) :: r' =>
      let rest := matches_here r' in
      let many :=
        fix many (prev : option ascii) (s : string) {struct s} : bool :=
          if rest prev s then true
          else match s with
               | String c t => if accepts i c then many (Some c) t else false
               | EmptyString => false
               end in
      match q with
      | Star => many
      | Plus => fun _ s => match s with
                           | String c t => if accepts i c then many (Some c) t else false
                           | EmptyString => false
                           end
      | Once => fun _ s => match s with
                           | String c t => if accepts i c then rest (Some c) t else false
                           | EmptyString => false
                           end
      end
  end.

Fixpoint search_from (r : list (item * quant)) (prev : option ascii) (s : string) : bool :=
  if matches_here r prev s then true
  else match s with
       | String c t => search_from r (Some c) t
       | EmptyString => false
       end.

(** [re.compile(pattern, re.IGNORECASE).search(text) is not None] *)
Definition search (pattern text : string) : bool :=
  search_from (compile pattern) None text.

End Re.

(* ================================================================== *)
(** ** Values handed back to the conversational layer *)
(* ================================================================== *)

(** The JSON-like values of the result payloads.  A [VDict] keeps the
    insertion order of its keys. *)
#[warnings="-register-all"]
Inductive pyval : Type :=
| VNone
| VStr (s : string)
| VInt (z : Z)
| VList (items : list pyval)
| VDict (fields : list (string * pyval)).

Definition dict : Type := list (string * pyval).

(** [d.get(k)]: [None] when the key is absent. *)
Fixpoint dict_get (k : string) (d : dict) : option pyval :=
  match d with
  | [] => None
  | (k', v) :: r => if k' =? k then Some v else dict_get k r
  end.

Definition dict_keys (d : dict) : list string := map fst d.

Definition VStrs (xs : list string) : pyval := VList (map VStr xs).

(** Python exceptions: the class name and [str(e)]. *)
Record exn : Type := Exn { exn_class : string; exn_str : string }.

(* ================================================================== *)
(** ** pathlib, POSIX flavour *)
(* ================================================================== *)

Module Path.

Record t : Type := mk { anchored : bool; parts : list string }.

(** Empty components and [.] are dropped when a path is parsed; [..]
    is kept. *)
Definition kept (c : string) : bool := negb (c =? "") && negb (c =? ".").

(** [Path(s)] *)
Definition of_str (s : string) : t :=
  mk (prefix "/" s) (filter kept (Py.split "/" s)).

(** [p / q] for two paths: an anchored right operand replaces the left one. *)
Definition join (p q : t) : t :=
  if anchored q then q else mk (anchored p) (parts p ++ parts q).

(** [p / s] *)
Definition div (p : t) (s : string) : t := join p (of_str s).

(** [str(p)] *)
Definition to_str (p : t) : string :=
  if anchored p then "/" ++ Py.join "/" (parts p)
  else match parts p with
       | [] => "."
       | _ => Py.join "/" (parts p)
       end.

(** [p.name] *)
Definition name (p : t) : string := List.last (parts p) "".

(** [p.parent] *)
Definition parent (p : t) : t := mk (anchored p) (removelast (parts p)).

(** The text before and after the last dot of a name, if it has one. *)
Fixpoint rsplit_dot (s : string) : option (string * string) :=
  match s with
  | EmptyString => None
  | String c r =>
      match rsplit_dot r with
      | Some (b, a) => Some (String c b, a)
      | None => if Ascii.eqb c "." then Some (EmptyString, r) else None
      end
  end.

(** [p.stem] on the name: the suffix is cut at the last dot unless that
    dot opens or closes the name. *)
Definition stem_of (nm : string) : string :=
  match rsplit_dot nm with
  | Some (b, a) => if (b =? "") || (a =? "") then nm else b
  | None => nm
  end.

Definition stem (p : t) : string := stem_of (name p).

Fixpoint strip_prefix (base l : list string) : option (list string) :=
  match base, l with
  | [], _ => Some l
  | b :: base', x :: l' => if b =? x then strip_prefix base' l' else None
  | _ :: _, [] => None
  end.

(** [p.relative_to(base)]; [None] stands for the [ValueError]. *)
Definition relative_to (p base : t) : option t :=
  if Bool.eqb (anchored p) (anchored base)
  then option_map (mk false) (strip_prefix (parts base) (parts p))
  else None.

End Path.

(** [os.path.join(a, b)] for a relative [b]. *)
Definition os_path_join (a b : string) : string :=
  if (a =? "") || Py.endswith "/" a then a ++ b else a ++ "/" ++ b.

(* ================================================================== *)
(** ** The file system *)
(* ================================================================== *)

(** What [open(p).read()] gives: the text, or the message of the
    [OSError] / [UnicodeDecodeError] it raises. *)
Inductive contents : Type :=
| Text (s : string)
| Unreadable (why : string).

#[warnings="-register-all"]
Inductive node : Type :=
| File (name : string) (data : contents)
| Dir (name : string) (children : list node).

Definition node_name (n : node) : string :=
  match n with
  | File nm _ => nm
  | Dir nm _ => nm
  end.

Definition is_dir (n : node) : bool :=
  match n with
  | Dir _ _ => true
  | File _ _ => false
  end.

Fixpoint find_child (nm : string) (l : list node) : option node :=
  match l with
  | [] => None
  | n :: r => if node_name n =? nm then Some n else find_child nm r
  end.

(** One step of path resolution.  The stack holds the nodes entered so
    far, innermost first; its last element is the root directory. *)
Definition enter (stack : list node) (c : string) : option (list node) :=
  match stack with
  | [] => None
  | File _ _ :: _ => None
  | Dir _ ch :: up =>
      if c =? ".."
      then match up with
           | [] => Some stack
           | _ => Some up
           end
      else option_map (fun n => n :: stack) (find_child c ch)
  end.

Fixpoint enter_all (stack : list node) (cs : list string) : option (list node) :=
  match cs with
  | [] => Some stack
  | c :: r =>
      match enter stack c with
      | Some stack' => enter_all stack' r
      | None => None
      end
  end.

(** The entries [dir.rglob('*' + ext)] yields below a directory with the
    given children when [ext] is matched as it is written (see [plain]
    below), as paths relative to that directory: in every directory the
    entries whose name ends in [ext] (files and directories alike), then
    the sub-directories in turn. *)
Fixpoint rglob_node (ext : string) (here : list string) (n : node)
  : list (list string * node) :=
  match n with
  | File _ _ => []
  | Dir nm ch =>
      map (fun c => (here ++ [nm; node_name c], c))
          (filter (fun c => Py.endswith ext (node_name c)) ch)
      ++ flat_map (rglob_node ext (here ++ [nm])) ch
  end.

Definition rglob_children (ext : string) (ch : list node)
  : list (list string * node) :=
  map (fun c => ([node_name c], c))
      (filter (fun c => Py.endswith ext (node_name c)) ch)
  ++ flat_map (rglob_node ext []) ch.

(** One [(root, dirs, files)] triple of [os.walk], without [dirs]; the
    files carry their node. *)
Definition walk_files (ch : list node) : list node :=
  filter (fun c => negb (is_dir c)) ch.

Fixpoint walk_node (top : string) (n : node) : list (string * list node) :=
  match n with
  | File _ _ => []
  | Dir nm ch =>
      let here := os_path_join top nm in
      (here, walk_files ch) :: flat_map (walk_node here) ch
  end.

Definition walk_children (top : string) (ch : list node)
  : list (string * list node) :=
  (top, walk_files ch) :: flat_map (walk_node top) ch.

(* ================================================================== *)
(** ** The world outside the repository *)
(* ================================================================== *)

(** A finished [subprocess.run(..., text=True, capture_output=True)]. *)
Record completed : Type :=
  Completed { returncode : Z; stdout : string; stderr : string }.

Record World : Type := {
  (** [os.environ] once [load_dotenv()] has run *)
  environ : list (string * string);
  (** [os.getcwd()] *)
  cwd : string;
  (** the contents of the root directory *)
  disk : list node;
  (** [os.stat] on a path that is not on the disk: the [OSError] it
      raises when the error is none of those that [Path.exists()] takes
      for "not there" (a name that is too long, a directory that may
      not be searched); [None] when [exists()] answers [False] *)
  stat_fault : string -> option exn;
  (** [dir.rglob(pattern)] for a pattern with wildcards or separators
      of its own, by directory and pattern: the entries it yields, as
      paths relative to [dir], or the exception it raises *)
  glob_pattern : string -> string -> list (list string * node) + exn;
  (** [Client().models.generate_content(...).text]: the text, or the
      message of the exception raised on the way *)
  generate_content : string -> string + string;
  (** [mkdir(parents=True, exist_ok=True)]: the error, if it fails *)
  mkdir_fault : string -> option exn;
  (** opening for writing and writing: the message of the error, if any *)
  write_fault : string -> option string;
  (** [subprocess.run(argv, cwd=...)] *)
  run_process : list string -> string -> completed + exn;
  (** [re.compile(p, re.IGNORECASE).search(text) is not None] *)
  re_search : string -> string -> bool;
  (** [json.loads(line)]: [inl None] stands for [JSONDecodeError],
      [inr e] for any other exception (a [RecursionError] on a line
      that is nested too deep, a [ValueError] on a number with too many
      digits) *)
  json_loads : string -> option pyval + exn
}.

Definition lookup_env (k : string) (w : World) : option string :=
  option_map snd (find (fun kv => fst kv =? k) (environ w)).

(** Resolution of a path against the disk, relative paths from [cwd]. *)
Definition resolve (w : World) (p : Path.t) : option node :=
  let cs := if Path.anchored p then Path.parts p
            else Path.parts (Path.of_str (cwd w)) ++ Path.parts p in
  match enter_all [Dir "" (disk w)] cs with
  | Some (n :: _) => Some n
  | _ => None
  end.

(* ================================================================== *)
(** ** Computations: world, event log, exceptions *)
(* ================================================================== *)

Inductive event : Type :=
| EvLoadDotenv
| EvPrint (line : string)
| EvExists (p : string)
| EvRglob (dir pattern : string)
| EvWalk (top : string)
| EvRead (p : string)
| EvMkdir (p : string)
| EvWrite (p text : string)
| EvGenerate (prompt : string)
| EvRun (argv : list string) (workdir : string)
(* [print(proc)] of a finished process *)
| EvPrintCompleted (argv : list string) (c : completed).

(** The events that look at, or change, the file tree. *)
Definition touches_files (e : event) : bool :=
  match e with
  | EvExists _ | EvRglob _ _ | EvWalk _ | EvRead _ | EvMkdir _ | EvWrite _ _ => true
  | _ => false
  end.

Inductive res (A : Type) : Type :=
| Ok (a : A)
| Raised (e : exn).
Arguments Ok {A} a.
Arguments Raised {A} e.

Definition M (A : Type) : Type := World -> res A * list event.

Definition ret {A} (a : A) : M A := fun _ => (Ok a, []).

Definition bind {A B} (m : M A) (k : A -> M B) : M B :=
  fun w =>
    match m w with
    | (Ok a, l1) => let (r, l2) := k a w in (r, l1 ++ l2)
    | (Raised e, l1) => (Raised e, l1)
    end.

Definition raise {A} (e : exn) : M A := fun _ => (Raised e, []).

(** [try: m  except Exception as e: h e] *)
Definition try_except {A} (m : M A) (h : exn -> M A) : M A :=
  fun w =>
    match m w with
    | (Ok a, l1) => (Ok a, l1)
    | (Raised e, l1) => let (r, l2) := h e w in (r, l1 ++ l2)
    end.

Definition ask : M World := fun w => (Ok w, []).

Definition emit (e : event) : M unit := fun _ => (Ok tt, [e]).

Declare Scope m_scope.
Delimit Scope m_scope with M.
Notation "x <- m ;; k" := (bind m (fun x => k))
  (at level 61, m at next level, right associativity) : m_scope.
Notation "m ;; k" := (bind m (fun _ => k))
  (at level 61, right associativity) : m_scope.
Local Open Scope m_scope.

(** [for x in xs: s = body x s] *)
Fixpoint for_each {A S} (xs : list A) (body : A -> S -> M S) (s : S) : M S :=
  match xs with
  | [] => ret s
  | x :: r => s' <- body x s ;; for_each r body s'
  end.

Definition result {A} (m : M A) (w : World) : res A := fst (m w).
Definition log {A} (m : M A) (w : World) : list event := snd (m w).

(** *** The operating-system calls of the tools *)

Definition load_dotenv : M unit := emit EvLoadDotenv.

Definition print (line : string) : M unit := emit (EvPrint line).

(** [os.getenv(k)] *)
Definition getenv (k : string) : M (option string) :=
  w <- ask ;; ret (lookup_env k w).

(** [os.getenv(k, os.getcwd())] *)
Definition env_or_cwd (k : string) (w : World) : string :=
  match lookup_env k w with
  | Some v => v
  | None => cwd w
  end.

Definition getenv_or_cwd (k : string) : M string :=
  w <- ask ;; ret (env_or_cwd k w).

(** [p.exists()]: [True] for a path on the disk; for any other path
    [False], unless [os.stat] fails with an error that [exists()] raises
    again. *)
Definition exists_ (p : Path.t) : M bool :=
  w <- ask ;;
  emit (EvExists (Path.to_str p)) ;;
  match resolve w p with
  | Some _ => ret true
  | None =>
      match stat_fault w (Path.to_str p) with
      | Some e => raise e
      | None => ret false
      end
  end.

(** Is ['*' + ext] the pattern "any name that ends in [ext]"?  It is
    when [ext] holds none of the wildcards [*], [?], [[] of [fnmatch]
    and no [/], which would make the pattern one of several
    components. *)
Definition plain (ext : string) : bool :=
  negb (Py.contains "*" ext || Py.contains "?" ext || Py.contains "[" ext
        || Py.contains "/" ext).

(** Entries given relative to [d], as full paths. *)
Definition under (d : Path.t) (found : list (list string * node))
  : list (Path.t * node) :=
  map (fun e => (Path.mk (Path.anchored d) (Path.parts d ++ fst e), snd e)) found.

(** What [d.rglob('*' + ext)] comes to: the entries it yields, as full
    paths with their nodes, or the exception it raises.  Below anything
    but a directory it yields nothing. *)
Definition rglob_outcome (w : World) (d : Path.t) (ext : string)
  : list (Path.t * node) + exn :=
  if plain ext then
    inl match resolve w d with
        | Some (Dir _ ch) => under d (rglob_children ext ch)
        | _ => []
        end
  else
    match glob_pattern w (Path.to_str d) ("*" ++ ext) with
    | inl found =>
        inl match resolve w d with
            | Some (Dir _ _) => under d found
            | _ => []
            end
    | inr e => inr e
    end.

(** What [d.rglob('*' + ext)] yields. *)
Definition glob (w : World) (d : Path.t) (ext : string) : list (Path.t * node) :=
  match rglob_outcome w d ext with
  | inl found => found
  | inr _ => []
  end.

(** [list(d.rglob('*' + ext))] *)
Definition rglob (d : Path.t) (ext : string) : M (list (Path.t * node)) :=
  w <- ask ;;
  emit (EvRglob (Path.to_str d) ("*" ++ ext)) ;;
  match rglob_outcome w d ext with
  | inl found => ret found
  | inr e => raise e
  end.

(** The triples of [os.walk(top)]: none when [top] is missing or is
    not a directory. *)
Definition walk (w : World) (top : string) : list (string * list node) :=
  match resolve w (Path.of_str top) with
  | Some (Dir _ ch) => walk_children top ch
  | _ => []
  end.

(** [list(os.walk(top))] *)
Definition os_walk (top : string) : M (list (string * list node)) :=
  w <- ask ;;
  emit (EvWalk top) ;;
  ret (walk w top).

(** Reading an entry that was listed: [open(p).read()]. *)
Definition read_node (p : string) (n : node) : M string :=
  emit (EvRead p) ;;
  match n with
  | File _ (Text s) => ret s
  | File _ (Unreadable why) => raise (Exn "OSError" why)
  | Dir _ _ => raise (Exn "IsADirectoryError" ("[Errno 21] Is a directory: '" ++ p ++ "'"))
  end.

(** Reading by path: [open(p, 'r').read()]. *)
Definition read_path (p : Path.t) : M string :=
  w <- ask ;;
  match resolve w p with
  | Some n => read_node (Path.to_str p) n
  | None =>
      emit (EvRead (Path.to_str p)) ;;
      raise (Exn "FileNotFoundError"
                 ("[Errno 2] No such file or directory: '" ++ Path.to_str p ++ "'"))
  end.

(** [Client().models.generate_content(model=..., contents=prompt).text] *)
Definition generate (prompt : string) : M string :=
  w <- ask ;;
  emit (EvGenerate prompt) ;;
  match generate_content w prompt with
  | inl text => ret text
  | inr why => raise (Exn "Exception" why)
  end.

(** [d.mkdir(parents=True, exist_ok=True)] *)
Definition mkdir_parents (d : Path.t) : M unit :=
  w <- ask ;;
  emit (EvMkdir (Path.to_str d)) ;;
  match mkdir_fault w (Path.to_str d) with
  | Some e => raise e
  | None => ret tt
  end.

(** [with open(p, 'w') as f: f.write(text)] *)
Definition write_path (p : Path.t) (text : string) : M unit :=
  w <- ask ;;
  emit (EvWrite (Path.to_str p) text) ;;
  match write_fault w (Path.to_str p) with
  | Some why => raise (Exn "OSError" why)
  | None => ret tt
  end.

(** [subprocess.run(argv, cwd=workdir, text=True, capture_output=True)];
    an executable that is [None] is a [TypeError]. *)
Definition subprocess_run (exe : option string) (args : list string)
           (workdir : string) : M completed :=
  match exe with
  | None =>
      raise (Exn "TypeError" "expected str, bytes or os.PathLike object, not NoneType")
  | Some x =>
      w <- ask ;;
      emit (EvRun (x :: args) workdir) ;;
      match run_process w (x :: args) workdir with
      | inl c => ret c
      | inr e => raise e
      end
  end.

(** [s.splitlines()] on ASCII text: the line boundaries are LF, CR,
    CRLF, VT, FF, FS, GS and RS. *)
Definition is_linebreak (c : ascii) : bool :=
  let n := nat_of_ascii c in
  (((10 <=? n) && (n <=? 13)) || ((28 <=? n) && (n <=? 30)))%nat.

Fixpoint lines_from (after_cr : bool) (s : string) : list string :=
  match s with
  | EmptyString => []
  | String c t =>
      if after_cr && Ascii.eqb c (ascii_of_nat 10) then lines_from false t
      else if is_linebreak c
      then EmptyString :: lines_from (Ascii.eqb c (ascii_of_nat 13)) t
      else match lines_from false t with
           | [] => [String c EmptyString]
           | h :: r => String c h :: r
           end
  end.

Definition splitlines (s : string) : list string := lines_from false s.

(* ================================================================== *)
(** ** tools/dbt_translate.py *)
(* ================================================================== *)

Module Translate.

(** Warehouse-specific syntax patterns for detection.  The trailing
    remarks of the source are Python comments, not part of the
    strings. *)
Definition WAREHOUSE_PATTERNS : list (string * list string) :=
  [ ("snowflake",
     [ "\bIFF\s*\(";
       "\bFLATTEN\s*\(";
       "\bLATERAL\s+FLATTEN";
       "\bVARIANT\b";
       "\bQUALIFY\b";
       "\$\d+";
       "::\s*VARIANT";
       "ARRAY_AGG\s*\([^)]*\)\s+WITHIN\s+GROUP" ]);
    ("bigquery",
     [ "\bSTRUCT\s*\(";
       "\bARRAY\s*\[";
       "\bUNNEST\s*\(";
       "\bSAFE_CAST\s*\(";
       "\bFORMAT_DATE\s*\(";
       "\bPARSE_DATE\s*\(";
       "`[^`]+\.[^`]+\.[^`]+`";
       "\bGENERATE_UUID\s*\(" ]);
    ("redshift",
     [ "\bDISTKEY\b";
       "\bSORTKEY\b";
       "\bCOPY\s+";
       "\bUNLOAD\s+";
       "\bLISTAGG\s*\(";
       "\bDATEADD\s*\(";
       "\bDATEDIFF\s*\(";
       "\bGETDATE\s*\(" ]);
    ("postgres",
     [ "::\s*\w+";
       "\bGENERATE_SERIES\s*\(";
       "\bARRAY_AGG\s*\(";
       "\bSTRING_AGG\s*\(";
       "\bREGEXP_MATCHES\s*\(";
       "\bJSONB\b";
       "\bCROSSTAB\s*\(" ]) ].

(** [WAREHOUSE_PATTERNS.keys()] *)
Definition warehouses : list string := map fst WAREHOUSE_PATTERNS.

(** [WAREHOUSE_PATTERNS[k]], [None] when [k not in WAREHOUSE_PATTERNS]. *)
Definition patterns_for (k : string) : option (list string) :=
  option_map snd (find (fun kv => fst kv =? k) WAREHOUSE_PATTERNS).

Definition search_dirs : list string := ["models"; "macros"; "analyses"; "tests"].

Definition default_extensions : list string := [".sql"].

(** [search_term.lower().replace('.sql', '')] *)
Definition search_clean (search_term : string) : string :=
  Py.replace ".sql" "" (Py.lower search_term).

(** [Path(search_term).name.lower().replace('.sql', '')] *)
Definition search_filename (search_term : string) : string :=
  Py.replace ".sql" "" (Py.lower (Path.name (Path.of_str search_term))).

(** The [if / elif / elif] of the search loop: every branch appends
    the same relative path. *)
Definition keep_match (clean filename file_name_clean rel : string)
           (matches : list string) : list string :=
  if (filename =? file_name_clean) || Py.contains filename file_name_clean
  then matches ++ [rel]
  else if (clean =? file_name_clean) || Py.contains clean file_name_clean
  then matches ++ [rel]
  else if Py.contains clean (Py.lower rel)
  then matches ++ [rel]
  else matches.

(** The body of the innermost [for file_path in dir_path.rglob(...)]. *)
Definition visit_file (dbt_path : Path.t) (search_term : string)
           (file_path : Path.t) (matches : list string) : M (list string) :=
  match Path.relative_to file_path dbt_path with
  | None => raise (Exn "ValueError" "path is not in the subpath of the project")
  | Some rel_path =>
      let file_name_clean := Py.lower (Path.stem file_path) in
      ret (keep_match (search_clean search_term) (search_filename search_term)
                      file_name_clean (Path.to_str rel_path) matches)
  end.

(** The walk of [_search_for_files] below a given project path. *)
Definition search_under (dbt_path : Path.t) (search_term : string)
           (extensions : list string) : M (list string) :=
  for_each search_dirs
    (fun search_dir matches =>
       let dir_path := Path.div dbt_path search_dir in
       present <- exists_ dir_path ;;
       if negb present then ret matches
       else
         for_each extensions
           (fun ext matches =>
              found <- rglob dir_path ext ;;
              for_each found
                (fun entry matches =>
                   visit_file dbt_path search_term (fst entry) matches)
                matches)
           matches)
    [].

(** [_search_for_files(dbt_root, search_term, extensions)] *)
Definition _search_for_files (dbt_root search_term : string)
           (extensions : list string) : M (list string) :=
  load_dotenv ;;
  location <- getenv_or_cwd "DBT_PROJECT_LOCATION" ;;
  let dbt_path := Path.of_str location in
  matches <- search_under dbt_path search_term extensions ;;
  ret (Py.sorted_set matches).

(** The check mark of the progress lines (U+2713 in UTF-8). *)
Definition check_mark : string :=
  String (ascii_of_nat 226) (String (ascii_of_nat 156) (String (ascii_of_nat 147) "")).

(** [file_path if file_path != actual_file_path else None] *)
Definition original_path_value (file_path actual_file_path : string) : pyval :=
  if file_path =? actual_file_path then VNone else VStr file_path.

(** The result of lines 143-150: nothing similar was found. *)
Definition not_found_result (file_path : string) : dict :=
  [ ("status", VStr "error");
    ("message",
     VStr ("File not found at '" ++ file_path
           ++ "'. No similar files found in the dbt project. "
           ++ "Please provide the full path relative to the dbt project root."));
    ("translated_content", VNone);
    ("saved_path", VNone);
    ("suggestions", VList []) ].

(** The result of lines 158-168: several files qualify. *)
Definition clarification_result (file_path : string) (suggestions : list string) : dict :=
  let suggestions_list := Py.join (Py.nl ++ "  - ") (firstn 10 suggestions) in
  [ ("status", VStr "clarification_needed");
    ("message",
     VStr ("File not found at exact path '" ++ file_path ++ "'. Found "
           ++ Py.str_of_nat (List.length suggestions) ++ " possible matches:"
           ++ Py.nl ++ "  - " ++ suggestions_list ++ Py.nl ++ Py.nl
           ++ "Please specify which file you want to translate using "
           ++ "the full path from the list above."));
    ("translated_content", VNone);
    ("saved_path", VNone);
    ("suggestions", VStrs (firstn 10 suggestions));
    ("original_path", VStr file_path) ].

(** Lines 131-171: settle which file is meant.  [inl] is an early
    [return]; [inr] carries [actual_file_path] and [source_file]. *)
Definition resolve_source (dbt_project_location file_path : string)
  : M (dict + string * Path.t) :=
  let source_file := Path.div (Path.of_str dbt_project_location) file_path in
  present <- exists_ source_file ;;
  if negb present then
    print ("File not found at exact path: " ++ Path.to_str source_file) ;;
    print "Searching for similar files in project..." ;;
    suggestions <- _search_for_files dbt_project_location file_path default_extensions ;;
    match suggestions with
    | [] => ret (inl (not_found_result file_path))
    | [only] =>
        let actual_file_path := only in
        let source_file := Path.div (Path.of_str dbt_project_location) actual_file_path in
        print (check_mark ++ " Found matching file: " ++ actual_file_path) ;;
        print ("  Using: " ++ Path.to_str source_file) ;;
        ret (inr (actual_file_path, source_file))
    | _ => ret (inl (clarification_result file_path suggestions))
    end
  else
    print (check_mark ++ " File found: " ++ Path.to_str source_file) ;;
    ret (inr (file_path, source_file)).

Definition translation_prompt (source_warehouse target_warehouse source_content : string)
  : string :=
  "Translate this dbt code from " ++ source_warehouse ++ " to " ++ target_warehouse
  ++ " syntax." ++ Py.nl
  ++ "Only return the translated SQL/code, no explanations." ++ Py.nl ++ Py.nl
  ++ "Original code:" ++ Py.nl ++ source_content.

Definition read_error_result (e : exn) : dict :=
  [ ("status", VStr "error");
    ("message", VStr ("Error reading file: " ++ exn_str e));
    ("translated_content", VNone);
    ("saved_path", VNone) ].

Definition translation_error_result (e : exn) : dict :=
  [ ("status", VStr "error");
    ("message", VStr ("Error during translation: " ++ exn_str e));
    ("translated_content", VNone);
    ("saved_path", VNone) ].

Definition write_error_result (translated_content : string) (e : exn) : dict :=
  [ ("status", VStr "error");
    ("message", VStr ("Error writing translated file: " ++ exn_str e));
    ("translated_content", VStr translated_content);
    ("saved_path", VNone) ].

Definition success_result (file_path actual_file_path source_warehouse target_warehouse
                           translated_content : string)
           (translated_file source_file : Path.t) : dict :=
  [ ("status", VStr "success");
    ("message",
     VStr ("Successfully translated " ++ actual_file_path ++ " from "
           ++ source_warehouse ++ " to " ++ target_warehouse));
    ("translated_content", VStr translated_content);
    ("saved_path", VStr (Path.to_str translated_file));
    ("source_file", VStr (Path.to_str source_file));
    ("original_path", original_path_value file_path actual_file_path) ].

(** Lines 173-231: read, translate, persist. *)
Definition translate_resolved (dbt_project_location file_path actual_file_path : string)
           (source_file : Path.t) (source_warehouse target_warehouse : string) : M dict :=
  r <- try_except (source_content <- read_path source_file ;; ret (inr source_content))
                  (fun e => ret (inl (read_error_result e))) ;;
  match r with
  | inl early => ret early
  | inr source_content =>
      r <- try_except
             (translated_content <-
                generate (translation_prompt source_warehouse target_warehouse
                                             source_content) ;;
              ret (inr translated_content))
             (fun e => ret (inl (translation_error_result e))) ;;
      match r with
      | inl early => ret early
      | inr translated_content =>
          let translated_dir :=
            Path.div (Path.div (Path.of_str dbt_project_location) "translated")
                     target_warehouse in
          let translated_file := Path.div translated_dir actual_file_path in
          mkdir_parents (Path.parent translated_file) ;;
          r <- try_except (write_path translated_file translated_content ;; ret None)
                          (fun e => ret (Some (write_error_result translated_content e))) ;;
          match r with
          | Some early => ret early
          | None =>
              ret (success_result file_path actual_file_path source_warehouse
                                  target_warehouse translated_content
                                  translated_file source_file)
          end
      end
  end.

(** [dbt_translate(file_path, source_warehouse, target_warehouse)] *)
Definition dbt_translate (file_path source_warehouse target_warehouse : string) : M dict :=
  load_dotenv ;;
  dbt_project_location <- getenv_or_cwd "DBT_PROJECT_LOCATION" ;;
  print ("Translating dbt SQL in: " ++ dbt_project_location) ;;
  print ("File: " ++ file_path) ;;
  print ("From: " ++ source_warehouse ++ " -> To: " ++ target_warehouse) ;;
  resolved <- resolve_source dbt_project_location file_path ;;
  match resolved with
  | inl early => ret early
  | inr (actual_file_path, source_file) =>
      translate_resolved dbt_project_location file_path actual_file_path source_file
                         source_warehouse target_warehouse
  end.

(** *** The dialect scan *)

(** An entry of [candidates]. *)
Record candidate : Type := Candidate {
  file : string;
  full_path : string;
  detected_syntax : list string;
  pattern_count : nat
}.

Definition candidate_value (c : candidate) : pyval :=
  VDict [ ("file", VStr (file c));
          ("full_path", VStr (full_path c));
          ("detected_syntax", VStrs (detected_syntax c));
          ("pattern_count", VInt (Z.of_nat (pattern_count c))) ].

(** [patterns[i].split('#')[-1].strip() if '#' in str(patterns[i]) else patterns[i]] *)
Definition pattern_desc (pattern : string) : string :=
  if Py.contains "#" pattern
  then Py.strip (Py.last_item (Py.split "#" pattern) "")
  else pattern.

(** The loop over [enumerate(compiled_patterns)]: one description per
    rule that is found in the content, in rule order. *)
Definition detect (search : string -> string -> bool) (patterns : list string)
           (content : string) : list string :=
  map pattern_desc (filter (fun pattern => search pattern content) patterns).

(** The body of the [try] of lines 281-300. *)
Definition scan_file (dbt_path : Path.t) (patterns : list string)
           (entry : Path.t * node) (candidates : list candidate) : M (list candidate) :=
  let sql_file := fst entry in
  w <- ask ;;
  content <- read_node (Path.to_str sql_file) (snd entry) ;;
  let detected_patterns := detect (re_search w) patterns content in
  match detected_patterns with
  | [] => ret candidates
  | _ =>
      match Path.relative_to sql_file dbt_path with
      | None => raise (Exn "ValueError" "path is not in the subpath of the project")
      | Some rel_path =>
          ret (candidates ++
               [ {| file := Path.to_str rel_path;
                    full_path := Path.to_str sql_file;
                    detected_syntax := Py.list_set detected_patterns;
                    pattern_count := List.length detected_patterns |} ])
      end
  end.

(** Lines 280-304: the [try] with its [except Exception]. *)
Definition scan_entry (dbt_path : Path.t) (patterns : list string)
           (entry : Path.t * node) (candidates : list candidate) : M (list candidate) :=
  try_except (scan_file dbt_path patterns entry candidates)
             (fun e =>
                print ("Warning: Could not read " ++ Path.to_str (fst entry)
                       ++ ": " ++ exn_str e) ;;
                ret candidates).

(** Lines 269-304. *)
Definition scan_project (dbt_project_location : string) (patterns : list string)
  : M (list candidate) :=
  let dbt_path := Path.of_str dbt_project_location in
  for_each search_dirs
    (fun search_dir candidates =>
       let dir_path := Path.div dbt_path search_dir in
       present <- exists_ dir_path ;;
       if negb present then ret candidates
       else
         found <- rglob dir_path ".sql" ;;
         for_each found (scan_entry dbt_path patterns) candidates)
    [].

(** [candidates.sort(key=lambda x: x['pattern_count'], reverse=True)]:
    a stable sort, largest count first. *)
Fixpoint insert_by_count (c : candidate) (l : list candidate) : list candidate :=
  match l with
  | [] => [c]
  | d :: r =>
      if (pattern_count d <=? pattern_count c)%nat then c :: l
      else d :: insert_by_count c r
  end.

Definition sort_by_count (l : list candidate) : list candidate :=
  fold_right insert_by_count [] l.

(** Truthiness of an [Optional[str]]. *)
Definition truthy (s : option string) : bool :=
  match s with
  | Some (String _ _) => true
  | _ => false
  end.

Definition opt_value (s : option string) : pyval :=
  match s with
  | Some v => VStr v
  | None => VNone
  end.

Definition unknown_warehouse_result (source_warehouse : string) : dict :=
  [ ("status", VStr "error");
    ("message",
     VStr ("Unknown source warehouse '" ++ source_warehouse ++ "'. Supported: "
           ++ Py.join ", " warehouses));
    ("candidates", VList []) ].

(** Lines 309-329: the payload for the sorted candidates. *)
Definition scan_result (source_warehouse : string) (target_warehouse : option string)
           (candidates : list candidate) : dict :=
  match candidates with
  | [] =>
      [ ("status", VStr "success");
        ("message",
         VStr ("No " ++ source_warehouse
               ++ "-specific syntax detected in the dbt project. "
               ++ "Your project may already be warehouse-agnostic "
               ++ "or using a different warehouse syntax."));
        ("candidates", VList []);
        ("source_warehouse", VStr source_warehouse);
        ("target_warehouse", opt_value target_warehouse) ]
  | _ =>
      let target_msg :=
        (if truthy target_warehouse
         then " to " ++ match target_warehouse with Some t => t | None => "" end
         else "")%string in
      [ ("status", VStr "success");
        ("message",
         VStr ("Found " ++ Py.str_of_nat (List.length candidates)
               ++ " file(s) with " ++ source_warehouse
               ++ "-specific syntax that may need translation"
               ++ target_msg ++ "."));
        ("candidates", VList (map candidate_value candidates));
        ("total_files", VInt (Z.of_nat (List.length candidates)));
        ("source_warehouse", VStr source_warehouse);
        ("target_warehouse", opt_value target_warehouse) ]
  end.

(** [dbt_identify_translation_candidates(source_warehouse, target_warehouse)] *)
Definition dbt_identify_translation_candidates (source_warehouse : string)
           (target_warehouse : option string) : M dict :=
  load_dotenv ;;
  dbt_project_location <- getenv_or_cwd "DBT_PROJECT_LOCATION" ;;
  print ("Scanning dbt project for " ++ source_warehouse ++ " syntax: "
         ++ dbt_project_location) ;;
  (if truthy target_warehouse
   then print ("Planning translation to: "
               ++ match target_warehouse with Some t => t | None => "" end)
   else ret tt) ;;
  match patterns_for (Py.lower source_warehouse) with
  | None => ret (unknown_warehouse_result source_warehouse)
  | Some patterns =>
      found <- scan_project dbt_project_location patterns ;;
      let candidates := sort_by_count found in
      ret (scan_result source_warehouse target_warehouse candidates)
  end.

End Translate.

(* ================================================================== *)
(** ** tools/dbt_compile.py *)
(* ================================================================== *)

Module Compile.

(** [str(x)] of an [Optional[str]] inside an f-string. *)
Definition show_opt (s : option string) : string :=
  match s with
  | Some v => v
  | None => "None"
  end.

(** [try: logs.append(json.loads(line))  except json.JSONDecodeError: pass]:
    any other exception of [json.loads] is not caught. *)
Definition append_parsed (line : string) (logs : list pyval) : M (list pyval) :=
  w <- ask ;;
  match json_loads w line with
  | inl (Some v) => ret (logs ++ [v])
  | inl None => ret logs
  | inr e => raise e
  end.

(** The two nested loops of lines 32-39: every line of stdout, then of
    stderr. *)
Definition collect_logs (c : completed) : M (list pyval) :=
  for_each [stdout c; stderr c]
    (fun stream logs => for_each (splitlines stream) append_parsed logs)
    [].

(** [dbt_compile(compile)] *)
Definition dbt_compile (compile : string) : M dict :=
  load_dotenv ;;
  dbt_project_location <- getenv_or_cwd "DBT_PROJECT_LOCATION" ;;
  dbt_executable <- getenv "DBT_EXECUTABLE" ;;
  print ("Running dbt compile in: " ++ dbt_project_location) ;;
  print ("Running dbt executable located here: " ++ show_opt dbt_executable) ;;
  proc <- subprocess_run dbt_executable ["compile"; "--log-format"; "json"]
                         dbt_project_location ;;
  emit (EvPrintCompleted (show_opt dbt_executable :: ["compile"; "--log-format"; "json"])
                         proc) ;;
  logs <- collect_logs proc ;;
  ret [ ("returncode", VInt (returncode proc));
        ("logs", VList logs) ].

End Compile.

(* ================================================================== *)
(** ** sub_agents/dbt_model_analyzer.py *)
(* ================================================================== *)

Module Analyzer.

(** [dbt_compile(_)], the compile tool of the analyzer agent: the
    executable defaults to [dbt], and a project location that is not set
    leaves the process in the working directory of its parent. *)
Definition dbt_compile (_x : string) : M dict :=
  dbt_project_location <- getenv "DBT_PROJECT_LOCATION" ;;
  found <- getenv "DBT_EXECUTABLE" ;;
  let dbt_executable := match found with Some exe => exe | None => "dbt" end in
  w <- ask ;;
  proc <- subprocess_run (Some dbt_executable) ["compile"; "--log-format"; "json"]
                         (match dbt_project_location with
                          | Some d => d
                          | None => cwd w
                          end) ;;
  logs <- Compile.collect_logs proc ;;
  ret [ ("returncode", VInt (returncode proc));
        ("logs", VList logs);
        ("project_dir", Translate.opt_value dbt_project_location) ].

(** The [patterns] dictionary, in the order its keys are written. *)
Definition counts : Type := list (string * nat).

Definition initial_patterns : counts :=
  [ ("star_schema", 0); ("snowflake_schema", 0); ("data_vault", 0) ].

(** [patterns[k] += 1] *)
Definition incr (k : string) (patterns : counts) : counts :=
  map (fun kv => if fst kv =? k then (fst kv, S (snd kv)) else kv) patterns.

(** [patterns.get(k)]; the keys asked for are always present. *)
Definition get (patterns : counts) (k : string) : nat :=
  match find (fun kv => fst kv =? k) patterns with
  | Some kv => snd kv
  | None => 0
  end.

(** [any(tag in sql for tag in tags)] *)
Definition any_tag (tags : list string) (sql : string) : bool :=
  existsb (fun tag => Py.contains tag sql) tags.

(** The four rules of lines 59-66 on the lower-cased text of a file. *)
Definition apply_rules (sql : string) (patterns : counts) : counts :=
  let patterns :=
    if Py.contains "join" sql && Py.contains " on " sql
    then incr "star_schema" patterns else patterns in
  let patterns :=
    if any_tag ["hub_"; "link_"; "sat_"] sql
    then incr "data_vault" patterns else patterns in
  let patterns :=
    if any_tag ["dim_"; "fact_"] sql
    then incr "star_schema" patterns else patterns in
  let patterns :=
    if any_tag ["bridge_"; "snowflake_"] sql
    then incr "snowflake_schema" patterns else patterns in
  patterns.

(** The body of [for file in files]. *)
Definition visit (root : string) (entry : node) (patterns : counts) : M counts :=
  let file := node_name entry in
  if Py.endswith ".sql" file then
    let path := os_path_join root file in
    text <- read_node path entry ;;
    let sql := Py.lower text in
    ret (apply_rules sql patterns)
  else ret patterns.

(** [max(patterns, key=patterns.get)]: the first key whose count no
    later key exceeds; [None] stands for the [ValueError] on an empty
    dictionary. *)
Definition max_key (patterns : counts) : option string :=
  match map fst patterns with
  | [] => None
  | k :: ks =>
      Some (fold_left (fun best k' => if (get patterns best <? get patterns k')%nat
                                      then k' else best)
                      ks k)
  end.

Definition counts_value (patterns : counts) : pyval :=
  VDict (map (fun kv => (fst kv, VInt (Z.of_nat (snd kv)))) patterns).

(** [project_dir or os.getenv("DBT_PROJECT_LOCATION")] *)
Definition or_else (project_dir env : option string) : option string :=
  match project_dir with
  | Some (String _ _) => project_dir
  | _ => env
  end.

(** [analyze_dbt_schema(project_dir)] *)
Definition analyze_dbt_schema (project_dir : option string) : M dict :=
  env <- getenv "DBT_PROJECT_LOCATION" ;;
  match or_else project_dir env with
  | None =>
      raise (Exn "TypeError"
                 "expected str, bytes or os.PathLike object, not NoneType")
  | Some project_dir =>
      let target_dir := os_path_join (os_path_join project_dir "target") "compiled" in
      tree <- os_walk target_dir ;;
      patterns <-
        for_each tree
          (fun triple patterns =>
             for_each (snd triple) (visit (fst triple)) patterns)
          initial_patterns ;;
      match max_key patterns with
      | None => raise (Exn "ValueError" "max() arg is an empty sequence")
      | Some guess =>
          ret [ ("analysis", counts_value patterns);
                ("likely_modeling_pattern", VStr guess) ]
      end
  end.

End Analyzer.

(* ================================================================== *)
(** ** The vocabulary of the specification *)
(* ================================================================== *)

Module Spec.

(** The three values of the [status] field. *)
Definition statuses : list string := ["success"; "error"; "clarification_needed"].

(** A result payload in the sense of the specification: a [status]
    among the three and a [message], both strings. *)
Definition structured (d : dict) : Prop :=
  exists s m,
    dict_get "status" d = Some (VStr s) /\ In s statuses /\
    dict_get "message" d = Some (VStr m).

(** The search term as the specification normalizes it: lower case,
    one trailing [.sql] removed. *)
Definition normalized (search_term : string) : string :=
  Py.removesuffix ".sql" (Py.lower search_term).

(** The match condition in the words of the specification: exact,
    partial, or path match of the normalized term. *)
Definition matches (search_term stem rel_path : string) : bool :=
  let term := normalized search_term in
  let stem := Py.lower stem in
  (stem =? term) || Py.contains term stem || Py.contains term (Py.lower rel_path).

(** The match condition the search loop implements: the two cleaned
    forms of the term are those of [Translate.search_filename] and
    [Translate.search_clean]. *)
Definition qualifies (search_term stem rel_path : string) : bool :=
  let stem := Py.lower stem in
  Py.contains (Translate.search_filename search_term) stem
  || Py.contains (Translate.search_clean search_term) stem
  || Py.contains (Translate.search_clean search_term) (Py.lower rel_path).

(** What the search keeps of one file it comes across: its relative
    path, if it qualifies. *)
Definition kept (dbt_path : Path.t) (search_term : string) (file_path : Path.t)
  : list string :=
  match Path.relative_to file_path dbt_path with
  | Some rel_path =>
      if qualifies search_term (Path.stem file_path) (Path.to_str rel_path)
      then [Path.to_str rel_path]
      else []
  | None => []
  end.

(** What the search keeps in all, in the order of the walk. *)
Definition found_under (w : World) (dbt_path : Path.t) (search_term : string)
           (extensions : list string) : list string :=
  flat_map
    (fun search_dir =>
       flat_map
         (fun ext =>
            flat_map (fun entry => kept dbt_path search_term (fst entry))
                     (glob w (Path.div dbt_path search_dir) ext))
         extensions)
    Translate.search_dirs.

(** Where the translation of [actual_file_path] is written:
    [<project>/translated/<target_warehouse>/<actual_file_path>]. *)
Definition translated_file (location target_warehouse actual_file_path : string) : Path.t :=
  Path.div (Path.div (Path.div (Path.of_str location) "translated") target_warehouse)
           actual_file_path.

(** What the invariant of the specification asks of a candidate: its
    labels are distinct and its count is their number. *)
Definition counted (c : Translate.candidate) : Prop :=
  Translate.pattern_count c = List.length (Translate.detected_syntax c)
  /\ NoDup (Translate.detected_syntax c).

(** The label of the first largest of three scores, in the declared
    order of the labels. *)
Definition first_max (star snowflake vault : nat) : string :=
  if ((snowflake <=? star) && (vault <=? star))%nat then "star_schema"
  else if (vault <=? snowflake)%nat then "snowflake_schema"
  else "data_vault".

(** The [analysis] payload for three scores. *)
Definition scores (star snowflake vault : nat) : Analyzer.counts :=
  [ ("star_schema", star); ("snowflake_schema", snowflake); ("data_vault", vault) ].

(** The [.sql] files a walk comes across, each with the directory it was
    listed in, in the order of the walk. *)
Definition sql_files (tree : list (string * list node)) : list (string * node) :=
  flat_map (fun triple =>
              map (pair (fst triple))
                  (filter (fun entry => Py.endswith ".sql" (node_name entry))
                          (snd triple)))
           tree.

(** The compiled directory of a project root. *)
Definition compiled_dir (root : string) : string :=
  os_path_join (os_path_join root "target") "compiled".

(** The project root the classifier settles on, if any. *)
Definition classifier_root (w : World) (project_dir : option string) : option string :=
  Analyzer.or_else project_dir (lookup_env "DBT_PROJECT_LOCATION" w).

(** What the classifier does with one [.sql] file. *)
Definition classify_file (entry : string * node) (patterns : Analyzer.counts)
  : M Analyzer.counts :=
  text <- read_node (os_path_join (fst entry) (node_name (snd entry))) (snd entry) ;;
  ret (Analyzer.apply_rules (Py.lower text) patterns).

(** A text that bears the star tokens and none of the vault or
    snowflake tokens, once lower-cased. *)
Definition star_only (text : string) : bool :=
  Analyzer.any_tag ["dim_"; "fact_"] (Py.lower text)
  && negb (Analyzer.any_tag ["hub_"; "link_"; "sat_"; "bridge_"; "snowflake_"]
                            (Py.lower text)).

(** Is the listed file a regular file that can be read? *)
Definition readable (entry : string * node) : bool :=
  match snd entry with
  | File _ (Text _) => true
  | _ => false
  end.

(** [p.exists()] answers, [True] or [False]: it does not raise. *)
Definition answers (w : World) (p : Path.t) : bool :=
  match resolve w p with
  | Some _ => true
  | None =>
      match stat_fault w (Path.to_str p) with
      | Some _ => false
      | None => true
      end
  end.


(** [rglob] takes the pattern of every extension below [d]. *)
Definition patterns_taken (w : World) (d : Path.t) (extensions : list string) : bool :=
  forallb (fun ext => match rglob_outcome w d ext with
                      | inl _ => true
                      | inr _ => false
                      end)
          extensions.

(** The search can list the project: the existence checks on the four
    directories answer, and [rglob] takes the pattern of every extension
    in each of them that exists. *)
Definition listable (w : World) (dbt_path : Path.t) (extensions : list string) : bool :=
  forallb (fun search_dir =>
             let dir_path := Path.div dbt_path search_dir in
             answers w dir_path
             && match resolve w dir_path with
                | Some _ => patterns_taken w dir_path extensions
                | None => true
                end)
          Translate.search_dirs.

End Spec.

(* ================================================================== *)
(** ** A worked project *)
(* ================================================================== *)

Module Demo.

Definition compiled : node :=
  Dir "compiled"
    [ Dir "jaffle"
        [ Dir "models"
            [ File "dim_customers.sql" (Text "select * from DIM_customer_base");
              File "fact_orders.sql"
                   (Text ("select o.id from fact_order_lines o "
                          ++ "JOIN dim_customers c ON o.cid = c.id")) ] ] ].

Definition project (target : list node) : list node :=
  [ Dir "proj"
      [ Dir "models"
          [ File "dim_users.sql" (Text "select IFF(a, b, c), x::variant from t");
            Dir "staging"
              [ File "stg_users.sql" (Text "SELECT IFF(a,b,c), FLATTEN(x) FROM t");
                File "locked.sql" (Unreadable "[Errno 13] Permission denied") ];
            File "users_snapshot.sql" (Text "select 1");
            File "mymodel.sql" (Text "select 2");
            File "readme.md" (Text "notes") ];
        Dir "macros"
          [ File "cents_to_dollars.sql"
                 (Text "{% macro cents_to_dollars(c) %} {{ c }} / 100 {% endmacro %}") ];
        Dir "target" target ];
    Dir "other"
      [ Dir "models" [ File "users.sql" (Text "select 3") ] ] ].

(** [json.loads] on the lines of the worked example: the empty object
    parses, the progress line does not. *)
Definition loads (line : string) : option pyval + exn :=
  if line =? "{}" then inl (Some (VDict [])) else inl None.

Definition world : World :=
  {| environ := [("DBT_PROJECT_LOCATION", "/proj"); ("DBT_EXECUTABLE", "dbt")];
     cwd := "/home/user";
     disk := project [compiled];
     stat_fault := fun _ => None;
     glob_pattern := fun _ _ => inl [];
     generate_content := fun _ => inl "select 1";
     mkdir_fault := fun _ => None;
     write_fault := fun _ => None;
     run_process :=
       fun _ _ => inl (Completed 0 ("{}" ++ Py.nl ++ "12:00 Done.") "");
     re_search := Re.search;
     json_loads := loads |}.

(** The same project on a disk that refuses the write of the
    translation. *)
Definition read_only : World :=
  {| environ := environ world;
     cwd := cwd world;
     disk := disk world;
     stat_fault := stat_fault world;
     glob_pattern := glob_pattern world;
     generate_content := generate_content world;
     mkdir_fault := mkdir_fault world;
     write_fault := fun _ => Some "[Errno 30] Read-only file system";
     run_process := run_process world;
     re_search := re_search world;
     json_loads := json_loads world |}.

(** The same project with one compiled file that cannot be read. *)
Definition with_locked_compiled : World :=
  {| environ := environ world;
     cwd := cwd world;
     disk := project [ Dir "compiled"
                         [ File "broken.sql" (Unreadable "[Errno 13] Permission denied");
                           File "fact_orders.sql" (Text "select 1 from fact_orders") ] ];
     stat_fault := stat_fault world;
     glob_pattern := glob_pattern world;
     generate_content := generate_content world;
     mkdir_fault := mkdir_fault world;
     write_fault := write_fault world;
     run_process := run_process world;
     re_search := re_search world;
     json_loads := json_loads world |}.

(** The same project without any compiled output, and pointed at
    another project root. *)
Definition uncompiled : World :=
  {| environ := environ world;
     cwd := cwd world;
     disk := project [];
     stat_fault := stat_fault world;
     glob_pattern := glob_pattern world;
     generate_content := generate_content world;
     mkdir_fault := mkdir_fault world;
     write_fault := write_fault world;
     run_process := run_process world;
     re_search := re_search world;
     json_loads := json_loads world |}.

Definition elsewhere : World :=
  {| environ := [("DBT_PROJECT_LOCATION", "/other")];
     cwd := cwd world;
     disk := disk world;
     stat_fault := stat_fault world;
     glob_pattern := glob_pattern world;
     generate_content := generate_content world;
     mkdir_fault := mkdir_fault world;
     write_fault := write_fault world;
     run_process := run_process world;
     re_search := re_search world;
     json_loads := json_loads world |}.

End Demo.

(* ================================================================== *)
(** ** What the tools are observed to do *)
(* ================================================================== *)

Module Obs.

(** What the dialect scan records for one entry that [rglob] yields: a
    candidate when the entry is a file that can be read and at least one
    rule is found in it, nothing otherwise. *)
Definition scanned (search : string -> string -> bool) (dbt_path : Path.t)
           (patterns : list string) (entry : Path.t * node)
  : list Translate.candidate :=
  match snd entry with
  | File _ (Text content) =>
      match Translate.detect search patterns content,
            Path.relative_to (fst entry) dbt_path with
      | (_ :: _) as detected_patterns, Some rel_path =>
          [ {| Translate.file := Path.to_str rel_path;
               Translate.full_path := Path.to_str (fst entry);
               Translate.detected_syntax := Py.list_set detected_patterns;
               Translate.pattern_count := List.length detected_patterns |} ]
      | _, _ => []
      end
  | _ => []
  end.

(** The candidates of a whole project, in the order of the walk. *)
Definition scan_expected (w : World) (dbt_path : Path.t) (patterns : list string)
  : list Translate.candidate :=
  flat_map
    (fun search_dir =>
       flat_map (scanned (re_search w) dbt_path patterns)
                (glob w (Path.div dbt_path search_dir) ".sql"))
    Translate.search_dirs.

(** Largest count first. *)
Definition count_order (a b : Translate.candidate) : Prop :=
  Translate.pattern_count b <= Translate.pattern_count a.


(** Events that only look at names: the environment, console lines,
    existence checks and directory listings. *)
Definition looks_at_names (e : event) : bool :=
  match e with
  | EvLoadDotenv | EvPrint _ | EvExists _ | EvRglob _ _ => true
  | _ => false
  end.

(** Events that leave the project as it is and call nothing outside:
    as above, and reads. *)
Definition read_only (e : event) : bool :=
  match e with
  | EvLoadDotenv | EvPrint _ | EvExists _ | EvRglob _ _ | EvWalk _ | EvRead _ => true
  | _ => false
  end.

(** A call of the model, a write of a file. *)
Definition is_call (e : event) : bool :=
  match e with
  | EvGenerate _ => true
  | _ => false
  end.

Definition is_write (e : event) : bool :=
  match e with
  | EvWrite _ _ => true
  | _ => false
  end.

(** Strictly increasing in code-point order. *)
Definition str_lt (a b : string) : Prop := String.compare a b = Lt.

(** The three increments one lower-cased text brings. *)
Definition star_gain (sql : string) : nat :=
  Nat.b2n (Py.contains "join" sql && Py.contains " on " sql)
  + Nat.b2n (Analyzer.any_tag ["dim_"; "fact_"] sql).

Definition snowflake_gain (sql : string) : nat :=
  Nat.b2n (Analyzer.any_tag ["bridge_"; "snowflake_"] sql).

Definition vault_gain (sql : string) : nat :=
  Nat.b2n (Analyzer.any_tag ["hub_"; "link_"; "sat_"] sql).

(** The lower-cased text of a listed file that can be read. *)
Definition text_of (entry : string * node) : string :=
  match snd entry with
  | File _ (Text text) => Py.lower text
  | _ => EmptyString
  end.

Definition total (gain : string -> nat) (files : list (string * node)) : nat :=
  list_sum (map (fun entry => gain (text_of entry)) files).

End Obs.

(** Further states of the worked project. *)
Module Cases.

(** The output directory cannot be made. *)
Definition no_mkdir : World :=
  {| environ := environ Demo.world;
     cwd := cwd Demo.world;
     disk := disk Demo.world;
     stat_fault := stat_fault Demo.world;
     glob_pattern := glob_pattern Demo.world;
     generate_content := generate_content Demo.world;
     mkdir_fault := fun _ => Some (Exn "PermissionError" "[Errno 13] Permission denied");
     write_fault := write_fault Demo.world;
     run_process := run_process Demo.world;
     re_search := re_search Demo.world;
     json_loads := json_loads Demo.world |}.

(** Nothing is set in the environment. *)
Definition bare : World :=
  {| environ := [];
     cwd := "/proj";
     disk := disk Demo.world;
     stat_fault := stat_fault Demo.world;
     glob_pattern := glob_pattern Demo.world;
     generate_content := generate_content Demo.world;
     mkdir_fault := mkdir_fault Demo.world;
     write_fault := write_fault Demo.world;
     run_process := run_process Demo.world;
     re_search := re_search Demo.world;
     json_loads := json_loads Demo.world |}.

(** The build tool fails: a non-zero return code, one event on each
    stream. *)
Definition failing_build : World :=
  {| environ := environ Demo.world;
     cwd := cwd Demo.world;
     disk := disk Demo.world;
     stat_fault := stat_fault Demo.world;
     glob_pattern := glob_pattern Demo.world;
     generate_content := generate_content Demo.world;
     mkdir_fault := mkdir_fault Demo.world;
     write_fault := write_fault Demo.world;
     run_process :=
       fun _ _ => inl (Completed 2 ("{}" ++ Py.nl ++ "Compilation Error") "{}");
     re_search := re_search Demo.world;
     json_loads := json_loads Demo.world |}.

(** The compiled files of the worked project, laid out the other way
    round and in upper case. *)
Definition reordered : World :=
  {| environ := [("DBT_PROJECT_LOCATION", "/proj")];
     cwd := cwd Demo.world;
     disk := Demo.project
               [ Dir "compiled"
                   [ File "b.sql"
                          (Text ("SELECT O.ID FROM FACT_ORDER_LINES O "
                                 ++ "JOIN DIM_CUSTOMERS C ON O.CID = C.ID"));
                     File "notes.txt" (Unreadable "[Errno 13] Permission denied");
                     Dir "deep" [ File "a.sql" (Text "select * from dim_customer_base") ] ] ];
     stat_fault := stat_fault Demo.world;
     glob_pattern := glob_pattern Demo.world;
     generate_content := generate_content Demo.world;
     mkdir_fault := mkdir_fault Demo.world;
     write_fault := write_fault Demo.world;
     run_process := run_process Demo.world;
     re_search := re_search Demo.world;
     json_loads := json_loads Demo.world |}.



(** The project lies in a directory that may not be searched: [os.stat]
    fails with [EACCES] on everything below it. *)
Definition locked_project : World :=
  {| environ := [("DBT_PROJECT_LOCATION", "/srv/locked")];
     cwd := cwd Demo.world;
     disk := disk Demo.world;
     stat_fault :=
       fun p =>
         if prefix "/srv/locked/" p
         then Some (Exn "PermissionError" ("[Errno 13] Permission denied: '" ++ p ++ "'"))
         else None;
     glob_pattern := glob_pattern Demo.world;
     generate_content := generate_content Demo.world;
     mkdir_fault := mkdir_fault Demo.world;
     write_fault := write_fault Demo.world;
     run_process := run_process Demo.world;
     re_search := re_search Demo.world;
     json_loads := json_loads Demo.world |}.

(** The build tool prints a line that is nested deeper than [json.loads]
    can follow. *)
Definition deep_line : World :=
  {| environ := environ Demo.world;
     cwd := cwd Demo.world;
     disk := disk Demo.world;
     stat_fault := stat_fault Demo.world;
     glob_pattern := glob_pattern Demo.world;
     generate_content := generate_content Demo.world;
     mkdir_fault := mkdir_fault Demo.world;
     write_fault := write_fault Demo.world;
     run_process := fun _ _ => inl (Completed 0 ("{}" ++ Py.nl ++ "[[[[") "");
     re_search := re_search Demo.world;
     json_loads :=
       fun line =>
         if line =? "[[[["
         then inr (Exn "RecursionError"
                       "maximum recursion depth exceeded while decoding a JSON array")
         else json_loads Demo.world line |}.

(** Extensions with wildcards of their own on the worked project:
    [*.s?l] selects the [.sql] files, and [**.sql] is refused with a
    [ValueError], as [pathlib] does up to Python 3.12. *)
Definition with_patterns : World :=
  {| environ := environ Demo.world;
     cwd := cwd Demo.world;
     disk := disk Demo.world;
     stat_fault := stat_fault Demo.world;
     glob_pattern :=
       fun d pattern =>
         if pattern =? "**.sql"
         then inr (Exn "ValueError"
                       "Invalid pattern: '**' can only be an entire path component")
         else if pattern =? "*.s?l"
         then match resolve Demo.world (Path.of_str d) with
              | Some (Dir _ ch) => inl (rglob_children ".sql" ch)
              | _ => inl []
              end
         else inl [];
     generate_content := generate_content Demo.world;
     mkdir_fault := mkdir_fault Demo.world;
     write_fault := write_fault Demo.world;
     run_process := run_process Demo.world;
     re_search := re_search Demo.world;
     json_loads := json_loads Demo.world |}.

End Cases.

(* ================================================================== *)
(** * Properties *)
(* ================================================================== *)

Unset Implicit Arguments.

(** ** Running the primitives *)

Example lower_ex : Py.lower "Stg_Users.SQL" = "stg_users.sql".
Proof. reflexivity. Qed.

Example replace_ex : Py.replace ".sql" "" "a.sql.sqlb.sq" = "ab.sq".
Proof. reflexivity. Qed.

Example removesuffix_ex :
  Py.removesuffix ".sql" "a.sql.sql" = "a.sql" /\ Py.removesuffix ".sql" "a.sqlx" = "a.sqlx".
Proof. split; reflexivity. Qed.

Example split_ex : Py.split "/" "models//stg/" = ["models"; ""; "stg"; ""].
Proof. reflexivity. Qed.

Example strip_ex : Py.strip "  a b  " = "a b".
Proof. reflexivity. Qed.

Example sorted_set_ex : Py.sorted_set ["b"; "a"; "b"; "B"] = ["B"; "a"; "b"].
Proof. reflexivity. Qed.

Example splitlines_ex :
  splitlines ("a" ++ Py.nl ++ Py.nl ++ "b" ++ Py.nl) = ["a"; ""; "b"].
Proof. reflexivity. Qed.

Example path_ex :
  Path.to_str (Path.div (Path.of_str "/proj/") "./models//stg_users.sql")
  = "/proj/models/stg_users.sql"
  /\ Path.name (Path.of_str "staging/stg_users.sql") = "stg_users.sql"
  /\ Path.stem_of "stg_users.v2.sql" = "stg_users.v2"
  /\ Path.stem_of ".sql" = ".sql".
Proof. repeat split; reflexivity. Qed.

(** The scenario of the specification: the snowflake rules find at least
    two distinct labels in [SELECT IFF(a,b,c), FLATTEN(x) FROM t]. *)
Example detect_ex :
  Translate.detect Re.search
    (match Translate.patterns_for "snowflake" with Some l => l | None => [] end)
    "SELECT IFF(a,b,c), FLATTEN(x) FROM t"
  = ["\bIFF\s*\("; "\bFLATTEN\s*\("].
Proof. vm_compute. reflexivity. Qed.

(** The scenario of the specification: [users] is ambiguous and the
    three candidates come back sorted. *)
Example search_users_ex :
  result (Translate._search_for_files "/anywhere" "users" Translate.default_extensions)
         Demo.world
  = Ok ["models/dim_users.sql"; "models/staging/stg_users.sql";
        "models/users_snapshot.sql"].
Proof. vm_compute. reflexivity. Qed.

(** ** Laws of the computations *)

Section Laws.

Context {A B : Type}.

Lemma result_ret (a : A) w : result (ret a) w = Ok a.
Proof. reflexivity. Qed.

Lemma result_bind (m : M A) (k : A -> M B) w :
  result (bind m k) w =
  match result m w with
  | Ok a => result (k a) w
  | Raised e => Raised e
  end.
Proof.
  unfold result, bind. destruct (m w) as [[a | e] l]; simpl; [| reflexivity].
  destruct (k a w); reflexivity.
Qed.

Lemma log_bind (m : M A) (k : A -> M B) w :
  log (bind m k) w =
  match result m w with
  | Ok a => log m w ++ log (k a) w
  | Raised _ => log m w
  end.
Proof.
  unfold log, result, bind. destruct (m w) as [[a | e] l]; simpl; [| reflexivity].
  destruct (k a w); reflexivity.
Qed.

Lemma result_try_except (m : M A) (h : exn -> M A) w :
  result (try_except m h) w =
  match result m w with
  | Ok a => Ok a
  | Raised e => result (h e) w
  end.
Proof.
  unfold result, try_except. destruct (m w) as [[a | e] l]; simpl; [reflexivity |].
  destruct (h e w); reflexivity.
Qed.

Lemma log_try_except (m : M A) (h : exn -> M A) w :
  log (try_except m h) w =
  match result m w with
  | Ok a => log m w
  | Raised e => log m w ++ log (h e) w
  end.
Proof.
  unfold log, result, try_except. destruct (m w) as [[a | e] l]; simpl; [reflexivity |].
  destruct (h e w); reflexivity.
Qed.

End Laws.

Lemma result_ask w : result ask w = Ok w.
Proof. reflexivity. Qed.

Lemma result_emit e w : result (emit e) w = Ok tt.
Proof. reflexivity. Qed.

Lemma result_print s w : result (print s) w = Ok tt.
Proof. reflexivity. Qed.

Lemma result_getenv_or_cwd k w : result (getenv_or_cwd k) w = Ok (env_or_cwd k w).
Proof. reflexivity. Qed.

Lemma result_exists p w :
  result (exists_ p) w
  = match resolve w p with
    | Some _ => Ok true
    | None =>
        match stat_fault w (Path.to_str p) with
        | Some e => Raised e
        | None => Ok false
        end
    end.
Proof.
  unfold result, exists_, bind, ask, emit, ret, raise. cbn.
  destruct (resolve w p); [reflexivity |].
  destruct (stat_fault w (Path.to_str p)); reflexivity.
Qed.

Lemma log_exists p w : log (exists_ p) w = [EvExists (Path.to_str p)].
Proof.
  unfold log, exists_, bind, ask, emit, ret, raise. cbn.
  destruct (resolve w p); [reflexivity |].
  destruct (stat_fault w (Path.to_str p)); reflexivity.
Qed.

(** A check that answers tells whether the path is on the disk. *)
Lemma exists_answers p w :
  Spec.answers w p = true ->
  result (exists_ p) w = Ok (match resolve w p with Some _ => true | None => false end).
Proof.
  unfold Spec.answers. rewrite result_exists.
  destruct (resolve w p); [reflexivity |].
  destruct (stat_fault w (Path.to_str p)); [discriminate | reflexivity].
Qed.

Lemma result_rglob d ext w :
  result (rglob d ext) w
  = match rglob_outcome w d ext with
    | inl found => Ok found
    | inr e => Raised e
    end.
Proof.
  unfold result, rglob, bind, ask, emit, ret, raise. cbn.
  destruct (rglob_outcome w d ext); reflexivity.
Qed.

Lemma log_rglob d ext w : log (rglob d ext) w = [EvRglob (Path.to_str d) ("*" ++ ext)].
Proof.
  unfold log, rglob, bind, ask, emit, ret, raise. cbn.
  destruct (rglob_outcome w d ext); reflexivity.
Qed.

(** A pattern that is taken yields what [glob] says. *)
Lemma rglob_taken d ext w found :
  rglob_outcome w d ext = inl found -> result (rglob d ext) w = Ok (glob w d ext).
Proof. intros H. rewrite result_rglob. unfold glob. rewrite H. reflexivity. Qed.

Lemma plain_taken d ext w :
  plain ext = true -> exists found, rglob_outcome w d ext = inl found.
Proof. intros H. unfold rglob_outcome. rewrite H. eauto. Qed.

(** The pattern of the dialect scan and of the router is a plain one. *)
Lemma result_rglob_sql d w : result (rglob d ".sql") w = Ok (glob w d ".sql").
Proof.
  destruct (plain_taken d ".sql" w eq_refl) as [found H]. exact (rglob_taken _ _ _ _ H).
Qed.

Lemma result_os_walk top w : result (os_walk top) w = Ok (walk w top).
Proof. reflexivity. Qed.

(** One step of symbolic execution of a computation. *)
Ltac run_step :=
  first [ rewrite result_bind | rewrite result_ret | rewrite result_try_except
        | rewrite result_ask | rewrite result_emit | rewrite result_print
        | rewrite result_getenv_or_cwd | rewrite result_exists
        | rewrite result_rglob | rewrite result_os_walk ].

Ltac run := repeat (run_step; cbn beta iota).

(** A loop whose body keeps an invariant keeps it. *)
Lemma for_each_invariant {A S} (P : S -> Prop) (body : A -> S -> M S) w xs :
  (forall x s s', In x xs -> P s -> result (body x s) w = Ok s' -> P s') ->
  forall s s', P s -> result (for_each xs body s) w = Ok s' -> P s'.
Proof.
  induction xs as [| x xs IH]; intros Hbody s s' Hs Hrun.
  - cbn in Hrun. inversion Hrun. subst. exact Hs.
  - cbn [for_each] in Hrun. rewrite result_bind in Hrun.
    destruct (result (body x s) w) as [s1 |] eqn:E; [| discriminate].
    apply (IH (fun y t t' Hy => Hbody y t t' (or_intror Hy)) s1 s'); [| exact Hrun].
    apply (Hbody x s s1); [left; reflexivity | exact Hs | exact E].
Qed.

(** A loop whose body always returns, returns. *)
Lemma for_each_returns {A S} (body : A -> S -> M S) w xs :
  (forall x s, In x xs -> exists s', result (body x s) w = Ok s') ->
  forall s, exists s', result (for_each xs body s) w = Ok s'.
Proof.
  induction xs as [| x xs IH]; intros Hbody s.
  - exists s. reflexivity.
  - destruct (Hbody x s (or_introl eq_refl)) as [s1 E].
    destruct (IH (fun y t Hy => Hbody y t (or_intror Hy)) s1) as [s' E'].
    exists s'. cbn [for_each]. rewrite result_bind, E. exact E'.
Qed.

(** ** Strings *)

Lemma prefix_refl s : prefix s s = true.
Proof.
  induction s as [| c s IH]; [reflexivity |].
  cbn. destruct (ascii_dec c c) as [_ | N]; [exact IH | contradiction].
Qed.

Lemma contains_refl s : Py.contains s s = true.
Proof. destruct s; cbn [Py.contains]; rewrite prefix_refl; reflexivity. Qed.

(** [a == b or a in b] is [a in b]. *)
Lemma eq_or_contains a b : (a =? b) || Py.contains a b = Py.contains a b.
Proof.
  destruct (a =? b) eqn:E; [| reflexivity].
  apply String.eqb_eq in E. subst. rewrite contains_refl. reflexivity.
Qed.

Lemma keep_match_qualifies clean filename stem rel matches :
  Translate.keep_match clean filename stem rel matches
  = if Py.contains filename stem || Py.contains clean stem
       || Py.contains clean (Py.lower rel)
    then matches ++ [rel] else matches.
Proof.
  unfold Translate.keep_match. rewrite !eq_or_contains.
  destruct (Py.contains filename stem), (Py.contains clean stem),
    (Py.contains clean (Py.lower rel)); reflexivity.
Qed.

(** ** The file search *)

Lemma strip_prefix_app base rest : Path.strip_prefix base (base ++ rest) = Some rest.
Proof.
  induction base as [| b base IH]; [reflexivity |].
  cbn. rewrite String.eqb_refl. exact IH.
Qed.

Lemma relative_to_under dbt_path rest :
  Path.relative_to (Path.mk (Path.anchored dbt_path) (Path.parts dbt_path ++ rest)) dbt_path
  = Some (Path.mk false rest).
Proof.
  unfold Path.relative_to. cbn [Path.anchored Path.parts].
  rewrite Bool.eqb_reflx, strip_prefix_app. reflexivity.
Qed.

(** Whatever [rglob] yields below one of the four directories lies below
    the project path. *)
Lemma glob_under w dbt_path search_dir ext entry :
  In search_dir Translate.search_dirs ->
  In entry (glob w (Path.div dbt_path search_dir) ext) ->
  exists rest,
    fst entry = Path.mk (Path.anchored dbt_path) (Path.parts dbt_path ++ rest).
Proof.
  intros Hdir Hin.
  assert (Hdiv : Path.div dbt_path search_dir
                 = Path.mk (Path.anchored dbt_path) (Path.parts dbt_path ++ [search_dir])).
  { cbn in Hdir. destruct Hdir as [<- | [<- | [<- | [<- | []]]]]; reflexivity. }
  rewrite Hdiv in Hin. unfold glob, rglob_outcome, under in Hin.
  destruct (plain ext); [| destruct (glob_pattern w _ _); [| contradiction]];
    (destruct (resolve w _) as [[? ? | ? ch] |]; try contradiction;
     apply in_map_iff in Hin; destruct Hin as (e & <- & _);
     cbn [fst Path.anchored Path.parts]; rewrite <- app_assoc; eauto).
Qed.

(** A loop that only appends collects what each round appends. *)
Lemma for_each_collect {A B} (f : A -> list B) (body : A -> list B -> M (list B)) w xs :
  (forall x s, In x xs -> result (body x s) w = Ok (s ++ f x)) ->
  forall s, result (for_each xs body s) w = Ok (s ++ flat_map f xs).
Proof.
  induction xs as [| x xs IH]; intros Hbody s.
  - cbn. rewrite app_nil_r. reflexivity.
  - cbn [for_each flat_map]. rewrite result_bind, (Hbody x s (or_introl eq_refl)).
    rewrite (IH (fun y t Hy => Hbody y t (or_intror Hy))), app_assoc. reflexivity.
Qed.

(** The same of a loop that may raise: if it returns, it has collected
    what each round appends. *)
Lemma for_each_collect_if {A B} (f : A -> list B) (body : A -> list B -> M (list B)) w xs :
  (forall x s s', In x xs -> result (body x s) w = Ok s' -> s' = s ++ f x) ->
  forall s s', result (for_each xs body s) w = Ok s' -> s' = s ++ flat_map f xs.
Proof.
  induction xs as [| x xs IH]; intros Hbody s s' Hrun.
  - cbn in Hrun. injection Hrun as <-. cbn. rewrite app_nil_r. reflexivity.
  - cbn [for_each flat_map] in *. rewrite result_bind in Hrun.
    destruct (result (body x s) w) as [s1 |] eqn:E; [| discriminate].
    pose proof (Hbody x s s1 (or_introl eq_refl) E) as ->.
    rewrite (IH (fun y t t' Hy => Hbody y t t' (or_intror Hy)) _ _ Hrun), app_assoc.
    reflexivity.
Qed.


Lemma insert_uniq_In x y l : In x (Py.insert_uniq y l) <-> x = y \/ In x l.
Proof.
  induction l as [| z l IH]; cbn [Py.insert_uniq].
  - cbn. intuition auto.
  - destruct (String.compare y z) eqn:E.
    + apply String.compare_eq_iff in E. subst z. cbn. intuition auto.
    + cbn. intuition auto.
    + cbn [In]. rewrite IH. intuition auto.
Qed.

(** [sorted(set(xs))] has the members of [xs]. *)
Lemma In_sorted_set x l : In x (Py.sorted_set l) <-> In x l.
Proof.
  induction l as [| y l IH]; [reflexivity |].
  unfold Py.sorted_set in *. cbn [fold_right In].
  rewrite insert_uniq_In, IH. intuition auto.
Qed.

Lemma visit_file_kept w dbt_path search_term file_path matches :
  Path.relative_to file_path dbt_path <> None ->
  result (Translate.visit_file dbt_path search_term file_path matches) w
  = Ok (matches ++ Spec.kept dbt_path search_term file_path).
Proof.
  intros Hrel. unfold Translate.visit_file, Spec.kept.
  destruct (Path.relative_to file_path dbt_path) as [rel_path |]; [| contradiction].
  rewrite result_ret, keep_match_qualifies. unfold Spec.qualifies.
  destruct (_ || _ || _); [reflexivity | rewrite app_nil_r; reflexivity].
Qed.

Lemma glob_missing w d ext : resolve w d = None -> glob w d ext = [].
Proof.
  intros H. unfold glob, rglob_outcome. rewrite H.
  destruct (plain ext); [reflexivity |].
  destruct (glob_pattern w _ _); reflexivity.
Qed.

Lemma flat_map_nil {A B} (f : A -> list B) xs :
  (forall x, In x xs -> f x = []) -> flat_map f xs = [].
Proof.
  induction xs as [| x xs IH]; intros H; [reflexivity |].
  cbn. rewrite (H x (or_introl eq_refl)), IH; [reflexivity |].
  intros y Hy. apply H. right. exact Hy.
Qed.

(** The innermost loop keeps what [Spec.kept] keeps of every entry. *)
Lemma visit_entries_collect w dbt_path search_term search_dir ext matches :
  In search_dir Translate.search_dirs ->
  result (for_each (glob w (Path.div dbt_path search_dir) ext)
            (fun entry matches =>
               Translate.visit_file dbt_path search_term (fst entry) matches)
            matches) w
  = Ok (matches
        ++ flat_map (fun entry => Spec.kept dbt_path search_term (fst entry))
                    (glob w (Path.div dbt_path search_dir) ext)).
Proof.
  intros Hdir.
  apply (for_each_collect (fun entry => Spec.kept dbt_path search_term (fst entry))).
  intros entry matches' Hentry.
  destruct (glob_under _ _ _ _ _ Hdir Hentry) as [rest Hrest].
  apply visit_file_kept. rewrite Hrest, relative_to_under. discriminate.
Qed.

(** When the project can be listed, the three nested loops of the search
    collect what [Spec.kept] keeps of every entry; in particular they do
    not raise. *)
Lemma search_under_collect w dbt_path search_term extensions :
  Spec.listable w dbt_path extensions = true ->
  result (Translate.search_under dbt_path search_term extensions) w
  = Ok (Spec.found_under w dbt_path search_term extensions).
Proof.
  intros Hlist. unfold Spec.listable in Hlist. rewrite forallb_forall in Hlist.
  unfold Translate.search_under, Spec.found_under.
  apply (for_each_collect
           (fun search_dir =>
              flat_map
                (fun ext =>
                   flat_map (fun entry => Spec.kept dbt_path search_term (fst entry))
                            (glob w (Path.div dbt_path search_dir) ext))
                extensions)).
  intros search_dir matches Hdir.
  specialize (Hlist search_dir Hdir). cbv zeta in Hlist.
  apply andb_true_iff in Hlist. destruct Hlist as [Hanswer Htaken].
  rewrite result_bind, (exists_answers _ _ Hanswer).
  destruct (resolve w (Path.div dbt_path search_dir)) eqn:Hres; cbn [negb].
  - unfold Spec.patterns_taken in Htaken. rewrite forallb_forall in Htaken.
    apply for_each_collect. intros ext matches' Hext.
    specialize (Htaken ext Hext).
    destruct (rglob_outcome w (Path.div dbt_path search_dir) ext) as [found |] eqn:Hout;
      [| discriminate].
    rewrite result_bind, (rglob_taken _ _ _ _ Hout).
    apply visit_entries_collect. exact Hdir.
  - rewrite result_ret, flat_map_nil; [rewrite app_nil_r; reflexivity |].
    intros ext _. rewrite (glob_missing _ _ _ Hres). reflexivity.
Qed.

(** Whenever the three loops return, they have collected what
    [Spec.kept] keeps of every entry. *)
Lemma search_under_exact w dbt_path search_term extensions matches :
  result (Translate.search_under dbt_path search_term extensions) w = Ok matches ->
  matches = Spec.found_under w dbt_path search_term extensions.
Proof.
  unfold Translate.search_under, Spec.found_under.
  change (Spec.found_under w dbt_path search_term extensions)
    with ([] ++ Spec.found_under w dbt_path search_term extensions).
  apply (for_each_collect_if
           (fun search_dir =>
              flat_map
                (fun ext =>
                   flat_map (fun entry => Spec.kept dbt_path search_term (fst entry))
                            (glob w (Path.div dbt_path search_dir) ext))
                extensions)).
  intros search_dir s s' Hdir. rewrite result_bind, result_exists.
  destruct (resolve w (Path.div dbt_path search_dir)) eqn:Hres; cbn [negb].
  - apply (for_each_collect_if
             (fun ext =>
                flat_map (fun entry => Spec.kept dbt_path search_term (fst entry))
                         (glob w (Path.div dbt_path search_dir) ext))).
    intros ext t t' Hext. rewrite result_bind, result_rglob.
    destruct (rglob_outcome w (Path.div dbt_path search_dir) ext) as [found |] eqn:Hout;
      [| discriminate].
    assert (Hglob : found = glob w (Path.div dbt_path search_dir) ext)
      by (unfold glob; rewrite Hout; reflexivity).
    rewrite Hglob, (visit_entries_collect _ _ _ _ _ _ Hdir).
    intros [= <-]. reflexivity.
  - destruct (stat_fault w _); [discriminate |].
    cbn [negb]. rewrite result_ret. intros [= <-].
    rewrite flat_map_nil; [rewrite app_nil_r; reflexivity |].
    intros ext _. rewrite (glob_missing _ _ _ Hres). reflexivity.
Qed.


(** The search is the walk below the project path, sorted and without
    repetition. *)
Lemma search_unfold w dbt_root search_term extensions :
  result (Translate._search_for_files dbt_root search_term extensions) w
  = match result (Translate.search_under
                    (Path.of_str (env_or_cwd "DBT_PROJECT_LOCATION" w))
                    search_term extensions) w with
    | Ok matches => Ok (Py.sorted_set matches)
    | Raised e => Raised e
    end.
Proof.
  unfold Translate._search_for_files, load_dotenv. run.
  destruct (result (Translate.search_under _ _ _) w); reflexivity.
Qed.

(** The search of a project that can be listed returns. *)
Lemma search_returns w dbt_root search_term extensions :
  Spec.listable w (Path.of_str (env_or_cwd "DBT_PROJECT_LOCATION" w)) extensions = true ->
  result (Translate._search_for_files dbt_root search_term extensions) w
  = Ok (Py.sorted_set
          (Spec.found_under w (Path.of_str (env_or_cwd "DBT_PROJECT_LOCATION" w))
                            search_term extensions)).
Proof.
  intros Hlist. rewrite search_unfold, (search_under_collect _ _ _ _ Hlist). reflexivity.
Qed.

(** C10.  [_search_for_files] does not depend on its [dbt_root]
    argument: for the same world (file tree, environment, working
    directory) and the same search term, any two values of [dbt_root]
    give the same result and the same events, because the directory that
    is walked is [DBT_PROJECT_LOCATION], or the working directory when
    that variable is unset. *)
Theorem search_ignores_dbt_root :
  (forall w dbt_root1 dbt_root2 search_term extensions,
      Translate._search_for_files dbt_root1 search_term extensions w
      = Translate._search_for_files dbt_root2 search_term extensions w)
  /\
  (forall w dbt_root search_term extensions,
      result (Translate._search_for_files dbt_root search_term extensions) w
      = match result (Translate.search_under
                        (Path.of_str (env_or_cwd "DBT_PROJECT_LOCATION" w))
                        search_term extensions) w with
        | Ok matches => Ok (Py.sorted_set matches)
        | Raised e => Raised e
        end).
Proof.
  split.
  - intros. reflexivity.
  - intros. unfold Translate._search_for_files, load_dotenv. run.
    destruct (result (Translate.search_under _ _ _) w); reflexivity.
Qed.

(** On the worked project: the answer follows the environment, not the
    argument. *)
Example search_follows_environment :
  result (Translate._search_for_files "/other" "users" [".sql"]) Demo.world
  = result (Translate._search_for_files "/proj" "users" [".sql"]) Demo.world
  /\ result (Translate._search_for_files "/proj" "users" [".sql"]) Demo.elsewhere
     = Ok ["models/users.sql"].
Proof. split; vm_compute; reflexivity. Qed.

(** C3, as amended.  The search term is lower-cased and every
    occurrence of [.sql] is taken out of it, and likewise out of its last
    path component; a candidate file is kept if and only if the cleaned
    last component is contained in its lower-cased stem, or the cleaned
    term is contained in that stem, or the cleaned term is contained in
    the lower-cased relative path.  The search of a project that can be
    listed returns the relative paths of exactly the entries so kept. *)
Theorem file_match_condition :
  (forall search_term,
      Translate.search_clean search_term = Py.replace ".sql" "" (Py.lower search_term)
      /\ Translate.search_filename search_term
         = Py.replace ".sql" "" (Py.lower (Path.name (Path.of_str search_term))))
  /\
  (forall w dbt_path search_term file_path rel_path matches,
      Path.relative_to file_path dbt_path = Some rel_path ->
      result (Translate.visit_file dbt_path search_term file_path matches) w
      = Ok (if Spec.qualifies search_term (Path.stem file_path) (Path.to_str rel_path)
            then matches ++ [Path.to_str rel_path]
            else matches))
  /\
  (forall w dbt_root search_term extensions,
      let dbt_path := Path.of_str (env_or_cwd "DBT_PROJECT_LOCATION" w) in
      Spec.listable w dbt_path extensions = true ->
      exists suggestions,
        result (Translate._search_for_files dbt_root search_term extensions) w
        = Ok suggestions
        /\ forall rel,
            In rel suggestions <->
            exists search_dir ext entry rel_path,
              In search_dir ["models"; "macros"; "analyses"; "tests"]
              /\ In ext extensions
              /\ In entry (glob w (Path.div dbt_path search_dir) ext)
              /\ Path.relative_to (fst entry) dbt_path = Some rel_path
              /\ rel = Path.to_str rel_path
              /\ Spec.qualifies search_term (Path.stem (fst entry)) rel = true).
Proof.
  split; [| split].
  - intros search_term. split; reflexivity.
  - intros w dbt_path search_term file_path rel_path matches Hrel.
    unfold Translate.visit_file. rewrite Hrel, result_ret, keep_match_qualifies.
    reflexivity.
  - intros w dbt_root search_term extensions dbt_path Hlist.
    exists (Py.sorted_set (Spec.found_under w dbt_path search_term extensions)).
    split.
    + exact (search_returns _ _ _ _ Hlist).
    + intros rel. rewrite In_sorted_set. unfold Spec.found_under.
      rewrite in_flat_map. split.
      * intros (search_dir & Hdir & Hin). apply in_flat_map in Hin.
        destruct Hin as (ext & Hext & Hin). apply in_flat_map in Hin.
        destruct Hin as (entry & Hentry & Hin). unfold Spec.kept in Hin.
        destruct (Path.relative_to (fst entry) dbt_path) as [rel_path |] eqn:Hrel;
          [| destruct Hin].
        destruct (Spec.qualifies _ _ _) eqn:Hq; [| destruct Hin].
        destruct Hin as [<- | []].
        exists search_dir, ext, entry, rel_path. repeat split; assumption.
      * intros (search_dir & ext & entry & rel_path & Hdir & Hext & Hentry & Hrel & -> & Hq).
        exists search_dir. split; [exact Hdir |].
        apply in_flat_map. exists ext. split; [exact Hext |].
        apply in_flat_map. exists entry. split; [exact Hentry |].
        unfold Spec.kept. rewrite Hrel, Hq. left. reflexivity.
Qed.

Lemma file_match_condition_witness :
  result (Translate.visit_file (Path.of_str "/proj") "Staging/STG_Users.sql"
            (Path.of_str "/proj/models/staging/stg_users.sql") []) Demo.world
  = Ok ["models/staging/stg_users.sql"]
  /\ exists suggestions,
      result (Translate._search_for_files "/proj" "Staging/STG_Users.sql" [".sql"])
             Demo.world
      = Ok suggestions
      /\ forall rel,
          In rel suggestions <->
          exists search_dir ext entry rel_path,
            In search_dir ["models"; "macros"; "analyses"; "tests"]
            /\ In ext [".sql"]
            /\ In entry (glob Demo.world (Path.div (Path.of_str "/proj") search_dir) ext)
            /\ Path.relative_to (fst entry) (Path.of_str "/proj") = Some rel_path
            /\ rel = Path.to_str rel_path
            /\ Spec.qualifies "Staging/STG_Users.sql" (Path.stem (fst entry)) rel = true.
Proof.
  split.
  - exact (proj1 (proj2 file_match_condition) Demo.world (Path.of_str "/proj")
                 "Staging/STG_Users.sql"
                 (Path.of_str "/proj/models/staging/stg_users.sql")
                 (Path.mk false ["models"; "staging"; "stg_users.sql"])
                 [] eq_refl).
  - exact (proj2 (proj2 file_match_condition) Demo.world "/proj"
                 "Staging/STG_Users.sql" [".sql"] eq_refl).
Defined.

(** C3, as stated, fails in both directions.  A [.sql] inside the term
    is removed too, so [my.sqlmodel] finds [mymodel.sql]; the last path
    component of the term is tried on its own, so [staging/stg_users]
    finds [models/stg_users.sql]; and [x.sqly] does not find
    [x.sqly.sql], whose stem it equals once lower-cased. *)
Lemma file_match_counterexample :
  (result (Translate.visit_file (Path.of_str "/proj") "my.sqlmodel"
             (Path.of_str "/proj/models/mymodel.sql") []) Demo.world
   = Ok ["models/mymodel.sql"]
   /\ Spec.matches "my.sqlmodel" "mymodel" "models/mymodel.sql" = false)
  /\
  (result (Translate.visit_file (Path.of_str "/proj") "staging/stg_users"
             (Path.of_str "/proj/models/stg_users.sql") []) Demo.world
   = Ok ["models/stg_users.sql"]
   /\ Spec.matches "staging/stg_users" "stg_users" "models/stg_users.sql" = false)
  /\
  (result (Translate.visit_file (Path.of_str "/proj") "x.sqly"
             (Path.of_str "/proj/models/x.sqly.sql") []) Demo.world
   = Ok []
   /\ Spec.matches "x.sqly" "x.sqly" "models/x.sqly.sql" = true).
Proof. repeat split; vm_compute; reflexivity. Qed.


(** ** The schema classifier *)

Lemma for_each_app {A S} (body : A -> S -> M S) w xs ys s :
  result (for_each (xs ++ ys) body s) w =
  match result (for_each xs body s) w with
  | Ok s' => result (for_each ys body s') w
  | Raised e => Raised e
  end.
Proof.
  revert s. induction xs as [| x xs IH]; intros s; [reflexivity |].
  cbn [for_each app]. rewrite !result_bind.
  destruct (result (body x s) w); [apply IH | reflexivity].
Qed.

(** The two nested loops of the classifier visit the [.sql] files of the
    walk one after the other. *)
Lemma classifier_loop tree w patterns :
  result (for_each tree
            (fun triple patterns =>
               for_each (snd triple) (Analyzer.visit (fst triple)) patterns)
            patterns) w
  = result (for_each (Spec.sql_files tree) Spec.classify_file patterns) w.
Proof.
  revert patterns. induction tree as [| [root files] tree IH]; intros patterns;
    [reflexivity |].
  cbn [for_each Spec.sql_files flat_map fst snd]. rewrite result_bind, for_each_app.
  assert (Hin : forall p,
             result (for_each files (Analyzer.visit root) p) w
             = result (for_each
                         (map (pair root)
                              (filter (fun entry => Py.endswith ".sql" (node_name entry))
                                      files))
                         Spec.classify_file p) w).
  { induction files as [| f files IHf]; intros p; [reflexivity |].
    cbn [for_each filter]. rewrite result_bind. unfold Analyzer.visit at 1.
    destruct (Py.endswith ".sql" (node_name f)) eqn:E.
    - cbn [map for_each]. unfold Spec.classify_file at 1. cbn [fst snd].
      rewrite !result_bind.
      destruct (result (read_node _ f) w); [| reflexivity].
      rewrite !result_ret. apply IHf.
    - rewrite result_ret. apply IHf. }
  rewrite Hin. destruct (result _ w); [apply IH | reflexivity].
Qed.

Lemma apply_rules_scores sql star snowflake vault :
  Analyzer.apply_rules sql (Spec.scores star snowflake vault)
  = Spec.scores
      (star + Nat.b2n (Py.contains "join" sql && Py.contains " on " sql)
       + Nat.b2n (Analyzer.any_tag ["dim_"; "fact_"] sql))
      (snowflake + Nat.b2n (Analyzer.any_tag ["bridge_"; "snowflake_"] sql))
      (vault + Nat.b2n (Analyzer.any_tag ["hub_"; "link_"; "sat_"] sql)).
Proof.
  unfold Analyzer.apply_rules.
  destruct (Py.contains "join" sql && Py.contains " on " sql),
    (Analyzer.any_tag ["hub_"; "link_"; "sat_"] sql),
    (Analyzer.any_tag ["dim_"; "fact_"] sql),
    (Analyzer.any_tag ["bridge_"; "snowflake_"] sql);
    cbn; unfold Spec.scores; repeat f_equal; lia.
Qed.

Lemma get_scores star snowflake vault :
  Analyzer.get (Spec.scores star snowflake vault) "star_schema" = star
  /\ Analyzer.get (Spec.scores star snowflake vault) "snowflake_schema" = snowflake
  /\ Analyzer.get (Spec.scores star snowflake vault) "data_vault" = vault.
Proof. repeat split; reflexivity. Qed.

Lemma max_key_scores star snowflake vault :
  Analyzer.max_key (Spec.scores star snowflake vault)
  = Some (Spec.first_max star snowflake vault).
Proof.
  destruct (get_scores star snowflake vault) as (Ha & Hb & Hc).
  unfold Analyzer.max_key, Spec.first_max.
  change (map fst (Spec.scores star snowflake vault))
    with ["star_schema"; "snowflake_schema"; "data_vault"].
  cbn [fold_left]. rewrite Ha, Hb, Hc.
  destruct (Nat.ltb_spec star snowflake), (Nat.leb_spec snowflake star); try lia;
    cbn [andb]; rewrite ?Ha, ?Hb.
  - destruct (Nat.ltb_spec snowflake vault), (Nat.leb_spec vault snowflake);
      try lia; reflexivity.
  - destruct (Nat.ltb_spec star vault), (Nat.leb_spec vault star); try lia;
      [| reflexivity].
    destruct (Nat.leb_spec vault snowflake); [lia | reflexivity].
Qed.

Lemma first_max_cases star snowflake vault :
  (Spec.first_max star snowflake vault = "star_schema"
   /\ snowflake <= star /\ vault <= star)
  \/ (Spec.first_max star snowflake vault = "snowflake_schema"
      /\ star < snowflake /\ vault <= snowflake)
  \/ (Spec.first_max star snowflake vault = "data_vault"
      /\ star < vault /\ snowflake < vault).
Proof.
  unfold Spec.first_max.
  destruct (Nat.leb_spec snowflake star), (Nat.leb_spec vault star),
    (Nat.leb_spec vault snowflake); cbn [andb];
    first [ left; repeat split; (reflexivity || lia)
          | right; left; repeat split; (reflexivity || lia)
          | right; right; repeat split; (reflexivity || lia) ].
Qed.

(** Whatever the files, the counters stay a triple in declared order. *)
Lemma classify_files_scores w files :
  forall star snowflake vault patterns,
    result (for_each files Spec.classify_file (Spec.scores star snowflake vault)) w
    = Ok patterns ->
    exists star' snowflake' vault',
      patterns = Spec.scores star' snowflake' vault' /\ star <= star'.
Proof.
  induction files as [| f files IH]; intros star snowflake vault patterns Hrun.
  - cbn in Hrun. inversion Hrun. eauto.
  - cbn [for_each] in Hrun. rewrite result_bind in Hrun.
    unfold Spec.classify_file at 1 in Hrun. rewrite result_bind in Hrun.
    destruct (result (read_node _ _) w) as [text |]; [| discriminate].
    rewrite result_ret, apply_rules_scores in Hrun.
    apply IH in Hrun. destruct Hrun as (a & b & c & -> & Hle).
    exists a, b, c. split; [reflexivity | lia].
Qed.

(** The classifier, once its root is settled, is the loop over the
    [.sql] files followed by the choice of the first largest score. *)
Lemma analyze_unfold w project_dir root :
  Spec.classifier_root w project_dir = Some root ->
  result (Analyzer.analyze_dbt_schema project_dir) w
  = match result (for_each (Spec.sql_files (walk w (Spec.compiled_dir root)))
                           Spec.classify_file (Spec.scores 0 0 0)) w with
    | Ok patterns =>
        match Analyzer.max_key patterns with
        | Some guess => Ok [ ("analysis", Analyzer.counts_value patterns);
                             ("likely_modeling_pattern", VStr guess) ]
        | None => Raised (Exn "ValueError" "max() arg is an empty sequence")
        end
    | Raised e => Raised e
    end.
Proof.
  intros Hroot. unfold Analyzer.analyze_dbt_schema, getenv.
  rewrite result_bind, result_bind, result_ask, result_ret.
  unfold Spec.classifier_root in Hroot. rewrite Hroot.
  rewrite result_bind, result_os_walk, result_bind, classifier_loop.
  fold (Spec.compiled_dir root). fold (Spec.scores 0 0 0).
  destruct (result (for_each _ _ _) w) as [patterns |]; [| reflexivity].
  destruct (Analyzer.max_key patterns); reflexivity.
Qed.

Lemma classify_readable w entry patterns :
  Spec.readable entry = true ->
  exists text,
    snd entry = File (node_name (snd entry)) (Text text)
    /\ result (Spec.classify_file entry patterns) w
       = Ok (Analyzer.apply_rules (Py.lower text) patterns).
Proof.
  destruct entry as [dir [name [text | why] | name ch]]; cbn; try discriminate.
  intros _. exists text. split; reflexivity.
Qed.

Lemma classify_text w dir name text patterns :
  result (Spec.classify_file (dir, File name (Text text)) patterns) w
  = Ok (Analyzer.apply_rules (Py.lower text) patterns).
Proof. reflexivity. Qed.

(** Whatever the classifier returns is a triple of scores with the
    first largest of them as the guess. *)
Lemma analyze_payload w project_dir d :
  result (Analyzer.analyze_dbt_schema project_dir) w = Ok d ->
  exists star snowflake vault,
    d = [ ("analysis", Analyzer.counts_value (Spec.scores star snowflake vault));
          ("likely_modeling_pattern", VStr (Spec.first_max star snowflake vault)) ].
Proof.
  intros Hrun.
  destruct (Spec.classifier_root w project_dir) as [root |] eqn:Hroot.
  - rewrite (analyze_unfold _ _ _ Hroot) in Hrun.
    destruct (result (for_each _ _ _) w) as [patterns |] eqn:Hloop; [| discriminate].
    apply classify_files_scores in Hloop.
    destruct Hloop as (a & b & c & -> & _).
    rewrite max_key_scores in Hrun. inversion Hrun. eauto.
  - unfold Analyzer.analyze_dbt_schema, getenv in Hrun.
    rewrite result_bind, result_bind, result_ask, result_ret in Hrun.
    unfold Spec.classifier_root in Hroot. rewrite Hroot in Hrun. discriminate.
Qed.

(** C4.  When the compiled directory is missing, or holds no [.sql]
    file, the classifier returns, without raising, the three scores at
    zero and the guess [star_schema]; and in general the guess is the
    first label, in the declared order [star_schema],
    [snowflake_schema], [data_vault], whose score is the largest. *)
Theorem classify_default_and_ties :
  (forall w project_dir root,
      Spec.classifier_root w project_dir = Some root ->
      resolve w (Path.of_str (Spec.compiled_dir root)) = None
      \/ Spec.sql_files (walk w (Spec.compiled_dir root)) = [] ->
      result (Analyzer.analyze_dbt_schema project_dir) w
      = Ok [ ("analysis",
              VDict [ ("star_schema", VInt 0); ("snowflake_schema", VInt 0);
                      ("data_vault", VInt 0) ]);
             ("likely_modeling_pattern", VStr "star_schema") ])
  /\
  (forall star snowflake vault,
      exists guess,
        Analyzer.max_key (Spec.scores star snowflake vault) = Some guess /\
        (guess = "star_schema" /\ snowflake <= star /\ vault <= star
         \/ guess = "snowflake_schema" /\ star < snowflake /\ vault <= snowflake
         \/ guess = "data_vault" /\ star < vault /\ snowflake < vault))
  /\
  (forall w project_dir d,
      result (Analyzer.analyze_dbt_schema project_dir) w = Ok d ->
      exists star snowflake vault,
        d = [ ("analysis", Analyzer.counts_value (Spec.scores star snowflake vault));
              ("likely_modeling_pattern",
               VStr (Spec.first_max star snowflake vault)) ]).
Proof.
  split; [| split].
  - intros w project_dir root Hroot Hempty.
    assert (Hfiles : Spec.sql_files (walk w (Spec.compiled_dir root)) = []).
    { destruct Hempty as [Hmissing | Hnone]; [| exact Hnone].
      unfold walk. rewrite Hmissing. reflexivity. }
    rewrite (analyze_unfold _ _ _ Hroot), Hfiles. reflexivity.
  - intros star snowflake vault. exists (Spec.first_max star snowflake vault).
    split; [apply max_key_scores | apply first_max_cases].
  - exact analyze_payload.
Qed.

Lemma classify_default_and_ties_witness :
  result (Analyzer.analyze_dbt_schema None) Demo.uncompiled
  = Ok [ ("analysis",
          VDict [ ("star_schema", VInt 0); ("snowflake_schema", VInt 0);
                  ("data_vault", VInt 0) ]);
         ("likely_modeling_pattern", VStr "star_schema") ]
  /\ (exists star snowflake vault,
         result (Analyzer.analyze_dbt_schema (Some "/proj")) Demo.world
         = Ok [ ("analysis", Analyzer.counts_value (Spec.scores star snowflake vault));
                ("likely_modeling_pattern",
                 VStr (Spec.first_max star snowflake vault)) ]).
Proof.
  split.
  - apply (proj1 classify_default_and_ties Demo.uncompiled None "/proj").
    + reflexivity.
    + left. vm_compute. reflexivity.
  - destruct (proj2 (proj2 classify_default_and_ties) Demo.world (Some "/proj") _ eq_refl)
      as (a & b & c & H).
    exists a, b, c. rewrite <- H. reflexivity.
Defined.

(** C5.  A file whose lower-cased text has [join], [ on ] and one of
    [dim_], [fact_] adds exactly 2 to [star_schema]: the two star rules
    add up.  Hence a compiled project of two readable [.sql] files, each
    with a [dim_] or [fact_] token and none of [hub_], [link_], [sat_],
    [bridge_], [snowflake_], is guessed [star_schema] with a star score
    of at least 2 and the two other scores at 0. *)
Theorem star_rules_add_up :
  (forall sql star snowflake vault,
      Py.contains "join" sql = true ->
      Py.contains " on " sql = true ->
      Analyzer.any_tag ["dim_"; "fact_"] sql = true ->
      Analyzer.get (Analyzer.apply_rules sql (Spec.scores star snowflake vault))
                   "star_schema"
      = star + 2)
  /\
  (forall w project_dir root dir1 name1 text1 dir2 name2 text2,
      Spec.classifier_root w project_dir = Some root ->
      Spec.sql_files (walk w (Spec.compiled_dir root))
      = [ (dir1, File name1 (Text text1)); (dir2, File name2 (Text text2)) ] ->
      Spec.star_only text1 = true ->
      Spec.star_only text2 = true ->
      exists star,
        2 <= star /\
        result (Analyzer.analyze_dbt_schema project_dir) w
        = Ok [ ("analysis",
                VDict [ ("star_schema", VInt (Z.of_nat star));
                        ("snowflake_schema", VInt 0); ("data_vault", VInt 0) ]);
               ("likely_modeling_pattern", VStr "star_schema") ]).
Proof.
  split.
  - intros sql star snowflake vault Hjoin Hon Htag.
    rewrite apply_rules_scores, Hjoin, Hon, Htag. cbn. lia.
  - intros w project_dir root dir1 name1 text1 dir2 name2 text2 Hroot Hfiles H1 H2.
    unfold Spec.star_only in H1, H2.
    apply andb_true_iff in H1, H2. destruct H1 as [D1 N1], H2 as [D2 N2].
    apply negb_true_iff in N1, N2. cbn [Analyzer.any_tag existsb] in N1, N2.
    repeat (apply orb_false_elim in N1; destruct N1 as [? N1]).
    repeat (apply orb_false_elim in N2; destruct N2 as [? N2]).
    rewrite (analyze_unfold _ _ _ Hroot), Hfiles.
    cbn [for_each].
    rewrite result_bind, classify_text, result_bind, classify_text, result_ret.
    rewrite !apply_rules_scores. rewrite max_key_scores.
    rewrite D1, D2.
    cbn [Analyzer.any_tag existsb].
    repeat match goal with H : Py.contains _ _ = false |- _ => rewrite H; clear H end.
    cbn [orb Nat.b2n]. rewrite !Nat.add_0_r.
    set (j1 := Nat.b2n (Py.contains "join" (Py.lower text1)
                        && Py.contains " on " (Py.lower text1))).
    set (j2 := Nat.b2n (Py.contains "join" (Py.lower text2)
                        && Py.contains " on " (Py.lower text2))).
    exists (0 + j1 + 1 + j2 + 1). split; [lia |].
    unfold Spec.first_max. cbn [Nat.leb andb]. reflexivity.
Qed.

Lemma star_rules_add_up_witness :
  Analyzer.get (Analyzer.apply_rules "select 1 from fact_orders f join dim_users d on f.u = d.id"
                                     (Spec.scores 0 0 0))
               "star_schema"
  = 2
  /\ exists star,
      2 <= star /\
      result (Analyzer.analyze_dbt_schema None) Demo.world
      = Ok [ ("analysis",
              VDict [ ("star_schema", VInt (Z.of_nat star));
                      ("snowflake_schema", VInt 0); ("data_vault", VInt 0) ]);
             ("likely_modeling_pattern", VStr "star_schema") ].
Proof.
  split.
  - apply (proj1 star_rules_add_up
                 "select 1 from fact_orders f join dim_users d on f.u = d.id" 0 0 0);
      reflexivity.
  - apply (proj2 star_rules_add_up Demo.world None "/proj"
                 "/proj/target/compiled/jaffle/models" "dim_customers.sql"
                 "select * from DIM_customer_base"
                 "/proj/target/compiled/jaffle/models" "fact_orders.sql"
                 ("select o.id from fact_order_lines o "
                  ++ "JOIN dim_customers c ON o.cid = c.id")%string);
      reflexivity.
Defined.

(** C2.  The classifier has no handler around its reads: as soon as
    the walk of the compiled directory meets a [.sql] entry that cannot
    be read, after any number of readable ones, the failure leaves
    [analyze_dbt_schema] as an exception and no result is returned,
    whatever files come after. *)
Theorem classifier_read_failure_escapes w project_dir root before dir name why after :
  Spec.classifier_root w project_dir = Some root ->
  Spec.sql_files (walk w (Spec.compiled_dir root))
  = before ++ (dir, File name (Unreadable why)) :: after ->
  forallb Spec.readable before = true ->
  result (Analyzer.analyze_dbt_schema project_dir) w = Raised (Exn "OSError" why).
Proof.
  intros Hroot Hfiles Hbefore.
  rewrite (analyze_unfold _ _ _ Hroot), Hfiles, for_each_app.
  destruct (for_each_returns Spec.classify_file w before) with (s := Spec.scores 0 0 0)
    as [patterns Hrun].
  - intros entry s Hin.
    rewrite forallb_forall in Hbefore.
    destruct (classify_readable w entry s (Hbefore entry Hin)) as (text & _ & H).
    eauto.
  - rewrite Hrun. reflexivity.
Qed.

Lemma classifier_read_failure_escapes_witness :
  result (Analyzer.analyze_dbt_schema None) Demo.with_locked_compiled
  = Raised (Exn "OSError" "[Errno 13] Permission denied").
Proof.
  apply (@classifier_read_failure_escapes Demo.with_locked_compiled None "/proj"
           [] "/proj/target/compiled" "broken.sql" "[Errno 13] Permission denied"
           [("/proj/target/compiled", File "fact_orders.sql" (Text "select 1 from fact_orders"))]);
    reflexivity.
Defined.

(** ** The pattern catalogue *)

Lemma patterns_for_known k :
  In k Translate.warehouses ->
  exists patterns,
    Translate.patterns_for k = Some patterns
    /\ NoDup (map Translate.pattern_desc patterns).
Proof.
  unfold Translate.warehouses, Translate.WAREHOUSE_PATTERNS. cbn [map fst].
  intros [<- | [<- | [<- | [<- | []]]]];
    (eexists; split; [reflexivity |]);
    cbn; repeat constructor; cbn; intuition discriminate.
Qed.

Lemma patterns_for_unknown k :
  ~ In k Translate.warehouses -> Translate.patterns_for k = None.
Proof.
  unfold Translate.warehouses, Translate.patterns_for, Translate.WAREHOUSE_PATTERNS.
  cbn [map fst find snd]. intros Hout.
  repeat match goal with
         | |- context [?a =? k] =>
             destruct (String.eqb_spec a k) as [E | _];
             [exfalso; apply Hout; rewrite <- E; cbn; tauto |]
         end.
  reflexivity.
Qed.

Lemma patterns_for_nodup k patterns :
  Translate.patterns_for k = Some patterns ->
  NoDup (map Translate.pattern_desc patterns).
Proof.
  intros Hsome.
  destruct (in_dec string_dec k Translate.warehouses) as [Hin | Hout].
  - destruct (patterns_for_known k Hin) as (ps & Hps & Hnd).
    rewrite Hsome in Hps. injection Hps as <-. exact Hnd.
  - rewrite (patterns_for_unknown k Hout) in Hsome. discriminate.
Qed.

(** The descriptions reported for a file are those of the rules that
    hit, so they are as distinct as the rules. *)
Lemma detect_nodup search patterns content :
  NoDup (map Translate.pattern_desc patterns) ->
  NoDup (Translate.detect search patterns content).
Proof.
  unfold Translate.detect. induction patterns as [| p patterns IH]; intros Hnd.
  - constructor.
  - cbn [map] in Hnd. inversion Hnd as [| ? ? Hnotin Hrest]. subst.
    cbn [filter]. destruct (search p content); [| exact (IH Hrest)].
    cbn [map]. constructor; [| exact (IH Hrest)].
    intros Hin. apply Hnotin. apply in_map_iff in Hin.
    destruct Hin as (q & Hq & Hin). apply filter_In in Hin.
    apply in_map_iff. exists q. tauto.
Qed.

Lemma list_set_nodup l : NoDup l -> Py.list_set l = l.
Proof.
  induction l as [| x l IH]; intros Hnd; [reflexivity |].
  inversion Hnd as [| ? ? Hnotin Hrest]. subst.
  cbn [Py.list_set]. rewrite (IH Hrest). f_equal.
  clear IH Hnd Hrest. induction l as [| y l IHl]; [reflexivity |].
  cbn [filter]. destruct (String.eqb_spec x y) as [-> | _].
  - exfalso. apply Hnotin. left. reflexivity.
  - cbn [negb]. f_equal. apply IHl. intros Hin. apply Hnotin. right. exact Hin.
Qed.

(** ** The dialect scan *)

Lemma scan_file_counted w dbt_path patterns entry candidates candidates' :
  NoDup (map Translate.pattern_desc patterns) ->
  Forall Spec.counted candidates ->
  result (Translate.scan_file dbt_path patterns entry candidates) w = Ok candidates' ->
  Forall Spec.counted candidates'.
Proof.
  intros Hnd Hall. unfold Translate.scan_file.
  rewrite result_bind, result_ask, result_bind.
  destruct (result (read_node _ _) w) as [content |]; [| discriminate].
  pose proof (detect_nodup (re_search w) patterns content Hnd) as Hdet.
  destruct (Translate.detect (re_search w) patterns content) as [| l ls] eqn:E.
  - rewrite result_ret. intros H. inversion H. subst. exact Hall.
  - destruct (Path.relative_to (fst entry) dbt_path); [| discriminate].
    rewrite result_ret. intros [= <-].
    apply Forall_app. split; [exact Hall |].
    constructor; [| constructor].
    change (List.length (l :: ls) = List.length (Py.list_set (l :: ls))
            /\ NoDup (Py.list_set (l :: ls))).
    rewrite (list_set_nodup _ Hdet). split; [reflexivity | exact Hdet].
Qed.


Lemma scan_entry_counted w dbt_path patterns entry candidates candidates' :
  NoDup (map Translate.pattern_desc patterns) ->
  Forall Spec.counted candidates ->
  result (Translate.scan_entry dbt_path patterns entry candidates) w = Ok candidates' ->
  Forall Spec.counted candidates'.
Proof.
  intros Hnd Hall. unfold Translate.scan_entry. rewrite result_try_except.
  destruct (result (Translate.scan_file _ _ _ _) w) as [cs | e] eqn:E.
  - intros H. inversion H. subst. exact (scan_file_counted _ _ _ _ _ _ Hnd Hall E).
  - rewrite result_bind, result_print, result_ret. intros H. inversion H. subst.
    exact Hall.
Qed.



Lemma scan_project_counted w location patterns found :
  NoDup (map Translate.pattern_desc patterns) ->
  result (Translate.scan_project location patterns) w = Ok found ->
  Forall Spec.counted found.
Proof.
  intros Hnd. unfold Translate.scan_project.
  apply for_each_invariant with (P := Forall Spec.counted); [| constructor].
  intros search_dir cs cs' _ Hall.
  rewrite result_bind, result_exists.
  destruct (resolve w _); cbn [negb].
  - rewrite result_bind, result_rglob_sql.
    apply for_each_invariant with (P := Forall Spec.counted); [| exact Hall].
    intros entry cs1 cs2 _ Hall1. apply scan_entry_counted; assumption.
  - destruct (stat_fault w _); [discriminate |].
    cbn [negb]. rewrite result_ret. intros H. inversion H. subst. exact Hall.
Qed.

Lemma insert_by_count_perm c l : Permutation (Translate.insert_by_count c l) (c :: l).
Proof.
  induction l as [| d l IH]; cbn [Translate.insert_by_count]; [reflexivity |].
  destruct (Translate.pattern_count d <=? Translate.pattern_count c)%nat; [reflexivity |].
  rewrite IH. apply perm_swap.
Qed.

Lemma sort_by_count_perm l : Permutation (Translate.sort_by_count l) l.
Proof.
  induction l as [| c l IH]; cbn; [reflexivity |].
  rewrite insert_by_count_perm. constructor. exact IH.
Qed.

Lemma scan_unfold w source_warehouse target_warehouse :
  result (Translate.dbt_identify_translation_candidates source_warehouse target_warehouse) w
  = match Translate.patterns_for (Py.lower source_warehouse) with
    | None => Ok (Translate.unknown_warehouse_result source_warehouse)
    | Some patterns =>
        match result (Translate.scan_project (env_or_cwd "DBT_PROJECT_LOCATION" w)
                                             patterns) w with
        | Ok found =>
            Ok (Translate.scan_result source_warehouse target_warehouse
                                      (Translate.sort_by_count found))
        | Raised e => Raised e
        end
    end.
Proof.
  unfold Translate.dbt_identify_translation_candidates, load_dotenv. run.
  assert (Hif : forall line,
             result (if Translate.truthy target_warehouse then print line else ret tt) w
             = Ok tt)
    by (intros line; destruct (Translate.truthy target_warehouse); reflexivity).
  rewrite Hif.
  destruct (Translate.patterns_for (Py.lower source_warehouse)); run; [| reflexivity].
  destruct (result (Translate.scan_project _ _) w); reflexivity.
Qed.

Lemma scan_rejected_log w source_warehouse target_warehouse :
  Translate.patterns_for (Py.lower source_warehouse) = None ->
  log (Translate.dbt_identify_translation_candidates source_warehouse target_warehouse) w
  = [ EvLoadDotenv;
      EvPrint ("Scanning dbt project for " ++ source_warehouse ++ " syntax: "
               ++ env_or_cwd "DBT_PROJECT_LOCATION" w) ]
    ++ (if Translate.truthy target_warehouse
        then [ EvPrint ("Planning translation to: "
                        ++ match target_warehouse with Some t => t | None => "" end) ]
        else []).
Proof.
  intros Hnone.
  unfold log, Translate.dbt_identify_translation_candidates, load_dotenv,
    getenv_or_cwd, print, bind, emit, ask, ret.
  rewrite Hnone. destruct (Translate.truthy target_warehouse); reflexivity.
Qed.

(** The scan of a known warehouse is the walk of the project with the
    rules of that warehouse. *)
Lemma scan_known w source_warehouse target_warehouse patterns :
  Translate.patterns_for (Py.lower source_warehouse) = Some patterns ->
  result (Translate.dbt_identify_translation_candidates source_warehouse target_warehouse) w
  = match result (Translate.scan_project (env_or_cwd "DBT_PROJECT_LOCATION" w)
                                         patterns) w with
    | Ok found =>
        Ok (Translate.scan_result source_warehouse target_warehouse
                                  (Translate.sort_by_count found))
    | Raised e => Raised e
    end.
Proof. intros Hsome. rewrite scan_unfold, Hsome. reflexivity. Qed.

Lemma scan_result_status source_warehouse target_warehouse candidates :
  dict_get "status" (Translate.scan_result source_warehouse target_warehouse candidates)
  = Some (VStr "success").
Proof. unfold Translate.scan_result. destruct candidates; reflexivity. Qed.

(** C7, as amended.  The tag is lower-cased before it is looked up.
    When its lower-cased form is none of [snowflake], [bigquery],
    [redshift], [postgres], the scan returns the error payload with an
    empty candidate list, and no file of the project has been looked at:
    the events up to that point are the call of [load_dotenv] and
    console lines.  When its lower-cased form is one of the four, the
    scan proceeds without that error: it walks the project with the
    rules of that warehouse, and whatever payload it returns has the
    status [success]. *)
Theorem unknown_warehouse_rejected w source_warehouse target_warehouse :
  (~ In (Py.lower source_warehouse) ["snowflake"; "bigquery"; "redshift"; "postgres"] ->
   result (Translate.dbt_identify_translation_candidates
             source_warehouse target_warehouse) w
   = Ok [ ("status", VStr "error");
          ("message",
           VStr ("Unknown source warehouse '" ++ source_warehouse
                 ++ "'. Supported: snowflake, bigquery, redshift, postgres"));
          ("candidates", VList []) ]
   /\ forallb (fun e => negb (touches_files e))
              (log (Translate.dbt_identify_translation_candidates
                      source_warehouse target_warehouse) w)
      = true)
  /\
  (In (Py.lower source_warehouse) ["snowflake"; "bigquery"; "redshift"; "postgres"] ->
   exists patterns,
     Translate.patterns_for (Py.lower source_warehouse) = Some patterns
     /\ result (Translate.dbt_identify_translation_candidates
                  source_warehouse target_warehouse) w
        = match result (Translate.scan_project (env_or_cwd "DBT_PROJECT_LOCATION" w)
                                               patterns) w with
          | Ok found =>
              Ok (Translate.scan_result source_warehouse target_warehouse
                                        (Translate.sort_by_count found))
          | Raised e => Raised e
          end
     /\ forall d,
         result (Translate.dbt_identify_translation_candidates
                   source_warehouse target_warehouse) w
         = Ok d ->
         dict_get "status" d = Some (VStr "success")).
Proof.
  split.
  - intros Hout. apply patterns_for_unknown in Hout. split.
    + rewrite scan_unfold, Hout. reflexivity.
    + rewrite (scan_rejected_log _ _ _ Hout).
      destruct (Translate.truthy target_warehouse); reflexivity.
  - intros Hin. apply patterns_for_known in Hin. destruct Hin as (patterns & Hsome & _).
    exists patterns. split; [exact Hsome |]. split; [exact (scan_known _ _ _ _ Hsome) |].
    intros d. rewrite (scan_known _ _ _ _ Hsome).
    destruct (result (Translate.scan_project _ _) w) as [found |]; [| discriminate].
    intros [= <-]. apply scan_result_status.
Qed.

Lemma unknown_warehouse_rejected_witness :
  result (Translate.dbt_identify_translation_candidates "Oracle" None) Demo.world
  = Ok [ ("status", VStr "error");
         ("message",
          VStr "Unknown source warehouse 'Oracle'. Supported: snowflake, bigquery, redshift, postgres");
         ("candidates", VList []) ]
  /\ forall d,
      result (Translate.dbt_identify_translation_candidates "Snowflake" (Some "bigquery"))
             Demo.world
      = Ok d ->
      dict_get "status" d = Some (VStr "success").
Proof.
  split.
  - apply (proj1 (unknown_warehouse_rejected Demo.world "Oracle" None)).
    cbn. intuition discriminate.
  - destruct (proj2 (unknown_warehouse_rejected Demo.world "Snowflake" (Some "bigquery")))
      as (patterns & _ & _ & Hstatus).
    + cbn. tauto.
    + exact Hstatus.
Defined.

(** C7, as stated, fails twice.  [SNOWFLAKE] is not one of the four
    tags of the fixed set, and the scan accepts it all the same and
    walks the project.  And a tag that is rejected is rejected after
    [load_dotenv()] has run, which looks for a [.env] file and reads
    it. *)
Lemma unknown_warehouse_counterexample :
  (~ In "SNOWFLAKE" ["snowflake"; "bigquery"; "redshift"; "postgres"]
   /\ (exists d,
          result (Translate.dbt_identify_translation_candidates "SNOWFLAKE" None) Demo.world
          = Ok d
          /\ dict_get "status" d = Some (VStr "success")
          /\ dict_get "total_files" d = Some (VInt 2))
   /\ existsb touches_files
              (log (Translate.dbt_identify_translation_candidates "SNOWFLAKE" None)
                   Demo.world)
      = true)
  /\
  (~ In (Py.lower "Oracle") ["snowflake"; "bigquery"; "redshift"; "postgres"]
   /\ log (Translate.dbt_identify_translation_candidates "Oracle" None) Demo.world
      = [ EvLoadDotenv;
          EvPrint "Scanning dbt project for Oracle syntax: /proj" ]).
Proof.
  split; split; [cbn; intuition discriminate | | cbn; intuition discriminate |].
  - split.
    + eexists. split; [vm_compute; reflexivity |]. split; reflexivity.
    + vm_compute. reflexivity.
  - vm_compute. reflexivity.
Qed.

(** C8.  In every payload of the dialect scan, each candidate reports
    a [pattern_count] equal to the number of its [detected_syntax]
    labels, and these labels are pairwise distinct: the count is the
    cardinality of the label set. *)
Theorem pattern_count_is_label_count w source_warehouse target_warehouse d items fields :
  result (Translate.dbt_identify_translation_candidates source_warehouse target_warehouse) w
  = Ok d ->
  dict_get "candidates" d = Some (VList items) ->
  In (VDict fields) items ->
  exists labels,
    dict_get "detected_syntax" fields = Some (VStrs labels)
    /\ NoDup labels
    /\ dict_get "pattern_count" fields = Some (VInt (Z.of_nat (List.length labels))).
Proof.
  rewrite scan_unfold.
  destruct (Translate.patterns_for (Py.lower source_warehouse)) as [patterns |] eqn:Hp.
  - destruct (result (Translate.scan_project _ _) w) as [found |] eqn:Hscan;
      [| discriminate].
    pose proof (patterns_for_nodup _ _ Hp) as Hnd.
    pose proof (scan_project_counted _ _ _ _ Hnd Hscan) as Hall.
    intros [= <-] Hget Hin.
    assert (Hitems : items = map Translate.candidate_value (Translate.sort_by_count found)).
    { unfold Translate.scan_result in Hget.
      destruct (Translate.sort_by_count found); cbn in Hget; injection Hget as <-;
        reflexivity. }
    subst items. apply in_map_iff in Hin. destruct Hin as (c & Hc & Hin).
    apply (Permutation_in _ (sort_by_count_perm found)) in Hin.
    rewrite Forall_forall in Hall. destruct (Hall c Hin) as [Hcount Hdistinct].
    unfold Translate.candidate_value in Hc. injection Hc as <-.
    exists (Translate.detected_syntax c). cbn. rewrite Hcount. auto.
  - intros [= <-] Hget Hin. cbn in Hget. injection Hget as <-. destruct Hin.
Qed.

Lemma pattern_count_is_label_count_witness :
  exists labels,
    dict_get "detected_syntax"
             [ ("file", VStr "models/staging/stg_users.sql");
               ("full_path", VStr "/proj/models/staging/stg_users.sql");
               ("detected_syntax", VStrs ["\bIFF\s*\("; "\bFLATTEN\s*\("]);
               ("pattern_count", VInt 2) ]
    = Some (VStrs labels)
    /\ NoDup labels
    /\ dict_get "pattern_count"
                [ ("file", VStr "models/staging/stg_users.sql");
                  ("full_path", VStr "/proj/models/staging/stg_users.sql");
                  ("detected_syntax", VStrs ["\bIFF\s*\("; "\bFLATTEN\s*\("]);
                  ("pattern_count", VInt 2) ]
       = Some (VInt (Z.of_nat (List.length labels))).
Proof.
  eapply (pattern_count_is_label_count Demo.world "snowflake" None).
  - vm_compute. reflexivity.
  - reflexivity.
  - right. left. reflexivity.
Defined.

(** ** The translation router *)

Lemma result_generate w prompt :
  result (generate prompt) w
  = match generate_content w prompt with
    | inl text => Ok text
    | inr why => Raised (Exn "Exception" why)
    end.
Proof. unfold generate. run. destruct (generate_content w prompt); reflexivity. Qed.

Lemma result_mkdir_parents w d :
  result (mkdir_parents d) w
  = match mkdir_fault w (Path.to_str d) with
    | Some e => Raised e
    | None => Ok tt
    end.
Proof. unfold mkdir_parents. run. destruct (mkdir_fault w _); reflexivity. Qed.

Lemma result_write_path w p text :
  result (write_path p text) w
  = match write_fault w (Path.to_str p) with
    | Some why => Raised (Exn "OSError" why)
    | None => Ok tt
    end.
Proof. unfold write_path. run. destruct (write_fault w _); reflexivity. Qed.

(** The second half of the router, outcome by outcome. *)
Lemma translate_resolved_unfold w location file_path actual source_file
      source_warehouse target_warehouse :
  result (Translate.translate_resolved location file_path actual source_file
                                       source_warehouse target_warehouse) w
  = match result (read_path source_file) w with
    | Raised e => Ok (Translate.read_error_result e)
    | Ok source_content =>
        match generate_content w (Translate.translation_prompt
                                    source_warehouse target_warehouse source_content) with
        | inr why => Ok (Translate.translation_error_result (Exn "Exception" why))
        | inl text =>
            let target := Spec.translated_file location target_warehouse actual in
            match mkdir_fault w (Path.to_str (Path.parent target)) with
            | Some e => Raised e
            | None =>
                match write_fault w (Path.to_str target) with
                | Some why => Ok (Translate.write_error_result text (Exn "OSError" why))
                | None =>
                    Ok (Translate.success_result file_path actual source_warehouse
                          target_warehouse text target source_file)
                end
            end
        end
    end.
Proof.
  unfold Translate.translate_resolved, Spec.translated_file.
  rewrite result_bind, result_try_except, result_bind.
  destruct (result (read_path source_file) w) as [source_content | e];
    [| reflexivity].
  rewrite result_ret, result_bind, result_try_except, result_bind, result_generate.
  destruct (generate_content w _) as [text | why]; [| reflexivity].
  rewrite result_ret, result_bind, result_mkdir_parents.
  destruct (mkdir_fault w _); [reflexivity |].
  rewrite result_bind, result_try_except, result_bind, result_write_path.
  destruct (write_fault w _); reflexivity.
Qed.

(** The first half of the router, outcome by outcome. *)
Lemma resolve_source_unfold w location file_path :
  result (Translate.resolve_source location file_path) w
  = match result (exists_ (Path.div (Path.of_str location) file_path)) w with
    | Ok true => Ok (inr (file_path, Path.div (Path.of_str location) file_path))
    | Ok false =>
        match result (Translate._search_for_files location file_path
                                                  Translate.default_extensions) w with
        | Ok [] => Ok (inl (Translate.not_found_result file_path))
        | Ok [only] => Ok (inr (only, Path.div (Path.of_str location) only))
        | Ok suggestions => Ok (inl (Translate.clarification_result file_path suggestions))
        | Raised e => Raised e
        end
    | Raised e => Raised e
    end.
Proof.
  unfold Translate.resolve_source. rewrite result_bind.
  destruct (result (exists_ _) w) as [[|] |]; cbn [negb].
  - run. reflexivity.
  - rewrite result_bind, result_print, result_bind, result_print, result_bind.
    destruct (result (Translate._search_for_files _ _ _) w) as [[| only [| more rest]] |];
      run; reflexivity.
  - reflexivity.
Qed.

(** The same by what the disk and [os.stat] say of the path. *)
Lemma resolve_source_paths w location file_path :
  result (Translate.resolve_source location file_path) w
  = match resolve w (Path.div (Path.of_str location) file_path) with
    | Some _ => Ok (inr (file_path, Path.div (Path.of_str location) file_path))
    | None =>
        match stat_fault w (Path.to_str (Path.div (Path.of_str location) file_path)) with
        | Some e => Raised e
        | None =>
            match result (Translate._search_for_files location file_path
                                                      Translate.default_extensions) w with
            | Ok [] => Ok (inl (Translate.not_found_result file_path))
            | Ok [only] => Ok (inr (only, Path.div (Path.of_str location) only))
            | Ok suggestions =>
                Ok (inl (Translate.clarification_result file_path suggestions))
            | Raised e => Raised e
            end
        end
    end.
Proof.
  rewrite resolve_source_unfold, result_exists.
  destruct (resolve w _); [reflexivity |].
  destruct (stat_fault w _); reflexivity.
Qed.


Lemma dbt_translate_unfold w file_path source_warehouse target_warehouse :
  result (Translate.dbt_translate file_path source_warehouse target_warehouse) w
  = match result (Translate.resolve_source (env_or_cwd "DBT_PROJECT_LOCATION" w)
                                           file_path) w with
    | Ok (inl early) => Ok early
    | Ok (inr (actual, source_file)) =>
        result (Translate.translate_resolved (env_or_cwd "DBT_PROJECT_LOCATION" w)
                  file_path actual source_file source_warehouse target_warehouse) w
    | Raised e => Raised e
    end.
Proof.
  unfold Translate.dbt_translate, load_dotenv. run.
  destruct (result (Translate.resolve_source _ _) w) as [[early | [actual source_file]] |];
    run; reflexivity.
Qed.

(** Every payload of the second half is a success or an error. *)
Lemma translate_resolved_status w location file_path actual source_file
      source_warehouse target_warehouse d :
  result (Translate.translate_resolved location file_path actual source_file
                                       source_warehouse target_warehouse) w
  = Ok d ->
  exists s m,
    dict_get "status" d = Some (VStr s) /\ (s = "success" \/ s = "error")
    /\ dict_get "message" d = Some (VStr m).
Proof.
  rewrite translate_resolved_unfold.
  destruct (result (read_path source_file) w) as [source_content | e].
  - destruct (generate_content w _) as [text | why].
    + cbv zeta. destruct (mkdir_fault w _); [discriminate |].
      destruct (write_fault w _); intros [= <-]; do 2 eexists; cbn; eauto.
    + intros [= <-]. do 2 eexists. cbn. eauto.
  - intros [= <-]. do 2 eexists. cbn. eauto.
Qed.




(** On the worked project: one match is taken silently, three are
    handed back, none is an error. *)
Example routing_ex :
  dict_get "saved_path"
    match result (Translate.dbt_translate "cents_to_dollars" "snowflake" "bigquery")
                 Demo.world with
    | Ok d => d
    | Raised _ => []
    end
  = Some (VStr "/proj/translated/bigquery/macros/cents_to_dollars.sql")
  /\ result (Translate.dbt_translate "users" "snowflake" "bigquery") Demo.world
     = Ok (Translate.clarification_result "users"
             ["models/dim_users.sql"; "models/staging/stg_users.sql";
              "models/users_snapshot.sql"])
  /\ result (Translate.dbt_translate "nothing" "snowflake" "bigquery") Demo.world
     = Ok (Translate.not_found_result "nothing").
Proof. repeat split; vm_compute; reflexivity. Qed.



(** ** The payloads *)

Lemma dbt_compile_payload w compile d :
  result (Compile.dbt_compile compile) w = Ok d ->
  exists code logs, d = [ ("returncode", VInt code); ("logs", VList logs) ].
Proof.
  unfold Compile.dbt_compile, load_dotenv, getenv. run.
  unfold subprocess_run.
  destruct (lookup_env "DBT_EXECUTABLE" w) as [exe |]; [| discriminate].
  run. destruct (run_process w _ _) as [proc | e]; run; [| discriminate].
  destruct (result (Compile.collect_logs proc) w) as [logs |]; [| discriminate].
  run. intros [= <-]. eauto.
Qed.

(** C1, as amended.  Every payload returned by the translation and by
    the dialect scan has a [status] among [success], [error],
    [clarification_needed] and a [message].  The compile wrapper returns
    the keys [returncode] and [logs], and the schema classification the
    keys [analysis] and [likely_modeling_pattern]: neither carries a
    [status] or a [message]. *)
Theorem payload_shapes :
  (forall w file_path source_warehouse target_warehouse d,
      result (Translate.dbt_translate file_path source_warehouse target_warehouse) w = Ok d ->
      Spec.structured d)
  /\
  (forall w source_warehouse target_warehouse d,
      result (Translate.dbt_identify_translation_candidates
                source_warehouse target_warehouse) w
      = Ok d ->
      Spec.structured d)
  /\
  (forall w compile d,
      result (Compile.dbt_compile compile) w = Ok d ->
      dict_keys d = ["returncode"; "logs"])
  /\
  (forall w project_dir d,
      result (Analyzer.analyze_dbt_schema project_dir) w = Ok d ->
      dict_keys d = ["analysis"; "likely_modeling_pattern"]).
Proof.
  assert (Hdone : forall w location file_path actual source_file sw tw d,
             result (Translate.translate_resolved location file_path actual source_file
                                                  sw tw) w = Ok d ->
             Spec.structured d).
  { intros w location file_path actual source_file sw tw d Hd.
    destruct (translate_resolved_status _ _ _ _ _ _ _ _ Hd) as (s & m & Hs & Hcase & Hm).
    exists s, m. repeat split; [exact Hs | | exact Hm].
    unfold Spec.statuses. destruct Hcase as [-> | ->]; cbn; tauto. }
  split; [| split; [| split]].
  - intros w file_path sw tw d.
    rewrite dbt_translate_unfold, resolve_source_unfold.
    destruct (result (exists_ _) w) as [[|] |]; [| | discriminate].
    + apply Hdone.
    + destruct (result (Translate._search_for_files _ _ _) w)
        as [[| only [| more rest]] |]; try discriminate.
      * intros [= <-]. do 2 eexists. cbn. intuition eauto.
      * apply Hdone.
      * intros [= <-]. do 2 eexists. cbn. intuition eauto.
  - intros w sw tw d. rewrite scan_unfold.
    destruct (Translate.patterns_for (Py.lower sw)) as [patterns |].
    + destruct (result (Translate.scan_project _ _) w) as [found |]; [| discriminate].
      intros [= <-]. unfold Translate.scan_result.
      destruct (Translate.sort_by_count found); do 2 eexists; cbn; intuition eauto.
    + intros [= <-]. do 2 eexists. cbn. intuition eauto.
  - intros w compile d Hd.
    destruct (dbt_compile_payload _ _ _ Hd) as (code & logs & ->). reflexivity.
  - intros w project_dir d Hd.
    destruct (analyze_payload _ _ _ Hd) as (a & b & c & ->). reflexivity.
Qed.

Lemma payload_shapes_witness :
  Spec.structured
    [ ("status", VStr "error");
      ("message", VStr "Error writing translated file: [Errno 30] Read-only file system");
      ("translated_content", VStr "select 1");
      ("saved_path", VNone) ]
  /\ Spec.structured
       [ ("status", VStr "error");
         ("message",
          VStr "Unknown source warehouse 'Oracle'. Supported: snowflake, bigquery, redshift, postgres");
         ("candidates", VList []) ]
  /\ dict_keys [ ("returncode", VInt 0);
                 ("logs", VList [VDict []]) ]
     = ["returncode"; "logs"]
  /\ dict_keys [ ("analysis",
                  VDict [ ("star_schema", VInt 3); ("snowflake_schema", VInt 0);
                          ("data_vault", VInt 0) ]);
                 ("likely_modeling_pattern", VStr "star_schema") ]
     = ["analysis"; "likely_modeling_pattern"].
Proof.
  destruct payload_shapes as (Htranslate & Hscan & Hcompile & Hanalyze).
  split; [| split; [| split]].
  - apply (Htranslate Demo.read_only "models/dim_users.sql" "snowflake" "bigquery").
    vm_compute. reflexivity.
  - apply (Hscan Demo.world "Oracle" None). vm_compute. reflexivity.
  - apply (Hcompile Demo.world ""). vm_compute. reflexivity.
  - apply (Hanalyze Demo.world None). vm_compute. reflexivity.
Defined.

(** C1, as stated, fails.  The payloads of the compile wrapper and of
    the schema classification have neither a [status] nor a [message].
    And not every outcome is a payload: the translation ends in an
    exception when the output directory cannot be made, and the dialect
    scan when a directory of the project cannot be checked. *)
Lemma payload_counterexample :
  (exists d,
      result (Compile.dbt_compile "") Demo.world = Ok d
      /\ dict_get "status" d = None /\ dict_get "message" d = None)
  /\
  (exists d,
      result (Analyzer.analyze_dbt_schema None) Demo.world = Ok d
      /\ dict_get "status" d = None /\ dict_get "message" d = None)
  /\
  result (Translate.dbt_translate "models/dim_users.sql" "snowflake" "bigquery")
         Cases.no_mkdir
  = Raised (Exn "PermissionError" "[Errno 13] Permission denied")
  /\
  result (Translate.dbt_identify_translation_candidates "snowflake" None)
         Cases.locked_project
  = Raised (Exn "PermissionError" "[Errno 13] Permission denied: '/srv/locked/models'").
Proof.
  split; [| split; [| split]].
  - eexists. split; [vm_compute; reflexivity |]. split; reflexivity.
  - eexists. split; [vm_compute; reflexivity |]. split; reflexivity.
  - vm_compute. reflexivity.
  - vm_compute. reflexivity.
Qed.

(* ================================================================== *)
(** * Further properties of the tools *)
(* ================================================================== *)

(** ** The dialect scan, file by file *)

Lemma scan_entry_collects w dbt_path patterns entry candidates :
  result (Translate.scan_entry dbt_path patterns entry candidates) w
  = Ok (candidates ++ Obs.scanned (re_search w) dbt_path patterns entry).
Proof.
  destruct entry as [p [name [content | why] | name ch]];
    unfold Translate.scan_entry, Translate.scan_file, Obs.scanned;
    rewrite result_try_except, result_bind, result_ask, result_bind; cbn [fst snd].
  - change (result (read_node (Path.to_str p) (File name (Text content))) w)
      with (@Ok string content).
    cbn beta iota.
    destruct (Translate.detect (re_search w) patterns content) as [| l ls].
    + rewrite result_ret, app_nil_r. reflexivity.
    + destruct (Path.relative_to p dbt_path).
      * rewrite result_ret. reflexivity.
      * cbn. rewrite app_nil_r. reflexivity.
  - cbn. rewrite app_nil_r. reflexivity.
  - cbn. rewrite app_nil_r. reflexivity.
Qed.

(** Whenever the scan of the project returns, it has collected what
    [Obs.scanned] records of every entry. *)
Lemma scan_project_exact w location patterns found :
  result (Translate.scan_project location patterns) w = Ok found ->
  found = Obs.scan_expected w (Path.of_str location) patterns.
Proof.
  unfold Translate.scan_project, Obs.scan_expected.
  change (flat_map ?f Translate.search_dirs) with ([] ++ flat_map f Translate.search_dirs).
  apply (for_each_collect_if
           (fun search_dir =>
              flat_map (Obs.scanned (re_search w) (Path.of_str location) patterns)
                       (glob w (Path.div (Path.of_str location) search_dir) ".sql"))).
  intros search_dir candidates candidates' _. rewrite result_bind, result_exists.
  destruct (resolve w _) eqn:Hres; cbn [negb].
  - rewrite result_bind, result_rglob_sql.
    rewrite (for_each_collect (Obs.scanned (re_search w) (Path.of_str location) patterns)).
    + intros [= <-]. reflexivity.
    + intros entry cs _. apply scan_entry_collects.
  - destruct (stat_fault w _); [discriminate |].
    cbn [negb]. rewrite result_ret, (glob_missing _ _ _ Hres), app_nil_r.
    intros [= <-]. reflexivity.
Qed.


(** Every payload of the scan of a known warehouse lists what
    [Obs.scanned] records, sorted. *)
Lemma scan_payload w source_warehouse target_warehouse patterns d :
  Translate.patterns_for (Py.lower source_warehouse) = Some patterns ->
  result (Translate.dbt_identify_translation_candidates source_warehouse target_warehouse) w
  = Ok d ->
  d = Translate.scan_result source_warehouse target_warehouse
        (Translate.sort_by_count
           (Obs.scan_expected w (Path.of_str (env_or_cwd "DBT_PROJECT_LOCATION" w))
                              patterns)).
Proof.
  intros Hp. rewrite (scan_known _ _ _ _ Hp).
  destruct (result (Translate.scan_project _ _) w) as [found |] eqn:Hrun; [| discriminate].
  intros [= <-]. rewrite (scan_project_exact _ _ _ _ Hrun). reflexivity.
Qed.



(** ** The order of the candidates *)

Lemma insert_by_count_hd d c l :
  HdRel Obs.count_order d l ->
  Obs.count_order d c ->
  HdRel Obs.count_order d (Translate.insert_by_count c l).
Proof.
  intros Hl Hc. destruct l as [| e l]; cbn [Translate.insert_by_count].
  - constructor. exact Hc.
  - destruct (Translate.pattern_count e <=? Translate.pattern_count c)%nat.
    + constructor. exact Hc.
    + inversion Hl. constructor. assumption.
Qed.

Lemma insert_by_count_sorted c l :
  Sorted Obs.count_order l -> Sorted Obs.count_order (Translate.insert_by_count c l).
Proof.
  induction l as [| d l IH]; intros Hs; cbn [Translate.insert_by_count].
  - repeat constructor.
  - destruct (Nat.leb_spec (Translate.pattern_count d) (Translate.pattern_count c)).
    + constructor; [exact Hs |]. constructor. exact H.
    + inversion Hs as [| ? ? Hrest Hhd]. subst. constructor; [exact (IH Hrest) |].
      apply insert_by_count_hd; [exact Hhd |]. unfold Obs.count_order. lia.
Qed.

Lemma sort_by_count_sorted l : StronglySorted Obs.count_order (Translate.sort_by_count l).
Proof.
  apply Sorted_StronglySorted.
  - intros a b c Hab Hbc. unfold Obs.count_order in *. lia.
  - induction l as [| c l IH]; cbn; [constructor |].
    apply insert_by_count_sorted. exact IH.
Qed.



(** The payload of a scan lists the candidates of [found], sorted. *)
Lemma scan_result_candidates source_warehouse target_warehouse cs :
  dict_get "candidates" (Translate.scan_result source_warehouse target_warehouse cs)
  = Some (VList (map Translate.candidate_value cs)).
Proof. destruct cs; reflexivity. Qed.

(** X2.  Whatever the dialect scan returns, its candidates come in
    order of [pattern_count], largest first: no candidate is followed,
    anywhere later in the list, by one with a larger count. *)
Theorem scan_candidates_sorted w source_warehouse target_warehouse d :
  result (Translate.dbt_identify_translation_candidates
            source_warehouse target_warehouse) w
  = Ok d ->
  exists cs,
    dict_get "candidates" d = Some (VList (map Translate.candidate_value cs))
    /\ StronglySorted
         (fun a b => Translate.pattern_count b <= Translate.pattern_count a) cs.
Proof.
  destruct (Translate.patterns_for (Py.lower source_warehouse)) as [patterns |] eqn:Hp.
  - intros Hrun. rewrite (scan_payload _ _ _ _ _ Hp Hrun).
    eexists. split; [apply scan_result_candidates | apply sort_by_count_sorted].
  - rewrite scan_unfold, Hp. intros [= <-]. exists []. split; [reflexivity | constructor].
Qed.

Lemma scan_candidates_sorted_witness :
  exists cs,
    dict_get "candidates"
             (Translate.scan_result "snowflake" None
                (Translate.sort_by_count
                   (Obs.scan_expected Demo.world (Path.of_str "/proj")
                      [ "\bIFF\s*\("; "\bFLATTEN\s*\("; "\bLATERAL\s+FLATTEN";
                        "\bVARIANT\b"; "\bQUALIFY\b"; "\$\d+"; "::\s*VARIANT";
                        "ARRAY_AGG\s*\([^)]*\)\s+WITHIN\s+GROUP" ])))
    = Some (VList (map Translate.candidate_value cs))
    /\ StronglySorted
         (fun a b => Translate.pattern_count b <= Translate.pattern_count a) cs.
Proof.
  apply (scan_candidates_sorted Demo.world "snowflake" None).
  vm_compute. reflexivity.
Defined.



(** ** The labels of a candidate *)

Lemma patterns_for_listed k patterns :
  Translate.patterns_for k = Some patterns ->
  In (k, patterns) Translate.WAREHOUSE_PATTERNS.
Proof.
  unfold Translate.patterns_for. intros H.
  destruct (find _ Translate.WAREHOUSE_PATTERNS) as [[k' ps] |] eqn:Hfind;
    [| discriminate].
  cbn in H. injection H as <-. apply find_some in Hfind.
  destruct Hfind as [Hin Hk]. apply String.eqb_eq in Hk. cbn in Hk. subst k'.
  exact Hin.
Qed.

(** No rule of the catalogue holds a [#]: the remarks of the source are
    comments of the program, so each rule is reported as it is written. *)
Lemma catalogue_descriptions k patterns :
  Translate.patterns_for k = Some patterns ->
  map Translate.pattern_desc patterns = patterns /\ List.length patterns <= 8.
Proof.
  intros H. apply patterns_for_listed in H.
  unfold Translate.WAREHOUSE_PATTERNS in H. cbn [In] in H.
  destruct H as [H | [H | [H | [H | []]]]]; injection H as _ <-;
    (split; [reflexivity | cbn; lia]).
Qed.

Lemma detect_is_filter search patterns content :
  map Translate.pattern_desc patterns = patterns ->
  Translate.detect search patterns content
  = filter (fun pattern => search pattern content) patterns.
Proof.
  unfold Translate.detect. revert search content.
  induction patterns as [| p patterns IH]; intros search content Hid; [reflexivity |].
  cbn [map] in Hid. injection Hid as Hp Hrest.
  cbn [filter]. destruct (search p content); cbn [map]; rewrite IH by exact Hrest;
    [rewrite Hp |]; reflexivity.
Qed.

(** What every candidate of a scan with the rules [patterns] satisfies. *)
Lemma scanned_labels search dbt_path patterns entry c :
  map Translate.pattern_desc patterns = patterns ->
  NoDup (map Translate.pattern_desc patterns) ->
  In c (Obs.scanned search dbt_path patterns entry) ->
  incl (Translate.detected_syntax c) patterns
  /\ 1 <= List.length (Translate.detected_syntax c) <= List.length patterns
  /\ Translate.pattern_count c = List.length (Translate.detected_syntax c).
Proof.
  intros Hid Hnd. unfold Obs.scanned.
  destruct (snd entry) as [name [content | why] | name ch]; try contradiction.
  pose proof (detect_nodup search patterns content Hnd) as Hdistinct.
  pose proof (detect_is_filter search patterns content Hid) as Hfilter.
  destruct (Translate.detect search patterns content) as [| l ls] eqn:Hdet;
    [contradiction |].
  destruct (Path.relative_to (fst entry) dbt_path); [| contradiction].
  intros [<- | []]. cbn [Translate.detected_syntax Translate.pattern_count].
  rewrite (list_set_nodup _ Hdistinct), Hfilter.
  split; [apply incl_filter |]. split; [| reflexivity].
  split; [rewrite <- Hfilter; cbn; lia | apply filter_length_le].
Qed.

(** X4.  Every candidate in a payload of the dialect scan reports
    between one and eight labels, each of them one of the regular
    expressions of the warehouse, written as in the catalogue, and a
    [pattern_count] within the same bounds. *)
Theorem scan_labels_are_rules w source_warehouse target_warehouse d items fields :
  result (Translate.dbt_identify_translation_candidates
            source_warehouse target_warehouse) w
  = Ok d ->
  dict_get "candidates" d = Some (VList items) ->
  In (VDict fields) items ->
  exists patterns labels n,
    Translate.patterns_for (Py.lower source_warehouse) = Some patterns
    /\ dict_get "detected_syntax" fields = Some (VStrs labels)
    /\ (forall label, In label labels -> In label patterns)
    /\ dict_get "pattern_count" fields = Some (VInt (Z.of_nat n))
    /\ 1 <= List.length labels <= 8
    /\ 1 <= n <= 8.
Proof.
  destruct (Translate.patterns_for (Py.lower source_warehouse)) as [patterns |] eqn:Hp;
    [| rewrite scan_unfold, Hp].
  - intros Hrun Hget Hin. rewrite (scan_payload _ _ _ _ _ Hp Hrun) in Hget.
    rewrite scan_result_candidates in Hget. injection Hget as <-.
    apply in_map_iff in Hin. destruct Hin as (c & Hc & Hin).
    apply (Permutation_in _ (sort_by_count_perm _)) in Hin.
    unfold Obs.scan_expected in Hin. apply in_flat_map in Hin.
    destruct Hin as (search_dir & _ & Hin). apply in_flat_map in Hin.
    destruct Hin as (entry & _ & Hin).
    destruct (catalogue_descriptions _ _ Hp) as [Hid Hlen].
    destruct (scanned_labels _ _ _ _ _ Hid (patterns_for_nodup _ _ Hp) Hin)
      as (Hincl & Hbounds & Hcount).
    unfold Translate.candidate_value in Hc. injection Hc as <-.
    exists patterns, (Translate.detected_syntax c), (Translate.pattern_count c).
    cbn. repeat split; try reflexivity; try (exact Hincl); lia.
  - intros [= <-] Hget Hin. cbn in Hget. injection Hget as <-. destruct Hin.
Qed.

Lemma scan_labels_are_rules_witness :
  exists patterns labels n,
    Translate.patterns_for (Py.lower "Snowflake") = Some patterns
    /\ dict_get "detected_syntax"
                [ ("file", VStr "models/staging/stg_users.sql");
                  ("full_path", VStr "/proj/models/staging/stg_users.sql");
                  ("detected_syntax", VStrs ["\bIFF\s*\("; "\bFLATTEN\s*\("]);
                  ("pattern_count", VInt 2) ]
       = Some (VStrs labels)
    /\ (forall label, In label labels -> In label patterns)
    /\ dict_get "pattern_count"
                [ ("file", VStr "models/staging/stg_users.sql");
                  ("full_path", VStr "/proj/models/staging/stg_users.sql");
                  ("detected_syntax", VStrs ["\bIFF\s*\("; "\bFLATTEN\s*\("]);
                  ("pattern_count", VInt 2) ]
       = Some (VInt (Z.of_nat n))
    /\ 1 <= List.length labels <= 8
    /\ 1 <= n <= 8.
Proof.
  eapply (scan_labels_are_rules Demo.world "Snowflake" None).
  - vm_compute. reflexivity.
  - reflexivity.
  - right. left. reflexivity.
Defined.

(** X5.  The payload of the dialect scan carries [total_files] exactly
    when it lists at least one candidate, and [total_files] is then the
    number of candidates listed; the error payload and the payload of a
    clean project have no such key. *)
Theorem scan_total_files w source_warehouse target_warehouse d :
  result (Translate.dbt_identify_translation_candidates
            source_warehouse target_warehouse) w
  = Ok d ->
  exists items,
    dict_get "candidates" d = Some (VList items)
    /\ match items with
       | [] => dict_get "total_files" d = None
       | _ => dict_get "total_files" d = Some (VInt (Z.of_nat (List.length items)))
       end.
Proof.
  destruct (Translate.patterns_for (Py.lower source_warehouse)) as [patterns |] eqn:Hp;
    [| rewrite scan_unfold, Hp].
  - intros Hrun. rewrite (scan_payload _ _ _ _ _ Hp Hrun).
    destruct (Translate.sort_by_count _) as [| c cs].
    + exists []. split; reflexivity.
    + eexists. split; [reflexivity |]. cbn [map]. cbn [Translate.scan_result dict_get].
      cbn. rewrite length_map. reflexivity.
  - intros [= <-]. exists []. split; reflexivity.
Qed.

Lemma scan_total_files_witness :
  exists items,
    dict_get "candidates"
      match result (Translate.dbt_identify_translation_candidates "snowflake" None)
                   Demo.world with
      | Ok d => d
      | Raised _ => []
      end
    = Some (VList items)
    /\ List.length items = 2.
Proof.
  destruct (scan_total_files Demo.world "snowflake" None _ eq_refl) as (items & Hget & _).
  exists items. split; [exact Hget |].
  vm_compute in Hget. injection Hget as <-. reflexivity.
Defined.

(** ** What the tools leave alone *)

Section Logs.

Variable allowed : event -> bool.

Lemma allowed_bind {A B} (m : M A) (k : A -> M B) w :
  forallb allowed (log m w) = true ->
  (forall a, result m w = Ok a -> forallb allowed (log (k a) w) = true) ->
  forallb allowed (log (bind m k) w) = true.
Proof.
  intros Hm Hk. rewrite log_bind.
  destruct (result m w) as [a |] eqn:E; [| exact Hm].
  rewrite forallb_app, Hm, (Hk a eq_refl). reflexivity.
Qed.

Lemma allowed_try_except {A} (m : M A) (h : exn -> M A) w :
  forallb allowed (log m w) = true ->
  (forall e, result m w = Raised e -> forallb allowed (log (h e) w) = true) ->
  forallb allowed (log (try_except m h) w) = true.
Proof.
  intros Hm Hh. rewrite log_try_except.
  destruct (result m w) as [a | e] eqn:E; [exact Hm |].
  rewrite forallb_app, Hm, (Hh e eq_refl). reflexivity.
Qed.

Lemma allowed_for_each {A S} (body : A -> S -> M S) w xs :
  (forall x s, In x xs -> forallb allowed (log (body x s) w) = true) ->
  forall s, forallb allowed (log (for_each xs body s) w) = true.
Proof.
  induction xs as [| x xs IH]; intros Hbody s; [reflexivity |].
  cbn [for_each]. apply allowed_bind.
  - apply Hbody. left. reflexivity.
  - intros s' _. apply IH. intros y t Hy. apply Hbody. right. exact Hy.
Qed.

End Logs.

(** The events of a primitive call. *)
Ltac log_prim :=
  first [ reflexivity
        | rewrite log_exists; reflexivity
        | rewrite log_rglob; reflexivity ].

Lemma search_under_looks_at_names w dbt_path search_term extensions :
  forallb Obs.looks_at_names
          (log (Translate.search_under dbt_path search_term extensions) w)
  = true.
Proof.
  unfold Translate.search_under. apply allowed_for_each. intros search_dir matches _.
  apply allowed_bind; [log_prim |]. intros present _.
  destruct (negb present); [reflexivity |].
  apply allowed_for_each. intros ext matches' _.
  apply allowed_bind; [log_prim |]. intros found _.
  apply allowed_for_each. intros entry matches'' _.
  unfold Translate.visit_file.
  destruct (Path.relative_to (fst entry) dbt_path); reflexivity.
Qed.

(** X6.  The file search looks at names only: besides loading the
    environment it checks that directories exist and lists them, and it
    never opens a file, writes, calls the model or starts a process. *)
Theorem search_never_opens_a_file w dbt_root search_term extensions :
  forallb (fun e => match e with
                    | EvLoadDotenv | EvExists _ | EvRglob _ _ => true
                    | _ => false
                    end)
          (log (Translate._search_for_files dbt_root search_term extensions) w)
  = true.
Proof.
  unfold Translate._search_for_files, load_dotenv.
  apply allowed_bind; [reflexivity |]. intros _ _.
  apply allowed_bind; [reflexivity |]. intros location _.
  apply allowed_bind; [| reflexivity].
  unfold Translate.search_under. apply allowed_for_each. intros search_dir matches _.
  apply allowed_bind; [log_prim |]. intros present _.
  destruct (negb present); [reflexivity |].
  apply allowed_for_each. intros ext matches' _.
  apply allowed_bind; [log_prim |]. intros found _.
  apply allowed_for_each. intros entry matches'' _.
  unfold Translate.visit_file.
  destruct (Path.relative_to (fst entry) _); reflexivity.
Qed.

Lemma search_looks_at_names w dbt_root search_term extensions :
  forallb Obs.looks_at_names
          (log (Translate._search_for_files dbt_root search_term extensions) w)
  = true.
Proof.
  unfold Translate._search_for_files, load_dotenv.
  apply allowed_bind; [reflexivity |]. intros _ _.
  apply allowed_bind; [reflexivity |]. intros location _.
  apply allowed_bind; [apply search_under_looks_at_names | reflexivity].
Qed.

Lemma scan_entry_read_only w dbt_path patterns entry candidates :
  forallb Obs.read_only (log (Translate.scan_entry dbt_path patterns entry candidates) w)
  = true.
Proof.
  destruct entry as [p [name [content | why] | name ch]]; try reflexivity.
  unfold Translate.scan_entry. apply allowed_try_except; [| reflexivity].
  unfold Translate.scan_file.
  apply allowed_bind; [reflexivity |]. intros w' _.
  apply allowed_bind; [reflexivity |]. intros text _. cbn [fst].
  destruct (Translate.detect _ _ _); [reflexivity |].
  destruct (Path.relative_to p dbt_path); reflexivity.
Qed.

(** X7.  The dialect scan leaves the project as it is: whatever the
    warehouse tag, it loads the environment, prints, checks that
    directories exist, lists them and reads files, and it never writes,
    creates a directory, calls the model or starts a process. *)
Theorem scan_is_read_only w source_warehouse target_warehouse :
  forallb (fun e => match e with
                    | EvLoadDotenv | EvPrint _ | EvExists _ | EvRglob _ _ | EvRead _ => true
                    | _ => false
                    end)
          (log (Translate.dbt_identify_translation_candidates
                  source_warehouse target_warehouse) w)
  = true.
Proof.
  unfold Translate.dbt_identify_translation_candidates, load_dotenv.
  apply allowed_bind; [reflexivity |]. intros _ _.
  apply allowed_bind; [reflexivity |]. intros location _.
  apply allowed_bind; [reflexivity |]. intros _ _.
  apply allowed_bind; [destruct (Translate.truthy target_warehouse); reflexivity |].
  intros _ _.
  destruct (Translate.patterns_for (Py.lower source_warehouse)) as [patterns |];
    [| reflexivity].
  apply allowed_bind; [| reflexivity].
  unfold Translate.scan_project. apply allowed_for_each. intros search_dir cs _.
  apply allowed_bind; [log_prim |]. intros present _.
  destruct (negb present); [reflexivity |].
  apply allowed_bind; [log_prim |]. intros found _.
  apply allowed_for_each. intros entry cs' _.
  destruct entry as [p [name [content | why] | name ch]]; try reflexivity.
  unfold Translate.scan_entry. apply allowed_try_except; [| reflexivity].
  unfold Translate.scan_file.
  apply allowed_bind; [reflexivity |]. intros w' _.
  apply allowed_bind; [reflexivity |]. intros text _. cbn [fst].
  destruct (Translate.detect _ _ _); [reflexivity |].
  destruct (Path.relative_to p _); reflexivity.
Qed.

(** ** The translation router, step by step *)

Lemma allowed_excludes allowed (l : list event) e :
  forallb allowed l = true -> allowed e = false -> ~ In e l.
Proof.
  intros Hall He Hin. rewrite forallb_forall in Hall.
  rewrite (Hall e Hin) in He. discriminate.
Qed.

Lemma resolve_source_looks_at_names w location file_path :
  forallb Obs.looks_at_names (log (Translate.resolve_source location file_path) w) = true.
Proof.
  unfold Translate.resolve_source.
  apply allowed_bind; [log_prim |]. intros present _.
  destruct (negb present); [| reflexivity].
  apply allowed_bind; [reflexivity |]. intros _ _.
  apply allowed_bind; [reflexivity |]. intros _ _.
  apply allowed_bind; [apply search_looks_at_names |]. intros suggestions _.
  destruct suggestions as [| only [| more rest]]; reflexivity.
Qed.

(** The events of the second half of the router. *)
Lemma translate_resolved_log w location file_path actual source_file
      source_warehouse target_warehouse :
  log (Translate.translate_resolved location file_path actual source_file
                                    source_warehouse target_warehouse) w
  = EvRead (Path.to_str source_file)
    :: match result (read_path source_file) w with
       | Raised _ => []
       | Ok source_content =>
           let prompt := Translate.translation_prompt source_warehouse target_warehouse
                                                      source_content in
           EvGenerate prompt
           :: match generate_content w prompt with
              | inr _ => []
              | inl text =>
                  let target := Spec.translated_file location target_warehouse actual in
                  EvMkdir (Path.to_str (Path.parent target))
                  :: match mkdir_fault w (Path.to_str (Path.parent target)) with
                     | Some _ => []
                     | None => [EvWrite (Path.to_str target) text]
                     end
              end
       end.
Proof.
  unfold log, result, Translate.translate_resolved, Spec.translated_file, try_except,
    read_path, read_node, generate, mkdir_parents, write_path.
  unfold bind, ask, emit, ret, raise. cbv beta.
  destruct (resolve w source_file) as [[name [content | why] | name ch] |];
    try reflexivity.
  cbn -[Translate.translation_prompt Path.to_str Path.div Path.parent Path.of_str].
  destruct (generate_content w _) as [text | why]; [| reflexivity].
  cbn -[Translate.translation_prompt Path.to_str Path.div Path.parent Path.of_str].
  destruct (mkdir_fault w _); [reflexivity |].
  cbn -[Translate.translation_prompt Path.to_str Path.div Path.parent Path.of_str].
  destruct (write_fault w _); reflexivity.
Qed.

Lemma dbt_translate_log w file_path source_warehouse target_warehouse :
  let location := env_or_cwd "DBT_PROJECT_LOCATION" w in
  log (Translate.dbt_translate file_path source_warehouse target_warehouse) w
  = [ EvLoadDotenv;
      EvPrint ("Translating dbt SQL in: " ++ location);
      EvPrint ("File: " ++ file_path);
      EvPrint ("From: " ++ source_warehouse ++ " -> To: " ++ target_warehouse) ]
    ++ log (Translate.resolve_source location file_path) w
    ++ match result (Translate.resolve_source location file_path) w with
       | Ok (inr (actual, source_file)) =>
           log (Translate.translate_resolved location file_path actual source_file
                                             source_warehouse target_warehouse) w
       | _ => []
       end.
Proof.
  intros location.
  unfold log, result, Translate.dbt_translate, load_dotenv, getenv_or_cwd, print, bind,
    emit, ask, ret.
  fold location.
  destruct (Translate.resolve_source location file_path w)
    as [[[early | [actual source_file]] | e] l]; cbn [fst snd app].
  - rewrite app_nil_r. reflexivity.
  - destruct (Translate.translate_resolved _ _ _ _ _ _ w). reflexivity.
  - rewrite app_nil_r. reflexivity.
Qed.

(** X8.  The router writes nothing but the reply of the model: a write
    happens only after the file meant was settled, read, and translated,
    its text is the translation, and its place is
    [<project>/translated/<target_warehouse>/<the file meant>]. *)
Theorem only_the_translation_is_written w file_path source_warehouse target_warehouse
        p text :
  let location := env_or_cwd "DBT_PROJECT_LOCATION" w in
  In (EvWrite p text)
     (log (Translate.dbt_translate file_path source_warehouse target_warehouse) w) ->
  exists actual source_file source_content,
    result (Translate.resolve_source location file_path) w
    = Ok (inr (actual, source_file))
    /\ result (read_path source_file) w = Ok source_content
    /\ generate_content w (Translate.translation_prompt
                             source_warehouse target_warehouse source_content)
       = inl text
    /\ p = Path.to_str (Spec.translated_file location target_warehouse actual).
Proof.
  intros location. rewrite dbt_translate_log. fold location.
  intros Hin. apply in_app_or in Hin. destruct Hin as [Hin | Hin].
  { cbn in Hin. intuition discriminate. }
  apply in_app_or in Hin. destruct Hin as [Hin | Hin].
  { exfalso. revert Hin.
    apply (allowed_excludes _ _ _ (resolve_source_looks_at_names w location file_path)).
    reflexivity. }
  destruct (result (Translate.resolve_source location file_path) w)
    as [[early | [actual source_file]] | e]; try contradiction.
  rewrite translate_resolved_log in Hin.
  destruct Hin as [Hin | Hin]; [discriminate |].
  destruct (result (read_path source_file) w) as [source_content |] eqn:Hread;
    [| contradiction].
  cbv zeta in Hin. destruct Hin as [Hin | Hin]; [discriminate |].
  destruct (generate_content w _) as [reply | why] eqn:Hreply; [| contradiction].
  destruct Hin as [Hin | Hin]; [discriminate |].
  destruct (mkdir_fault w _); [contradiction |].
  destruct Hin as [Hin | []]. injection Hin as <- <-.
  exists actual, source_file, source_content. repeat split; assumption || reflexivity.
Qed.

Lemma only_the_translation_is_written_witness :
  exists actual source_file source_content,
    result (Translate.resolve_source "/proj" "cents_to_dollars") Demo.world
    = Ok (inr (actual, source_file))
    /\ result (read_path source_file) Demo.world = Ok source_content
    /\ generate_content Demo.world
         (Translate.translation_prompt "snowflake" "bigquery" source_content)
       = inl "select 1"
    /\ "/proj/translated/bigquery/macros/cents_to_dollars.sql"
       = Path.to_str (Spec.translated_file "/proj" "bigquery" actual).
Proof.
  apply (only_the_translation_is_written Demo.world "cents_to_dollars"
           "snowflake" "bigquery").
  vm_compute. repeat (first [left; reflexivity | right]).
Defined.

(** X9.  When the path asked for is not on disk and the search does
    not find exactly one file, the router stops before anything is
    opened: no file is read, the model is not called, no directory is
    made and nothing is written. *)
Theorem unresolved_path_touches_nothing w file_path source_warehouse target_warehouse
        suggestions :
  let location := env_or_cwd "DBT_PROJECT_LOCATION" w in
  resolve w (Path.div (Path.of_str location) file_path) = None ->
  result (Translate._search_for_files location file_path Translate.default_extensions) w
  = Ok suggestions ->
  List.length suggestions <> 1 ->
  forallb (fun e => match e with
                    | EvLoadDotenv | EvPrint _ | EvExists _ | EvRglob _ _ => true
                    | _ => false
                    end)
          (log (Translate.dbt_translate file_path source_warehouse target_warehouse) w)
  = true.
Proof.
  intros location Hmissing Hsearch Hlen.
  rewrite dbt_translate_log. fold location.
  rewrite !forallb_app. apply andb_true_iff. split; [reflexivity |].
  apply andb_true_iff. split; [apply resolve_source_looks_at_names |].
  rewrite resolve_source_paths, Hmissing.
  destruct (stat_fault w _); [reflexivity |].
  rewrite Hsearch.
  destruct suggestions as [| only [| more rest]]; try reflexivity.
  cbn in Hlen. contradiction.
Qed.

Lemma unresolved_path_touches_nothing_witness :
  forallb (fun e => match e with
                    | EvLoadDotenv | EvPrint _ | EvExists _ | EvRglob _ _ => true
                    | _ => false
                    end)
          (log (Translate.dbt_translate "users" "snowflake" "bigquery") Demo.world)
  = true.
Proof.
  apply (unresolved_path_touches_nothing Demo.world "users" "snowflake" "bigquery"
           ["models/dim_users.sql"; "models/staging/stg_users.sql";
            "models/users_snapshot.sql"]).
  - reflexivity.
  - vm_compute. reflexivity.
  - cbn. discriminate.
Defined.

Lemma div_anchored p s : prefix "/" s = true -> Path.div p s = Path.of_str s.
Proof.
  intros H. unfold Path.div, Path.join.
  change (Path.anchored (Path.of_str s)) with (prefix "/" s). rewrite H. reflexivity.
Qed.

(** X10.  The output is not confined to the [translated] directory: a
    [file_path] that starts with a slash replaces the whole output path,
    so that when such a file exists and is translated with success, the
    translation is saved at the path of the source file itself. *)
Theorem absolute_path_is_overwritten w file_path source_warehouse target_warehouse d :
  let location := env_or_cwd "DBT_PROJECT_LOCATION" w in
  prefix "/" file_path = true ->
  resolve w (Path.of_str file_path) <> None ->
  result (Translate.dbt_translate file_path source_warehouse target_warehouse) w = Ok d ->
  dict_get "status" d = Some (VStr "success") ->
  Spec.translated_file location target_warehouse file_path = Path.of_str file_path
  /\ dict_get "source_file" d = Some (VStr (Path.to_str (Path.of_str file_path)))
  /\ dict_get "saved_path" d = Some (VStr (Path.to_str (Path.of_str file_path))).
Proof.
  intros location Habs Hexists Hrun Hstatus.
  assert (Htarget : Spec.translated_file location target_warehouse file_path
                    = Path.of_str file_path)
    by (unfold Spec.translated_file; apply div_anchored; exact Habs).
  split; [exact Htarget |].
  rewrite dbt_translate_unfold, resolve_source_paths in Hrun. fold location in Hrun.
  rewrite (div_anchored _ _ Habs) in Hrun.
  destruct (resolve w (Path.of_str file_path)); [| contradiction].
  rewrite translate_resolved_unfold in Hrun.
  destruct (result (read_path _) w); [| injection Hrun as <-; discriminate Hstatus].
  destruct (generate_content w _); [| injection Hrun as <-; discriminate Hstatus].
  cbv zeta in Hrun. rewrite Htarget in Hrun.
  destruct (mkdir_fault w _); [discriminate |].
  destruct (write_fault w _); injection Hrun as <-; [discriminate Hstatus |].
  split; reflexivity.
Qed.

Lemma absolute_path_is_overwritten_witness :
  Spec.translated_file "/proj" "bigquery" "/proj/models/dim_users.sql"
  = Path.of_str "/proj/models/dim_users.sql"
  /\ dict_get "source_file"
       (Translate.success_result "/proj/models/dim_users.sql" "/proj/models/dim_users.sql"
          "snowflake" "bigquery" "select 1" (Path.of_str "/proj/models/dim_users.sql")
          (Path.of_str "/proj/models/dim_users.sql"))
     = Some (VStr (Path.to_str (Path.of_str "/proj/models/dim_users.sql")))
  /\ dict_get "saved_path"
       (Translate.success_result "/proj/models/dim_users.sql" "/proj/models/dim_users.sql"
          "snowflake" "bigquery" "select 1" (Path.of_str "/proj/models/dim_users.sql")
          (Path.of_str "/proj/models/dim_users.sql"))
     = Some (VStr (Path.to_str (Path.of_str "/proj/models/dim_users.sql"))).
Proof.
  apply (absolute_path_is_overwritten Demo.world "/proj/models/dim_users.sql"
           "snowflake" "bigquery").
  - reflexivity.
  - vm_compute. discriminate.
  - vm_compute. reflexivity.
  - reflexivity.
Defined.



(** X12.  In every payload of the router [saved_path] is a path exactly
    when the status is [success], and it is [None] otherwise; a
    [clarification_needed] payload lists between two and ten
    suggestions and carries no translation. *)
Theorem router_payload_fields w file_path source_warehouse target_warehouse d :
  result (Translate.dbt_translate file_path source_warehouse target_warehouse) w = Ok d ->
  (dict_get "status" d = Some (VStr "success")
   /\ (exists p, dict_get "saved_path" d = Some (VStr p))
   /\ (exists text, dict_get "translated_content" d = Some (VStr text)))
  \/
  (dict_get "status" d = Some (VStr "error")
   /\ dict_get "saved_path" d = Some VNone)
  \/
  (dict_get "status" d = Some (VStr "clarification_needed")
   /\ dict_get "saved_path" d = Some VNone
   /\ dict_get "translated_content" d = Some VNone
   /\ exists items,
       dict_get "suggestions" d = Some (VStrs items)
       /\ 2 <= List.length items <= 10).
Proof.
  rewrite dbt_translate_unfold, resolve_source_paths.
  set (location := env_or_cwd "DBT_PROJECT_LOCATION" w).
  assert (Hdone : forall actual source_file,
             result (Translate.translate_resolved location file_path actual source_file
                                                  source_warehouse target_warehouse) w
             = Ok d ->
             (dict_get "status" d = Some (VStr "success")
              /\ (exists p, dict_get "saved_path" d = Some (VStr p))
              /\ (exists text, dict_get "translated_content" d = Some (VStr text)))
             \/ (dict_get "status" d = Some (VStr "error")
                 /\ dict_get "saved_path" d = Some VNone)).
  { intros actual source_file. rewrite translate_resolved_unfold.
    destruct (result (read_path source_file) w);
      [| intros [= <-]; right; split; reflexivity].
    destruct (generate_content w _); [| intros [= <-]; right; split; reflexivity].
    cbv zeta. destruct (mkdir_fault w _); [discriminate |].
    destruct (write_fault w _); intros [= <-].
    - right. split; reflexivity.
    - left. cbn. eauto. }
  destruct (resolve w _).
  - intros H. destruct (Hdone _ _ H) as [H' | H']; auto.
  - destruct (stat_fault w _); [discriminate |].
    destruct (result (Translate._search_for_files _ _ _) w)
      as [[| only [| more rest]] |]; try discriminate.
    + intros [= <-]. right. left. split; reflexivity.
    + intros H. destruct (Hdone _ _ H) as [H' | H']; auto.
    + intros [= <-]. right. right. repeat split.
      exists (firstn 10 (only :: more :: rest)). split; [reflexivity |]. split.
      * cbn. lia.
      * apply firstn_le_length.
Qed.

Lemma router_payload_fields_witness :
  exists items,
    dict_get "suggestions"
             (Translate.clarification_result "users"
                ["models/dim_users.sql"; "models/staging/stg_users.sql";
                 "models/users_snapshot.sql"])
    = Some (VStrs items)
    /\ 2 <= List.length items <= 10.
Proof.
  destruct (router_payload_fields Demo.world "users" "snowflake" "bigquery" _ eq_refl)
    as [(H & _) | [(H & _) | (_ & _ & _ & H)]];
    [discriminate H | discriminate H | exact H].
Defined.

(** X13.  A path that names a directory is never searched for: when
    [file_path] leads to a directory of the project (as the empty path,
    which is the project itself, or [models] do), the router returns the
    read error of that directory and proposes no file. *)
Theorem directory_path_is_a_read_error w file_path source_warehouse target_warehouse
        name children :
  let source_file :=
    Path.div (Path.of_str (env_or_cwd "DBT_PROJECT_LOCATION" w)) file_path in
  resolve w source_file = Some (Dir name children) ->
  result (Translate.dbt_translate file_path source_warehouse target_warehouse) w
  = Ok [ ("status", VStr "error");
         ("message",
          VStr ("Error reading file: [Errno 21] Is a directory: '"
                ++ Path.to_str source_file ++ "'"));
         ("translated_content", VNone);
         ("saved_path", VNone) ].
Proof.
  intros source_file Hdir.
  rewrite dbt_translate_unfold, resolve_source_paths. fold source_file.
  rewrite Hdir, translate_resolved_unfold.
  unfold read_path. rewrite result_bind, result_ask, Hdir. reflexivity.
Qed.

Lemma directory_path_is_a_read_error_witness :
  result (Translate.dbt_translate "" "snowflake" "bigquery") Demo.world
  = Ok [ ("status", VStr "error");
         ("message", VStr "Error reading file: [Errno 21] Is a directory: '/proj'");
         ("translated_content", VNone);
         ("saved_path", VNone) ].
Proof.
  eapply (directory_path_is_a_read_error Demo.world "" "snowflake" "bigquery").
  vm_compute. reflexivity.
Defined.

(** ** The scores of the classifier *)

Lemma apply_rules_gains sql star snowflake vault :
  Analyzer.apply_rules sql (Spec.scores star snowflake vault)
  = Spec.scores (star + Obs.star_gain sql) (snowflake + Obs.snowflake_gain sql)
                (vault + Obs.vault_gain sql).
Proof.
  rewrite apply_rules_scores.
  unfold Obs.star_gain, Obs.snowflake_gain, Obs.vault_gain, Spec.scores.
  rewrite <- Nat.add_assoc. reflexivity.
Qed.

Lemma classify_files_totals w files :
  forallb Spec.readable files = true ->
  forall star snowflake vault,
    result (for_each files Spec.classify_file (Spec.scores star snowflake vault)) w
    = Ok (Spec.scores (star + Obs.total Obs.star_gain files)
                      (snowflake + Obs.total Obs.snowflake_gain files)
                      (vault + Obs.total Obs.vault_gain files)).
Proof.
  unfold Obs.total, list_sum.
  induction files as [| f files IH]; intros Hread star snowflake vault.
  - cbn. rewrite !Nat.add_0_r. reflexivity.
  - cbn [forallb] in Hread. apply andb_true_iff in Hread. destruct Hread as [Hf Hrest].
    destruct (classify_readable w f (Spec.scores star snowflake vault) Hf)
      as (text & Hnode & Hrun).
    assert (Ht : Obs.text_of f = Py.lower text)
      by (unfold Obs.text_of; rewrite Hnode; reflexivity).
    cbn [for_each]. rewrite result_bind, Hrun, apply_rules_gains, (IH Hrest).
    cbn [map fold_right]. rewrite Ht, <- !Nat.add_assoc. reflexivity.
Qed.

Lemma classify_files_readable w files :
  forall patterns patterns',
    result (for_each files Spec.classify_file patterns) w = Ok patterns' ->
    forallb Spec.readable files = true.
Proof.
  induction files as [| f files IH]; intros patterns patterns' Hrun; [reflexivity |].
  cbn [for_each] in Hrun. rewrite result_bind in Hrun.
  destruct (result (Spec.classify_file f patterns) w) as [p1 |] eqn:Hf; [| discriminate].
  cbn [forallb]. rewrite (IH _ _ Hrun), andb_true_r.
  destruct f as [dir [name [text | why] | name ch]]; [reflexivity | |]; discriminate.
Qed.

Lemma total_bound gain k files :
  (forall sql, gain sql <= k) -> Obs.total gain files <= k * List.length files.
Proof.
  intros Hk. unfold Obs.total, list_sum.
  induction files as [| f files IH]; cbn [map fold_right length].
  - lia.
  - specialize (Hk (Obs.text_of f)). rewrite Nat.mul_succ_r. lia.
Qed.

Lemma total_perm gain files1 files2 :
  Permutation (map Obs.text_of files1) (map Obs.text_of files2) ->
  Obs.total gain files1 = Obs.total gain files2.
Proof.
  unfold Obs.total. intros Hperm.
  rewrite <- (map_map Obs.text_of gain files1), <- (map_map Obs.text_of gain files2).
  apply (Permutation_map gain) in Hperm.
  unfold list_sum. induction Hperm; cbn [fold_right]; lia.
Qed.

(** X14.  When every [.sql] file under the compiled directory can be
    read, each score is a sum over these files: a file adds to
    [star_schema] one for [join] with [ on ] and one for [dim_] or
    [fact_], to [snowflake_schema] one for [bridge_] or [snowflake_], and
    to [data_vault] one for [hub_], [link_] or [sat_], all looked for in
    its lower-cased text. *)
Theorem scores_are_sums w project_dir root :
  Spec.classifier_root w project_dir = Some root ->
  let files := Spec.sql_files (walk w (Spec.compiled_dir root)) in
  forallb Spec.readable files = true ->
  let star := Obs.total Obs.star_gain files in
  let snowflake := Obs.total Obs.snowflake_gain files in
  let vault := Obs.total Obs.vault_gain files in
  result (Analyzer.analyze_dbt_schema project_dir) w
  = Ok [ ("analysis",
          VDict [ ("star_schema", VInt (Z.of_nat star));
                  ("snowflake_schema", VInt (Z.of_nat snowflake));
                  ("data_vault", VInt (Z.of_nat vault)) ]);
         ("likely_modeling_pattern", VStr (Spec.first_max star snowflake vault)) ].
Proof.
  intros Hroot files Hread star snowflake vault.
  rewrite (analyze_unfold _ _ _ Hroot). fold files.
  rewrite (classify_files_totals w files Hread 0 0 0), max_key_scores. reflexivity.
Qed.

Lemma scores_are_sums_witness :
  result (Analyzer.analyze_dbt_schema None) Demo.world
  = Ok [ ("analysis",
          VDict [ ("star_schema", VInt 3); ("snowflake_schema", VInt 0);
                  ("data_vault", VInt 0) ]);
         ("likely_modeling_pattern", VStr "star_schema") ].
Proof.
  exact (scores_are_sums Demo.world None "/proj" eq_refl eq_refl).
Defined.

(** X15.  The classification does not depend on the order of the walk
    nor on where the files lie: two compiled directories whose readable
    [.sql] files have the same lower-cased texts, in any order, get the
    same payload. *)
Theorem classification_ignores_order w1 project_dir1 root1 w2 project_dir2 root2 :
  Spec.classifier_root w1 project_dir1 = Some root1 ->
  Spec.classifier_root w2 project_dir2 = Some root2 ->
  let files1 := Spec.sql_files (walk w1 (Spec.compiled_dir root1)) in
  let files2 := Spec.sql_files (walk w2 (Spec.compiled_dir root2)) in
  forallb Spec.readable files1 = true ->
  forallb Spec.readable files2 = true ->
  Permutation (map Obs.text_of files1) (map Obs.text_of files2) ->
  result (Analyzer.analyze_dbt_schema project_dir1) w1
  = result (Analyzer.analyze_dbt_schema project_dir2) w2.
Proof.
  intros Hroot1 Hroot2 files1 files2 Hread1 Hread2 Hperm.
  rewrite (analyze_unfold _ _ _ Hroot1), (analyze_unfold _ _ _ Hroot2).
  fold files1 files2.
  rewrite (classify_files_totals w1 files1 Hread1 0 0 0),
    (classify_files_totals w2 files2 Hread2 0 0 0).
  rewrite (total_perm Obs.star_gain _ _ Hperm),
    (total_perm Obs.snowflake_gain _ _ Hperm), (total_perm Obs.vault_gain _ _ Hperm).
  reflexivity.
Qed.

(** X16.  Whatever the classifier returns, no score exceeds what the
    files can give: [star_schema] is at most twice the number of [.sql]
    files under the compiled directory, [snowflake_schema] and
    [data_vault] at most that number. *)
Theorem scores_are_bounded w project_dir root d :
  Spec.classifier_root w project_dir = Some root ->
  result (Analyzer.analyze_dbt_schema project_dir) w = Ok d ->
  let n := List.length (Spec.sql_files (walk w (Spec.compiled_dir root))) in
  exists star snowflake vault,
    dict_get "analysis" d
    = Some (VDict [ ("star_schema", VInt (Z.of_nat star));
                    ("snowflake_schema", VInt (Z.of_nat snowflake));
                    ("data_vault", VInt (Z.of_nat vault)) ])
    /\ star <= 2 * n /\ snowflake <= n /\ vault <= n.
Proof.
  intros Hroot Hrun n. rewrite (analyze_unfold _ _ _ Hroot) in Hrun.
  destruct (result (for_each _ _ _) w) as [patterns |] eqn:Hloop; [| discriminate].
  pose proof (classify_files_readable _ _ _ _ Hloop) as Hread.
  rewrite (classify_files_totals w _ Hread 0 0 0) in Hloop. injection Hloop as <-.
  rewrite max_key_scores in Hrun. injection Hrun as <-.
  do 3 eexists. split; [reflexivity |]. cbn [Nat.add]. unfold n. repeat split.
  - apply total_bound. intros sql. unfold Obs.star_gain.
    destruct (_ && _), (Analyzer.any_tag _ sql); cbn; lia.
  - rewrite <- (Nat.mul_1_l (List.length _)). apply total_bound. intros sql.
    unfold Obs.snowflake_gain. destruct (Analyzer.any_tag _ sql); cbn; lia.
  - rewrite <- (Nat.mul_1_l (List.length _)). apply total_bound. intros sql.
    unfold Obs.vault_gain. destruct (Analyzer.any_tag _ sql); cbn; lia.
Qed.

Lemma scores_are_bounded_witness :
  exists star snowflake vault,
    dict_get "analysis"
      [ ("analysis",
         VDict [ ("star_schema", VInt 3); ("snowflake_schema", VInt 0);
                 ("data_vault", VInt 0) ]);
        ("likely_modeling_pattern", VStr "star_schema") ]
    = Some (VDict [ ("star_schema", VInt (Z.of_nat star));
                    ("snowflake_schema", VInt (Z.of_nat snowflake));
                    ("data_vault", VInt (Z.of_nat vault)) ])
    /\ star <= 2 * 2 /\ snowflake <= 2 /\ vault <= 2.
Proof.
  exact (scores_are_bounded Demo.world None "/proj" _ eq_refl eq_refl).
Defined.

Lemma classification_ignores_order_witness :
  result (Analyzer.analyze_dbt_schema None) Demo.world
  = result (Analyzer.analyze_dbt_schema (Some "/proj")) Cases.reordered.
Proof.
  apply (classification_ignores_order Demo.world None "/proj"
                                      Cases.reordered (Some "/proj") "/proj");
    try reflexivity.
  vm_compute. apply perm_swap.
Defined.

(** X17.  An empty [project_dir] counts as none given: the location
    then comes from [DBT_PROJECT_LOCATION]; and when that is not set
    either, the classifier raises a [TypeError] before it has looked at
    any directory. *)
Theorem classifier_needs_a_location w :
  Analyzer.analyze_dbt_schema (Some "") w = Analyzer.analyze_dbt_schema None w
  /\ (lookup_env "DBT_PROJECT_LOCATION" w = None ->
      Analyzer.analyze_dbt_schema None w
      = (Raised (Exn "TypeError"
                     "expected str, bytes or os.PathLike object, not NoneType"),
         [])).
Proof.
  split; [reflexivity |].
  intros Hunset. unfold Analyzer.analyze_dbt_schema, getenv, bind, ask, ret. cbv beta.
  cbn [fst snd Analyzer.or_else app]. rewrite Hunset. reflexivity.
Qed.

Lemma classifier_needs_a_location_witness :
  Analyzer.analyze_dbt_schema None Cases.bare
  = (Raised (Exn "TypeError" "expected str, bytes or os.PathLike object, not NoneType"),
     []).
Proof.
  exact (proj2 (classifier_needs_a_location Cases.bare) eq_refl).
Defined.

Lemma endswith_app suffix a b :
  Py.endswith suffix b = true -> Py.endswith suffix (a ++ b) = true.
Proof.
  intros H. induction a as [| c a IH]; [exact H |].
  cbn [append Py.endswith]. rewrite IH. apply orb_true_r.
Qed.

Lemma os_path_join_endswith suffix a b :
  Py.endswith suffix b = true -> Py.endswith suffix (os_path_join a b) = true.
Proof.
  intros H. unfold os_path_join.
  destruct ((a =? "") || Py.endswith "/" a); apply endswith_app; [exact H |].
  apply (endswith_app suffix "/" b H).
Qed.

(** X18.  The classifier opens nothing but [.sql] files: its only
    events are the walk of the compiled directory and reads of paths
    that end in [.sql]; it never writes, and files with another name are
    not opened, readable or not. *)
Theorem classifier_opens_only_sql w project_dir :
  forallb (fun e => match e with
                    | EvWalk _ => true
                    | EvRead p => Py.endswith ".sql" p
                    | _ => false
                    end)
          (log (Analyzer.analyze_dbt_schema project_dir) w)
  = true.
Proof.
  unfold Analyzer.analyze_dbt_schema.
  apply allowed_bind; [reflexivity |]. intros env _.
  destruct (Analyzer.or_else project_dir env) as [root |]; [| reflexivity].
  apply allowed_bind; [reflexivity |]. intros tree _.
  apply allowed_bind.
  - apply allowed_for_each. intros triple patterns _.
    apply allowed_for_each. intros entry patterns' _.
    unfold Analyzer.visit.
    destruct (Py.endswith ".sql" (node_name entry)) eqn:Hsql; [| reflexivity].
    apply allowed_bind; [| reflexivity].
    unfold read_node. apply allowed_bind.
    + cbn. rewrite (os_path_join_endswith _ _ _ Hsql). reflexivity.
    + intros _ _. destruct entry as [name [text | why] | name ch]; reflexivity.
  - intros patterns _. destruct (Analyzer.max_key patterns); reflexivity.
Qed.

(** On the reordered project the unreadable [notes.txt] is passed over. *)
Example classifier_skips_other_files :
  log (Analyzer.analyze_dbt_schema None) Cases.reordered
  = [ EvWalk "/proj/target/compiled";
      EvRead "/proj/target/compiled/b.sql";
      EvRead "/proj/target/compiled/deep/a.sql" ].
Proof. vm_compute. reflexivity. Qed.

(** ** The compile tools *)

(** The lines of a stream go through [json.loads] one by one: when none
    of them makes it raise anything but [JSONDecodeError], those that
    parse are appended, in order. *)
Lemma append_parsed_lines w lines :
  forallb (fun line => match json_loads w line with inl _ => true | inr _ => false end)
          lines
  = true ->
  forall logs,
    result (for_each lines Compile.append_parsed logs) w
    = Ok (logs
          ++ flat_map (fun line => match json_loads w line with
                                   | inl (Some v) => [v]
                                   | _ => []
                                   end)
                      lines).
Proof.
  intros Hlines. rewrite forallb_forall in Hlines.
  apply for_each_collect. intros line logs Hline. specialize (Hlines line Hline).
  unfold Compile.append_parsed. rewrite result_bind, result_ask.
  destruct (json_loads w line) as [[v |] | e]; [| | discriminate]; rewrite result_ret;
    [| rewrite app_nil_r]; reflexivity.
Qed.

Lemma collect_logs_streams w c :
  forallb (fun line => match json_loads w line with inl _ => true | inr _ => false end)
          (splitlines (stdout c) ++ splitlines (stderr c))
  = true ->
  result (Compile.collect_logs c) w
  = Ok (flat_map (fun line => match json_loads w line with
                              | inl (Some v) => [v]
                              | _ => []
                              end)
                 (splitlines (stdout c))
        ++ flat_map (fun line => match json_loads w line with
                                 | inl (Some v) => [v]
                                 | _ => []
                                 end)
                    (splitlines (stderr c))).
Proof.
  rewrite forallb_app. intros H. apply andb_true_iff in H. destruct H as [Hout Herr].
  unfold Compile.collect_logs. cbn [for_each].
  rewrite result_bind, (append_parsed_lines _ _ Hout).
  rewrite result_bind, (append_parsed_lines _ _ Herr). reflexivity.
Qed.

(** Parsing prints nothing and touches nothing. *)
Lemma collect_logs_silent w c : log (Compile.collect_logs c) w = [].
Proof.
  assert (H : forallb (fun _ : event => false) (log (Compile.collect_logs c) w) = true).
  { unfold Compile.collect_logs. apply allowed_for_each. intros stream logs _.
    apply allowed_for_each. intros line logs' _.
    unfold log, Compile.append_parsed, bind, ask, ret, raise. cbn.
    destruct (json_loads w line) as [[v |] | e]; reflexivity. }
  destruct (log (Compile.collect_logs c) w); [reflexivity | discriminate].
Qed.

Lemma parsed_lines_le (loads : string -> option pyval + exn) (lines : list string) :
  List.length (flat_map (fun line => match loads line with
                                     | inl (Some v) => [v]
                                     | _ => []
                                     end)
                        lines)
  <= List.length lines.
Proof.
  induction lines as [| l lines IH]; [apply le_n |].
  cbn [flat_map length]. rewrite length_app.
  destruct (loads l) as [[v |] | e]; cbn [length]; lia.
Qed.

(** X19.  The compile tool reports a build that fails as it reports one
    that succeeds: whatever the return code, the payload carries it
    unchanged, and the logs are the lines of standard output that parse
    as JSON followed by those of standard error, so that there are never
    more log entries than lines.  This is so when [json.loads] raises
    nothing but [JSONDecodeError] on these lines; any other exception
    of [json.loads] leaves the tool. *)
Theorem compile_reports_any_return_code w compile exe c :
  lookup_env "DBT_EXECUTABLE" w = Some exe ->
  run_process w [exe; "compile"; "--log-format"; "json"]
              (env_or_cwd "DBT_PROJECT_LOCATION" w)
  = inl c ->
  forallb (fun line => match json_loads w line with inl _ => true | inr _ => false end)
          (splitlines (stdout c) ++ splitlines (stderr c))
  = true ->
  let parsed lines :=
    flat_map (fun line => match json_loads w line with
                          | inl (Some v) => [v]
                          | _ => []
                          end)
             lines in
  result (Compile.dbt_compile compile) w
  = Ok [ ("returncode", VInt (returncode c));
         ("logs", VList (parsed (splitlines (stdout c))
                         ++ parsed (splitlines (stderr c)))) ]
  /\ List.length (parsed (splitlines (stdout c)) ++ parsed (splitlines (stderr c)))
     <= List.length (splitlines (stdout c)) + List.length (splitlines (stderr c)).
Proof.
  intros Hexe Hrun Hlines parsed. split.
  - unfold Compile.dbt_compile, load_dotenv, getenv. run. rewrite Hexe.
    unfold subprocess_run. run. rewrite Hrun. run.
    rewrite (collect_logs_streams _ _ Hlines). reflexivity.
  - rewrite length_app. unfold parsed.
    pose proof (parsed_lines_le (json_loads w) (splitlines (stdout c))).
    pose proof (parsed_lines_le (json_loads w) (splitlines (stderr c))). lia.
Qed.

Lemma compile_reports_any_return_code_witness :
  result (Compile.dbt_compile "") Cases.failing_build
  = Ok [ ("returncode", VInt 2); ("logs", VList [VDict []; VDict []]) ].
Proof.
  exact (proj1 (compile_reports_any_return_code Cases.failing_build "" "dbt"
                  (Completed 2 ("{}" ++ Py.nl ++ "Compilation Error") "{}")
                  eq_refl eq_refl eq_refl)).
Defined.

(** A line on which [json.loads] raises a [RecursionError]: the
    exception is not a [JSONDecodeError], so it leaves the tool, after
    the process has run. *)
Example compile_deep_line :
  result (Compile.dbt_compile "") Cases.deep_line
  = Raised (Exn "RecursionError"
                "maximum recursion depth exceeded while decoding a JSON array")
  /\ existsb (fun e => match e with EvRun _ _ => true | _ => false end)
             (log (Compile.dbt_compile "") Cases.deep_line)
     = true.
Proof. split; vm_compute; reflexivity. Qed.

(** X20.  Without [DBT_EXECUTABLE] the compile tool of the root agent
    raises a [TypeError] and starts no process; the compile tool of the
    analyzer agent falls back on [dbt] instead and runs it, in the
    working directory when no project location is set. *)
Theorem compile_without_executable w compile :
  lookup_env "DBT_EXECUTABLE" w = None ->
  (result (Compile.dbt_compile compile) w
   = Raised (Exn "TypeError" "expected str, bytes or os.PathLike object, not NoneType")
   /\ forallb (fun e => match e with EvRun _ _ => false | _ => true end)
              (log (Compile.dbt_compile compile) w)
      = true)
  /\
  (lookup_env "DBT_PROJECT_LOCATION" w = None ->
   log (Analyzer.dbt_compile compile) w
   = [EvRun ["dbt"; "compile"; "--log-format"; "json"] (cwd w)]).
Proof.
  intros Hexe. split; [split |].
  - unfold Compile.dbt_compile, load_dotenv, getenv. run. rewrite Hexe. reflexivity.
  - unfold log, Compile.dbt_compile, load_dotenv, getenv, getenv_or_cwd, print,
      subprocess_run.
    unfold bind, emit, ask, ret, raise. cbv beta. cbn [fst snd]. rewrite Hexe.
    reflexivity.
  - intros Hloc.
    unfold log, Analyzer.dbt_compile, getenv, subprocess_run.
    unfold bind, emit, ask, ret, raise. cbv beta. cbn [fst snd]. rewrite Hexe, Hloc.
    cbn [fst snd app]. destruct (run_process w _ _) as [c | e]; [| reflexivity].
    pose proof (collect_logs_silent w c) as Hsilent. unfold log in Hsilent.
    destruct (Compile.collect_logs c w) as [[logs | e] l]; cbn [snd] in Hsilent;
      subst l; reflexivity.
Qed.

Lemma compile_without_executable_witness :
  result (Compile.dbt_compile "") Cases.bare
  = Raised (Exn "TypeError" "expected str, bytes or os.PathLike object, not NoneType")
  /\ log (Analyzer.dbt_compile "") Cases.bare
     = [EvRun ["dbt"; "compile"; "--log-format"; "json"] "/proj"].
Proof.
  destruct (compile_without_executable Cases.bare "" eq_refl) as [[Hraise _] Hrun].
  split; [exact Hraise | exact (Hrun eq_refl)].
Defined.

(** X21.  With both variables set the two compile tools run the same
    command in the same directory and agree: the analyzer's payload is
    that of the root agent's tool with [project_dir] added, and it
    raises when the other raises. *)
Theorem compile_tools_agree w compile1 compile2 exe location :
  lookup_env "DBT_EXECUTABLE" w = Some exe ->
  lookup_env "DBT_PROJECT_LOCATION" w = Some location ->
  result (Analyzer.dbt_compile compile2) w
  = match result (Compile.dbt_compile compile1) w with
    | Ok d => Ok (d ++ [("project_dir", VStr location)])
    | Raised e => Raised e
    end.
Proof.
  intros Hexe Hloc.
  unfold Analyzer.dbt_compile, Compile.dbt_compile, load_dotenv, getenv. run.
  unfold env_or_cwd. rewrite Hexe, Hloc. unfold subprocess_run. run.
  destruct (run_process w _ _) as [c | e]; run; [| reflexivity].
  destruct (result (Compile.collect_logs c) w); run; reflexivity.
Qed.

Lemma compile_tools_agree_witness :
  result (Analyzer.dbt_compile "") Demo.world
  = Ok [ ("returncode", VInt 0); ("logs", VList [VDict []]);
         ("project_dir", VStr "/proj") ].
Proof.
  exact (compile_tools_agree Demo.world "test" "" "dbt" "/proj" eq_refl eq_refl).
Defined.

(** ** The suggestions of the file search *)

Lemma str_lt_trans a b c : Obs.str_lt a b -> Obs.str_lt b c -> Obs.str_lt a c.
Proof.
  unfold Obs.str_lt. intros Hab Hbc.
  apply String_as_OT.cmp_lt. apply String_as_OT.cmp_lt in Hab, Hbc.
  exact (String_as_OT.lt_trans _ _ _ Hab Hbc).
Qed.

Lemma str_gt_lt a b : String.compare a b = Gt -> Obs.str_lt b a.
Proof.
  unfold Obs.str_lt. intros H. rewrite String.compare_antisym, H. reflexivity.
Qed.

Lemma insert_uniq_hd y x l :
  HdRel Obs.str_lt y l -> Obs.str_lt y x -> HdRel Obs.str_lt y (Py.insert_uniq x l).
Proof.
  intros Hl Hx. destruct l as [| z l]; cbn [Py.insert_uniq].
  - constructor. exact Hx.
  - destruct (String.compare x z); [exact Hl | constructor; exact Hx |].
    inversion Hl. constructor. assumption.
Qed.

Lemma insert_uniq_sorted x l :
  Sorted Obs.str_lt l -> Sorted Obs.str_lt (Py.insert_uniq x l).
Proof.
  induction l as [| y l IH]; intros Hs; cbn [Py.insert_uniq].
  - repeat constructor.
  - destruct (String.compare x y) eqn:E.
    + exact Hs.
    + constructor; [exact Hs |]. constructor. exact E.
    + inversion Hs as [| ? ? Hrest Hhd]. subst. constructor; [exact (IH Hrest) |].
      apply insert_uniq_hd; [exact Hhd | apply str_gt_lt; exact E].
Qed.

Lemma sorted_set_sorted l : StronglySorted Obs.str_lt (Py.sorted_set l).
Proof.
  apply Sorted_StronglySorted; [exact str_lt_trans |].
  induction l as [| x l IH]; [constructor |].
  unfold Py.sorted_set in *. cbn [fold_right]. apply insert_uniq_sorted. exact IH.
Qed.

(** X22.  The suggestions of the file search come strictly increasing
    in code-point order: each is smaller than every one after it, so the
    list is sorted and holds no path twice, also when a file qualifies
    under several extensions. *)
Theorem suggestions_strictly_increase w dbt_root search_term extensions suggestions :
  result (Translate._search_for_files dbt_root search_term extensions) w = Ok suggestions ->
  StronglySorted (fun a b => String.compare a b = Lt) suggestions.
Proof.
  rewrite search_unfold.
  destruct (result (Translate.search_under _ _ _) w); [| discriminate].
  intros [= <-]. apply sorted_set_sorted.
Qed.

Lemma suggestions_strictly_increase_witness :
  StronglySorted (fun a b => String.compare a b = Lt)
    ["models/dim_users.sql"; "models/staging/stg_users.sql"; "models/users_snapshot.sql"].
Proof.
  apply (suggestions_strictly_increase Demo.world "" "users" [".sql"; ".sql"]).
  vm_compute. reflexivity.
Defined.

Lemma contains_empty s : Py.contains "" s = true.
Proof. destruct s; reflexivity. Qed.

(** X23.  A search term that is empty once cleaned, as the empty term,
    [.sql] or [.SQL] are, qualifies every file: the suggestions are then
    the relative paths of all the entries that [rglob] yields below the
    four directories, whenever the project can be listed. *)
Theorem empty_term_finds_everything w dbt_root search_term extensions :
  Translate.search_clean search_term = "" ->
  let dbt_path := Path.of_str (env_or_cwd "DBT_PROJECT_LOCATION" w) in
  Spec.listable w dbt_path extensions = true ->
  exists suggestions,
    result (Translate._search_for_files dbt_root search_term extensions) w
    = Ok suggestions
    /\ forall rel,
        In rel suggestions <->
        exists search_dir ext entry rel_path,
          In search_dir ["models"; "macros"; "analyses"; "tests"]
          /\ In ext extensions
          /\ In entry (glob w (Path.div dbt_path search_dir) ext)
          /\ Path.relative_to (fst entry) dbt_path = Some rel_path
          /\ rel = Path.to_str rel_path.
Proof.
  intros Hclean dbt_path Hlist.
  assert (Hall : forall stem rel, Spec.qualifies search_term stem rel = true).
  { intros stem rel. unfold Spec.qualifies. rewrite Hclean, !contains_empty.
    rewrite orb_true_r. reflexivity. }
  exists (Py.sorted_set (Spec.found_under w dbt_path search_term extensions)). split.
  - exact (search_returns _ _ _ _ Hlist).
  - intros rel. rewrite In_sorted_set. unfold Spec.found_under.
    rewrite in_flat_map. split.
    + intros (search_dir & Hdir & Hin). apply in_flat_map in Hin.
      destruct Hin as (ext & Hext & Hin). apply in_flat_map in Hin.
      destruct Hin as (entry & Hentry & Hin). unfold Spec.kept in Hin.
      destruct (Path.relative_to (fst entry) dbt_path) as [rel_path |] eqn:Hrel;
        [| destruct Hin].
      rewrite Hall in Hin. destruct Hin as [<- | []].
      exists search_dir, ext, entry, rel_path. repeat split; assumption.
    + intros (search_dir & ext & entry & rel_path & Hdir & Hext & Hentry & Hrel & ->).
      exists search_dir. split; [exact Hdir |].
      apply in_flat_map. exists ext. split; [exact Hext |].
      apply in_flat_map. exists entry. split; [exact Hentry |].
      unfold Spec.kept. rewrite Hrel, Hall. left. reflexivity.
Qed.

Lemma empty_term_finds_everything_witness :
  exists suggestions,
    result (Translate._search_for_files "/proj" ".SQL" Translate.default_extensions)
           Demo.world
    = Ok suggestions
    /\ List.length suggestions = 6.
Proof.
  destruct (empty_term_finds_everything Demo.world "/proj" ".SQL"
              Translate.default_extensions eq_refl eq_refl)
    as (suggestions & Hrun & _).
  exists suggestions. split; [exact Hrun |].
  vm_compute in Hrun. injection Hrun as <-. reflexivity.
Defined.

(** ** The case of the search term *)

(** Loops whose rounds come to the same come to the same. *)
Lemma for_each_result_ext {A S} (f g : A -> S -> M S) w xs :
  (forall x s, In x xs -> result (f x s) w = result (g x s) w) ->
  forall s, result (for_each xs f s) w = result (for_each xs g s) w.
Proof.
  induction xs as [| x xs IH]; intros Hsame s; [reflexivity |].
  cbn [for_each]. rewrite !result_bind, (Hsame x s (or_introl eq_refl)).
  destruct (result (g x s) w); [| reflexivity].
  apply IH. intros y t Hy. apply Hsame. right. exact Hy.
Qed.

Lemma lower_char_idem c : Py.lower_char (Py.lower_char c) = Py.lower_char c.
Proof. destruct c as [[] [] [] [] [] [] [] []]; reflexivity. Qed.

Lemma lower_idem s : Py.lower (Py.lower s) = Py.lower s.
Proof.
  induction s as [| c s IH]; [reflexivity |].
  cbn [Py.lower]. rewrite lower_char_idem, IH. reflexivity.
Qed.

Lemma lower_char_slash c : Ascii.eqb (Py.lower_char c) "/" = Ascii.eqb c "/".
Proof. destruct c as [[] [] [] [] [] [] [] []]; reflexivity. Qed.

Lemma lower_char_dot c : Ascii.eqb (Py.lower_char c) "." = Ascii.eqb c ".".
Proof. destruct c as [[] [] [] [] [] [] [] []]; reflexivity. Qed.

Lemma split_lower s : Py.split "/" (Py.lower s) = map Py.lower (Py.split "/" s).
Proof.
  induction s as [| c s IH]; [reflexivity |].
  cbn [Py.lower Py.split]. rewrite lower_char_slash, IH.
  destruct (Ascii.eqb c "/"); [reflexivity |].
  destruct (Py.split "/" s); reflexivity.
Qed.

Lemma kept_lower c : Path.kept (Py.lower c) = Path.kept c.
Proof.
  unfold Path.kept. destruct c as [| a [| b r]]; try reflexivity.
  - cbn [Py.lower String.eqb]. rewrite lower_char_dot. reflexivity.
  - cbn [Py.lower String.eqb]. rewrite lower_char_dot.
    destruct (Ascii.eqb a "."); reflexivity.
Qed.

Lemma parts_lower l :
  filter Path.kept (map Py.lower l) = map Py.lower (filter Path.kept l).
Proof.
  induction l as [| c l IH]; [reflexivity |].
  cbn [map filter]. rewrite kept_lower, IH. destruct (Path.kept c); reflexivity.
Qed.

Lemma last_lower l : List.last (map Py.lower l) "" = Py.lower (List.last l "").
Proof.
  induction l as [| c l IH]; [reflexivity |].
  destruct l as [| d l]; [reflexivity |]. exact IH.
Qed.

Lemma name_lower s :
  Path.name (Path.of_str (Py.lower s)) = Py.lower (Path.name (Path.of_str s)).
Proof.
  unfold Path.name, Path.of_str. cbn [Path.parts].
  rewrite split_lower, parts_lower, last_lower. reflexivity.
Qed.

Lemma cleaned_forms_lower search_term :
  Translate.search_clean (Py.lower search_term) = Translate.search_clean search_term
  /\ Translate.search_filename (Py.lower search_term)
     = Translate.search_filename search_term.
Proof.
  unfold Translate.search_clean, Translate.search_filename.
  rewrite name_lower, !lower_idem. split; reflexivity.
Qed.

(** X24.  The file search does not tell the case of the search term:
    two terms that are equal once lower-cased get the same suggestions. *)
Theorem search_ignores_case w dbt_root term1 term2 extensions :
  Py.lower term1 = Py.lower term2 ->
  result (Translate._search_for_files dbt_root term1 extensions) w
  = result (Translate._search_for_files dbt_root term2 extensions) w.
Proof.
  intros Hsame.
  destruct (cleaned_forms_lower term1) as [Hc1 Hf1].
  destruct (cleaned_forms_lower term2) as [Hc2 Hf2].
  rewrite Hsame in Hc1, Hf1.
  rewrite !search_unfold.
  assert (Hunder :
            result (Translate.search_under
                      (Path.of_str (env_or_cwd "DBT_PROJECT_LOCATION" w)) term1 extensions) w
            = result (Translate.search_under
                        (Path.of_str (env_or_cwd "DBT_PROJECT_LOCATION" w)) term2
                        extensions) w).
  { unfold Translate.search_under.
    apply for_each_result_ext. intros search_dir matches _. rewrite !result_bind.
    destruct (result (exists_ _) w) as [present |]; [| reflexivity].
    destruct (negb present); [reflexivity |].
    apply for_each_result_ext. intros ext matches' _. rewrite !result_bind.
    destruct (result (rglob _ _) w) as [found |]; [| reflexivity].
    apply for_each_result_ext. intros entry matches'' _.
    unfold Translate.visit_file. rewrite <- Hc1, <- Hf1, Hc2, Hf2. reflexivity. }
  rewrite Hunder. reflexivity.
Qed.

Lemma search_ignores_case_witness :
  result (Translate._search_for_files "/proj" "STG_Users.SQL" [".sql"]) Demo.world
  = result (Translate._search_for_files "/proj" "stg_users.sql" [".sql"]) Demo.world.
Proof.
  exact (search_ignores_case Demo.world "/proj" "STG_Users.SQL" "stg_users.sql" [".sql"]
                             eq_refl).
Defined.

(** ** Warnings and calls *)





Lemma names_only_filter (keep : event -> bool) l :
  (forall e, Obs.looks_at_names e = true -> keep e = false) ->
  forallb Obs.looks_at_names l = true ->
  filter keep l = [].
Proof.
  intros Hkeep. induction l as [| e l IH]; intros Hall; [reflexivity |].
  cbn [forallb] in Hall. apply andb_true_iff in Hall. destruct Hall as [He Hl].
  cbn [filter]. rewrite (Hkeep e He). exact (IH Hl).
Qed.

(** X26.  One request to the router calls the model at most once and
    writes at most one file: a failure of the model or of the write is
    reported and not tried again. *)
Theorem router_calls_and_writes_once w file_path source_warehouse target_warehouse :
  List.length
    (filter Obs.is_call
            (log (Translate.dbt_translate file_path source_warehouse target_warehouse) w))
  <= 1
  /\ List.length
       (filter Obs.is_write
               (log (Translate.dbt_translate file_path source_warehouse target_warehouse) w))
     <= 1.
Proof.
  rewrite dbt_translate_log. cbv zeta.
  set (location := env_or_cwd "DBT_PROJECT_LOCATION" w).
  pose proof (resolve_source_looks_at_names w location file_path) as Hnames.
  rewrite !filter_app.
  rewrite (names_only_filter Obs.is_call _
             (fun e He => ltac:(destruct e; try discriminate He; reflexivity)) Hnames).
  rewrite (names_only_filter Obs.is_write _
             (fun e He => ltac:(destruct e; try discriminate He; reflexivity)) Hnames).
  cbn [filter Obs.is_call Obs.is_write app length].
  destruct (result (Translate.resolve_source location file_path) w)
    as [[early | [actual source_file]] | e]; cbn [filter length]; try lia.
  rewrite translate_resolved_log.
  destruct (result (read_path source_file) w); cbn [filter Obs.is_call Obs.is_write length];
    try lia.
  destruct (generate_content w _); cbn [filter Obs.is_call Obs.is_write length]; try lia.
  destruct (mkdir_fault w _); cbn [filter Obs.is_call Obs.is_write length]; lia.
Qed.

(** ** The shape of the paths that are suggested *)

(** Induction on a tree of files, with the children of a directory at
    hand. *)
Lemma node_induction (P : node -> Prop) :
  (forall name data, P (File name data)) ->
  (forall name children, Forall P children -> P (Dir name children)) ->
  forall n, P n.
Proof.
  intros Hfile Hdir. fix IH 1. intros [name data | name children].
  - apply Hfile.
  - apply Hdir. induction children as [| c children IHc]; constructor.
    + apply IH.
    + exact IHc.
Qed.

Lemma rglob_node_shape ext n :
  forall here e,
    In e (rglob_node ext here n) ->
    exists middle name,
      fst e = here ++ middle ++ [name] /\ Py.endswith ext name = true.
Proof.
  induction n as [name data | nm children IH] using node_induction; intros here e Hin.
  - destruct Hin.
  - cbn [rglob_node] in Hin. apply in_app_or in Hin. destruct Hin as [Hin | Hin].
    + apply in_map_iff in Hin. destruct Hin as (c & <- & Hc).
      apply filter_In in Hc. destruct Hc as [_ Hext].
      exists [nm], (node_name c). split; [reflexivity | exact Hext].
    + apply in_flat_map in Hin. destruct Hin as (c & Hc & Hin).
      rewrite Forall_forall in IH.
      destruct (IH c Hc _ _ Hin) as (middle & name & Hpath & Hext).
      exists (nm :: middle), name. split; [| exact Hext].
      rewrite Hpath, <- app_assoc. reflexivity.
Qed.

(** What [rglob] yields for a plain extension lies below the directory
    and bears a name that ends in the extension. *)
Lemma glob_shape w d ext e :
  plain ext = true ->
  In e (glob w d ext) ->
  exists middle name,
    fst e = Path.mk (Path.anchored d) (Path.parts d ++ middle ++ [name])
    /\ Py.endswith ext name = true.
Proof.
  intros Hplain. unfold glob, rglob_outcome, under. rewrite Hplain.
  destruct (resolve w d) as [[fname fdata | dname children] |];
    try contradiction.
  intros Hin. apply in_map_iff in Hin. destruct Hin as ([rel n] & <- & Hin).
  unfold rglob_children in Hin. apply in_app_or in Hin. cbn [fst snd].
  destruct Hin as [Hin | Hin].
  - apply in_map_iff in Hin. destruct Hin as (c & [= <- <-] & Hc).
    apply filter_In in Hc. destruct Hc as [_ Hext].
    exists [], (node_name c). split; [reflexivity | exact Hext].
  - apply in_flat_map in Hin. destruct Hin as (c & _ & Hin).
    destruct (rglob_node_shape ext c [] _ Hin) as (middle & name & Hpath & Hext).
    cbn [fst app] in Hpath. exists middle, name. rewrite Hpath. auto.
Qed.

Lemma prefix_app a b : prefix a (a ++ b) = true.
Proof.
  induction a as [| c a IH]; [destruct b; reflexivity |].
  cbn. destruct (ascii_dec c c) as [_ | N]; [exact IH | contradiction].
Qed.

Lemma prefix_app_app a b c : prefix (a ++ b) (a ++ b ++ c) = true.
Proof.
  induction a as [| x a IH]; [exact (prefix_app b c) |].
  cbn. destruct (ascii_dec x x) as [_ | N]; [exact IH | contradiction].
Qed.

Lemma join_endswith suffix l name :
  Py.endswith suffix name = true ->
  Py.endswith suffix (Py.join "/" (l ++ [name])) = true.
Proof.
  intros H. unfold Py.join. induction l as [| x l IH]; [exact H |].
  cbn [app String.concat].
  destruct (l ++ [name]) as [| y r] eqn:E; [destruct l; discriminate |].
  apply endswith_app. apply (endswith_app suffix "/"). exact IH.
Qed.

(** X27.  When the extensions asked for are plain ones, without
    wildcards or separators of their own, whatever the file search
    suggests is a path relative to the project that begins with
    [models/], [macros/], [analyses/] or [tests/] and ends with one of
    these extensions: nothing out of [target] or [translated] is ever
    suggested. *)
Theorem suggestions_lie_in_source_dirs w dbt_root search_term extensions suggestions rel :
  forallb plain extensions = true ->
  result (Translate._search_for_files dbt_root search_term extensions) w = Ok suggestions ->
  In rel suggestions ->
  (exists search_dir,
      In search_dir ["models"; "macros"; "analyses"; "tests"]
      /\ prefix (search_dir ++ "/") rel = true)
  /\ (exists ext, In ext extensions /\ Py.endswith ext rel = true).
Proof.
  intros Hplain. rewrite forallb_forall in Hplain. rewrite search_unfold.
  destruct (result (Translate.search_under _ _ _) w) as [matches |] eqn:Hunder;
    [| discriminate].
  apply search_under_exact in Hunder. subst matches. intros [= <-] Hin.
  rewrite In_sorted_set in Hin. unfold Spec.found_under in Hin.
  apply in_flat_map in Hin. destruct Hin as (search_dir & Hdir & Hin).
  apply in_flat_map in Hin. destruct Hin as (ext & Hext & Hin).
  apply in_flat_map in Hin. destruct Hin as (entry & Hentry & Hin).
  set (dbt_path := Path.of_str (env_or_cwd "DBT_PROJECT_LOCATION" w)) in *.
  assert (Hdiv : Path.div dbt_path search_dir
                 = Path.mk (Path.anchored dbt_path) (Path.parts dbt_path ++ [search_dir])).
  { cbn in Hdir. destruct Hdir as [<- | [<- | [<- | [<- | []]]]]; reflexivity. }
  destruct (glob_shape _ _ _ _ (Hplain ext Hext) Hentry) as (middle & name & Hpath & Hname).
  rewrite Hdiv in Hpath. cbn [Path.anchored Path.parts] in Hpath.
  rewrite <- app_assoc in Hpath. unfold Spec.kept in Hin.
  rewrite Hpath, relative_to_under in Hin.
  destruct (Spec.qualifies _ _ _); [| destruct Hin].
  destruct Hin as [<- | []]. split.
  - exists search_dir. split; [exact Hdir |].
    unfold Path.to_str. cbn [Path.anchored Path.parts app]. unfold Py.join.
    cbn [String.concat].
    destruct (middle ++ [name]) as [| y r] eqn:E; [destruct middle; discriminate |].
    apply prefix_app_app.
  - exists ext. split; [exact Hext |].
    unfold Path.to_str. cbn [Path.anchored Path.parts].
    change ([search_dir] ++ middle ++ [name]) with ((search_dir :: middle) ++ [name]).
    destruct ((search_dir :: middle) ++ [name]) eqn:E; [discriminate |].
    rewrite <- E. apply join_endswith. exact Hname.
Qed.

Lemma suggestions_lie_in_source_dirs_witness :
  (exists search_dir,
      In search_dir ["models"; "macros"; "analyses"; "tests"]
      /\ prefix (search_dir ++ "/") "macros/cents_to_dollars.sql" = true)
  /\ (exists ext,
         In ext [".sql"] /\ Py.endswith ext "macros/cents_to_dollars.sql" = true).
Proof.
  apply (suggestions_lie_in_source_dirs Demo.world "/proj" "cents" [".sql"]
           ["macros/cents_to_dollars.sql"]).
  - reflexivity.
  - vm_compute. reflexivity.
  - left. reflexivity.
Defined.

(** With an extension that holds a wildcard the suggestions need not end
    in it, and a pattern that [rglob] refuses ends the search. *)
Example wildcard_extensions :
  result (Translate._search_for_files "/proj" "cents" [".s?l"]) Cases.with_patterns
  = Ok ["macros/cents_to_dollars.sql"]
  /\ result (Translate._search_for_files "/proj" "cents" ["*.sql"]) Cases.with_patterns
     = Raised (Exn "ValueError"
                   "Invalid pattern: '**' can only be an entire path component").
Proof. split; vm_compute; reflexivity. Qed.

(** X28.  The dialect scan does not tell the case of the warehouse
    tag: two tags that are equal once lower-cased give the same status
    and the same list of candidates, whatever the target warehouse. *)
Theorem scan_ignores_tag_case w tag1 target1 tag2 target2 d1 d2 :
  Py.lower tag1 = Py.lower tag2 ->
  result (Translate.dbt_identify_translation_candidates tag1 target1) w = Ok d1 ->
  result (Translate.dbt_identify_translation_candidates tag2 target2) w = Ok d2 ->
  dict_get "status" d1 = dict_get "status" d2
  /\ dict_get "candidates" d1 = dict_get "candidates" d2.
Proof.
  intros Hsame.
  destruct (Translate.patterns_for (Py.lower tag2)) as [patterns |] eqn:Hp2.
  - assert (Hp1 : Translate.patterns_for (Py.lower tag1) = Some patterns)
      by (rewrite Hsame; exact Hp2).
    intros Hrun1 Hrun2.
    rewrite (scan_payload _ _ _ _ _ Hp1 Hrun1), (scan_payload _ _ _ _ _ Hp2 Hrun2).
    rewrite !scan_result_candidates, !scan_result_status. split; reflexivity.
  - rewrite !scan_unfold, Hsame, Hp2. intros [= <-] [= <-]. split; reflexivity.
Qed.

Lemma scan_ignores_tag_case_witness :
  dict_get "candidates"
    match result (Translate.dbt_identify_translation_candidates "SnowFlake" None)
                 Demo.world with
    | Ok d => d
    | Raised _ => []
    end
  = dict_get "candidates"
      match result (Translate.dbt_identify_translation_candidates
                      "snowflake" (Some "bigquery")) Demo.world with
      | Ok d => d
      | Raised _ => []
      end.
Proof.
  exact (proj2 (scan_ignores_tag_case Demo.world "SnowFlake" None
                  "snowflake" (Some "bigquery") _ _ eq_refl eq_refl eq_refl)).
Defined.
